(** * DegenomicsAI backend: the tokenomics generation and reporting pipeline

    A shallow embedding of [backend/server.py]: the pydantic models, the
    fallback generator, the decode-and-validate step of the generation
    orchestrator, the chart projection, the PDF report layout and the
    lookup route, followed by the properties proved about them.

    Conventions.
    - Python [str] is [string]; a character is a code point below 256.
    - Python [int] is [Z]; Python [float] is the primitive binary64 [float].
    - A [dict] decoded from JSON is a [gmap string json].
    - [uuid.uuid4()] and [datetime.now()] read a [World] that is threaded
      through every constructor call.
    - An exception is a value of [Exception]; code inside [try] runs in the
      [result] monad and the [except] clause is a [match]. *)

From Stdlib Require Import ZArith QArith String Ascii List Floats Lia DecimalString.
From stdpp Require Import base option list strings gmap.

Local Open Scope string_scope.
Local Open Scope list_scope.

(** ** Python string primitives *)

Module Py.

(** [str.isspace] for one character (code points below 256). *)
Definition isspace (c : ascii) : bool :=
  let n := N_of_ascii c in
  (((9 <=? n) && (n <=? 13)) || ((28 <=? n) && (n <=? 32))
   || (n =? 133) || (n =? 160))%N.

(** Dropping the characters that satisfy [p] from the left end, and from the
    right end. *)
Fixpoint lstrip_by (p : ascii -> bool) (s : string) : string :=
  match s with
  | EmptyString => EmptyString
  | String c s' => if p c then lstrip_by p s' else s
  end.

Fixpoint rstrip_by (p : ascii -> bool) (s : string) : string :=
  match s with
  | EmptyString => EmptyString
  | String c s' =>
      match rstrip_by p s' with
      | EmptyString => if p c then EmptyString else String c EmptyString
      | r => String c r
      end
  end.

(** [s.strip()] *)
Definition strip (s : string) : string := lstrip_by isspace (rstrip_by isspace s).

(** [s.startswith(p)] *)
Definition startswith (s p : string) : bool := String.prefix p s.

(** [s[a:-b]] for literal [a >= 0] and [b > 0]: the start is clipped to the
    length, the stop is [len(s) - b] clipped at 0, and the slice is empty
    when the stop does not exceed the start. *)
Definition slice (a b : nat) (s : string) : string :=
  substring a (String.length s - b - a) s.

(** [bool(s)] *)
Definition truthy (s : string) : bool :=
  match s with EmptyString => false | _ => true end.

(** [x or d] for an [Optional[str]] *)
Definition or_else (x : option string) (d : string) : string :=
  match x with
  | Some s => if truthy s then s else d
  | None => d
  end.

(** [s.split()]: maximal runs of non-space characters.  [cur] is the run
    being read. *)
Fixpoint split_from (cur : string) (s : string) : list string :=
  match s with
  | EmptyString => if truthy cur then [cur] else []
  | String c s' =>
      if isspace c
      then (if truthy cur then cur :: split_from EmptyString s'
            else split_from EmptyString s')
      else split_from (cur +:+ String c EmptyString) s'
  end.

Definition split (s : string) : list string := split_from EmptyString s.

(** [sep.join(l)] *)
Definition join (sep : string) (l : list string) : string :=
  String.concat sep l.

(** [str(n)] for an [int] *)
Definition str_int (n : Z) : string :=
  match n with
  | Z0 => "0"
  | Zpos p => NilEmpty.string_of_uint (Pos.to_uint p)
  | Zneg p => "-" +:+ NilEmpty.string_of_uint (Pos.to_uint p)
  end.

(** Digits grouped in threes from the right, as [format(n, ',')] does. *)
Fixpoint group3 (digits_rev : list ascii) : list ascii :=
  match digits_rev with
  | a :: b :: c :: ((_ :: _) as rest) => a :: b :: c :: ","%char :: group3 rest
  | l => l
  end.

(** [f"{n:,}"] for an [int] *)
Definition format_grouped (n : Z) : string :=
  let digits := list_ascii_of_string (str_int (Z.abs n)) in
  let body := string_of_list_ascii (rev (group3 (rev digits))) in
  if (n <? 0)%Z then "-" +:+ body else body.

End Py.

(** ** Pydantic models (server.py, lines 53-90) *)

Module TokenomicsRequest.
Record t : Type := Build {
  project_type : string;
  target_audience : string;
  funding_goals : string;
  planned_raise_size : option string;
  desired_utility : list string;
  project_name : option string;
  additional_info : option string;
  initial_supply : option string;
  distribution_focus : option string;
  launch_strategy : option string;
  economic_model : option string
}.
End TokenomicsRequest.

Module TokenAllocation.
Record t : Type := Build {
  category : string;
  percentage : float;
  tokens : Z;
  description : string;
  vesting_schedule : string;
  cliff_months : Z;
  linear_unlock_months : Z
}.
End TokenAllocation.

Module TokenomicsProject.
Record t : Type := Build {
  id : string;
  project_name : string;
  request_data : TokenomicsRequest.t;
  allocations : list TokenAllocation.t;
  total_supply : Z;
  narrative : string;
  risks : list string;
  comparable_projects : list string;
  created_at : Z;
  pdf_generated : bool;
  payment_status : string
}.
End TokenomicsProject.

(** ** The environment read by the default factories *)

(** [uuid_source] lists the strings successive [str(uuid.uuid4())] calls
    return and [clock_source] the instants successive [datetime.now] calls
    read; the counters say how many have been consumed. *)
Record World : Type := {
  uuid_source : nat -> string;
  uuid_count : nat;
  clock_source : nat -> Z;
  clock_count : nat
}.

Definition uuid4 (w : World) : string * World :=
  (uuid_source w (uuid_count w),
   {| uuid_source := uuid_source w; uuid_count := S (uuid_count w);
      clock_source := clock_source w; clock_count := clock_count w |}).

Definition datetime_now (w : World) : Z * World :=
  (clock_source w (clock_count w),
   {| uuid_source := uuid_source w; uuid_count := uuid_count w;
      clock_source := clock_source w; clock_count := S (clock_count w) |}).

(** The fields of [TokenomicsProject] that have a default (lines 76, 84-86):
    a constructor call that passes none of them draws an identity, reads the
    clock, and sets the two status fields. *)
Definition TokenomicsProject_new
    (project_name : string) (request_data : TokenomicsRequest.t)
    (allocations : list TokenAllocation.t) (total_supply : Z)
    (narrative : string) (risks comparable_projects : list string)
    (w : World) : TokenomicsProject.t * World :=
  let '(i, w1) := uuid4 w in
  let '(now, w2) := datetime_now w1 in
  (TokenomicsProject.Build i project_name request_data allocations
     total_supply narrative risks comparable_projects now false "pending",
   w2).

(** ** Fallback generator (server.py, lines 208-266) *)

Definition fallback_allocations : list TokenAllocation.t :=
  [ TokenAllocation.Build "Team" 15.0 15000000
      "Core team allocation with long vesting"
      "4-year linear vesting with 12-month cliff" 12 36;
    TokenAllocation.Build "Investors" 20.0 20000000
      "Private and seed investor allocation"
      "2-year linear vesting with 6-month cliff" 6 18;
    TokenAllocation.Build "Community" 30.0 30000000
      "Community rewards and ecosystem growth"
      "5-year emission schedule" 0 60;
    TokenAllocation.Build "Treasury" 25.0 25000000
      "Treasury for development and partnerships"
      "On-demand unlocking via governance" 0 0;
    TokenAllocation.Build "Liquidity" 10.0 10000000
      "DEX liquidity and market making"
      "Immediate unlock for liquidity provision" 0 0 ].

(** [request.project_name or f"{request.project_type} Project"] *)
Definition default_project_name (request : TokenomicsRequest.t) : string :=
  Py.or_else (TokenomicsRequest.project_name request)
    (TokenomicsRequest.project_type request +:+ " Project").

Definition fallback_narrative (request : TokenomicsRequest.t) : string :=
  "This " +:+ TokenomicsRequest.project_type request
  +:+ " project features a balanced tokenomics model designed for "
  +:+ TokenomicsRequest.target_audience request
  +:+ " audience. The distribution ensures proper incentive alignment between stakeholders while maintaining healthy token circulation.".

Definition create_fallback_tokenomics
    (request : TokenomicsRequest.t) (w : World) : TokenomicsProject.t * World :=
  TokenomicsProject_new
    (default_project_name request)
    request
    fallback_allocations
    100000000
    (fallback_narrative request)
    ["Market volatility"; "Regulatory uncertainty"; "Adoption challenges"]
    ["Uniswap"; "AAVE"; "Compound"]
    w.

(** Sums as Python's [sum] computes them: left to right from 0. *)
Definition sum_percentages (l : list TokenAllocation.t) : float :=
  fold_left (fun acc a => (acc + TokenAllocation.percentage a)%float) l 0%float.

Definition sum_tokens (l : list TokenAllocation.t) : Z :=
  fold_left (fun acc a => (acc + TokenAllocation.tokens a)%Z) l 0%Z.

(** The rational number a finite [float] denotes. *)
Definition float_exact (f : float) : option Q :=
  match Prim2SF f with
  | S754_zero _ => Some 0%Q
  | S754_finite s m e =>
      let v := (inject_Z (Zpos m) * 2 ^ e)%Q in
      Some (if s then Qopp v else v)
  | _ => None
  end.

(** The sum of the percentages over the rationals; [None] when one of them
    is not finite. *)
Definition exact_percentage_sum (l : list TokenAllocation.t) : option Q :=
  foldr (fun a acc =>
           match float_exact (TokenAllocation.percentage a), acc with
           | Some q, Some r => Some (q + r)%Q
           | _, _ => None
           end) (Some 0%Q) l.

(** [tokens = percentage / 100 * supply], over the rationals: no rounding. *)
Definition proportional (supply : Z) (a : TokenAllocation.t) : Prop :=
  exists q : Q,
    float_exact (TokenAllocation.percentage a) = Some q
    /\ (inject_Z (TokenAllocation.tokens a) == q / 100 * inject_Z supply)%Q.

(** ** Decoded JSON (what [json.loads] returns) *)

#[local] Set Warnings "-register-all".

Inductive json : Type :=
| JNull
| JBool (b : bool)
| JInt (z : Z)
| JFloat (f : float)
| JStr (s : string)
| JList (l : list json)
| JObj (m : gmap string json).

(** ** Exceptions *)

Inductive Exception : Type :=
| KeyError (key : string)
| TypeError
| JSONDecodeError
| ValidationError
| ModelUnavailable
| ModelTimeout.

Inductive result (A : Type) : Type :=
| Ok (a : A)
| Raise (e : Exception).
Arguments Ok {A} a.
Arguments Raise {A} e.

#[global] Instance result_ret : MRet result := fun A a => Ok a.
#[global] Instance result_bind : MBind result := fun A B f m =>
  match m with
  | Ok a => f a
  | Raise e => Raise e
  end.

(** What the model collaborator did with the prompt (lines 115-177).  The
    prompt text only reaches the collaborator, so its outcome is an input
    here.  [NoApiKey] is the [KeyError] of [os.environ['EMERGENT_LLM_KEY']],
    raised before the session id is drawn; [SendFailed] is any exception of
    the chat client after that. *)
Inductive Reply : Type :=
| NoApiKey
| SendFailed (e : Exception)
| Returned (response : string).

(** ** Field validation of the pydantic models *)

(** How the validation library reads a decoded value at a field annotated
    [str], [int] or [float].  The library is not part of the repository, so
    the three conversions are a parameter; [None] is a validation error. *)
Record Coercion : Type := {
  as_str : json -> option string;
  as_int : json -> option Z;
  as_float : json -> option float
}.

(** What every version of the library does with a value that already has the
    annotated type: it is kept as it is. *)
Record CoercionLaws (c : Coercion) : Prop := {
  as_str_str : forall s, as_str c (JStr s) = Some s;
  as_int_int : forall z, as_int c (JInt z) = Some z;
  as_float_float : forall f, as_float c (JFloat f) = Some f
}.

(** The conversions that accept values of the annotated type and nothing
    else. *)
Definition exact_coercion : Coercion :=
  {| as_str := fun v => match v with JStr s => Some s | _ => None end;
     as_int := fun v => match v with JInt z => Some z | _ => None end;
     as_float := fun v => match v with JFloat f => Some f | _ => None end |}.

(** A required field: missing, or not convertible, is a validation error. *)
Definition field {A : Type} (conv : json -> option A)
    (kw : gmap string json) (name : string) : result A :=
  match kw !! name with
  | None => Raise ValidationError
  | Some v =>
      match conv v with
      | Some x => Ok x
      | None => Raise ValidationError
      end
  end.

(** [TokenAllocation] built from keyword arguments [kw] (lines 66-73): seven
    required fields, keys that are not fields are ignored, no constraint
    beyond the annotated type. *)
Definition TokenAllocation_new (c : Coercion) (kw : gmap string json)
    : result TokenAllocation.t :=
  category ← field (as_str c) kw "category";
  percentage ← field (as_float c) kw "percentage";
  tokens ← field (as_int c) kw "tokens";
  description ← field (as_str c) kw "description";
  vesting_schedule ← field (as_str c) kw "vesting_schedule";
  cliff_months ← field (as_int c) kw "cliff_months";
  linear_unlock_months ← field (as_int c) kw "linear_unlock_months";
  Ok (TokenAllocation.Build category percentage tokens description
        vesting_schedule cliff_months linear_unlock_months).

(** [d[key]] with a string key *)
Definition getitem (d : json) (key : string) : result json :=
  match d with
  | JObj m =>
      match m !! key with
      | Some v => Ok v
      | None => Raise (KeyError key)
      end
  | _ => Raise TypeError
  end.

(** [for x in v]: a list yields its items, a dict its keys and a string its
    characters (both as strings); anything else is not iterable.  The order
    of the keys of a dict plays no role below: every key is a string, and
    [**] applied to a string raises. *)
Definition iterate (v : json) : result (list json) :=
  match v with
  | JList l => Ok l
  | JObj m => Ok (JStr <$> (map_to_list m).*1)
  | JStr s => Ok ((fun ch => JStr (String ch EmptyString)) <$> list_ascii_of_string s)
  | _ => Raise TypeError
  end.

(** [**alloc]: the argument must be a mapping *)
Definition kwargs (alloc : json) : result (gmap string json) :=
  match alloc with
  | JObj m => Ok m
  | _ => Raise TypeError
  end.

(** The list comprehension of line 189; the first exception ends it. *)
Fixpoint allocations_of (c : Coercion) (items : list json)
    : result (list TokenAllocation.t) :=
  match items with
  | [] => Ok []
  | alloc :: rest =>
      kw ← kwargs alloc;
      a ← TokenAllocation_new c kw;
      others ← allocations_of c rest;
      Ok (a :: others)
  end.

(** A field annotated [List[str]] *)
Definition as_str_list (c : Coercion) (v : json) : option (list string) :=
  match v with
  | JList l => mapM (as_str c) l
  | _ => None
  end.

(** Validation of the four fields of [TokenomicsProject] that the AI path
    fills from the decoded data (lines 195-198). *)
Definition validate_project_fields (c : Coercion)
    (total_supply narrative risks comparable_projects : json)
    : option (Z * string * list string * list string) :=
  t ← as_int c total_supply;
  n ← as_str c narrative;
  r ← as_str_list c risks;
  p ← as_str_list c comparable_projects;
  Some (t, n, r, p).

(** [TokenomicsProject(...)] on unvalidated values.  The default factories
    run whether or not the other fields validate. *)
Definition TokenomicsProject_validated (c : Coercion)
    (project_name : string) (request_data : TokenomicsRequest.t)
    (allocations : list TokenAllocation.t)
    (total_supply narrative risks comparable_projects : json)
    (w : World) : result TokenomicsProject.t * World :=
  match validate_project_fields c total_supply narrative risks comparable_projects with
  | Some (t, n, r, p) =>
      let '(project, w') :=
        TokenomicsProject_new project_name request_data allocations t n r p w in
      (Ok project, w')
  | None => (Raise ValidationError, (datetime_now (uuid4 w).2).2)
  end.

(** ** Generation orchestrator (server.py, lines 111-206) *)

(** Lines 180-184: trim, then cut a leading fence marker and three trailing
    characters. *)
Definition strip_code_fence (response : string) : string :=
  let response_text := Py.strip response in
  if Py.startswith response_text "```json" then Py.slice 7 3 response_text
  else if Py.startswith response_text "```" then Py.slice 3 3 response_text
  else response_text.

Section Orchestrator.

(** [json.loads]; [None] is a [JSONDecodeError]. *)
Variable json_loads : string -> option json.
Variable c : Coercion.

Definition decode (response : string) : result json :=
  match json_loads (strip_code_fence response) with
  | Some data => Ok data
  | None => Raise JSONDecodeError
  end.

(** Lines 186-198 up to the constructor call: the decoded data, the
    allocations, and the four subscripts evaluated as constructor
    arguments. *)
Definition read_response (response : string)
    : result (list TokenAllocation.t * (json * json * json * json)) :=
  tokenomics_data ← decode response;
  entries ← getitem tokenomics_data "allocations";
  items ← iterate entries;
  allocations ← allocations_of c items;
  total_supply ← getitem tokenomics_data "total_supply";
  narrative ← getitem tokenomics_data "narrative";
  risks ← getitem tokenomics_data "risks";
  comparable_projects ← getitem tokenomics_data "comparable_projects";
  Ok (allocations, (total_supply, narrative, risks, comparable_projects)).

(** The body of the [try] (lines 114-201), with the world it leaves. *)
Definition attempt (request : TokenomicsRequest.t) (reply : Reply) (w : World)
    : result TokenomicsProject.t * World :=
  match reply with
  | NoApiKey => (Raise (KeyError "EMERGENT_LLM_KEY"), w)
  | SendFailed e => (Raise e, (uuid4 w).2)
  | Returned response =>
      let w1 := (uuid4 w).2 in
      match read_response response with
      | Raise e => (Raise e, w1)
      | Ok (allocations, (total_supply, narrative, risks, comparable_projects)) =>
          TokenomicsProject_validated c (default_project_name request) request
            allocations total_supply narrative risks comparable_projects w1
      end
  end.

(** [try: ... except Exception: return create_fallback_tokenomics(request)] *)
Definition generate_tokenomics_with_claude
    (request : TokenomicsRequest.t) (reply : Reply) (w : World)
    : TokenomicsProject.t * World :=
  match attempt request reply w with
  | (Ok project, w') => (project, w')
  | (Raise _, w') => create_fallback_tokenomics request w'
  end.

End Orchestrator.

(** ** Chart projection (server.py, lines 393-401) *)

Module ChartEntry.
Record t : Type := Build {
  name : string;
  value : float;
  tokens : Z;
  color : string
}.
End ChartEntry.

Definition palette : list string :=
  ["#DC1FFF"; "#00FFA3"; "#FF6B35"; "#4ECDC4"; "#45B7D1"; "#96CEB4"; "#FFEAA7"].

Definition chart_data (project : TokenomicsProject.t) : list ChartEntry.t :=
  imap (fun i alloc =>
          ChartEntry.Build (TokenAllocation.category alloc)
            (TokenAllocation.percentage alloc) (TokenAllocation.tokens alloc)
            (nth (i mod 7) palette EmptyString))
       (TokenomicsProject.allocations project).

(** ** Persistence and the two routes (server.py, lines 381-415) *)

(** The [tokenomics_projects] collection, oldest document first. *)
Definition Collection : Type := list TokenomicsProject.t.

Definition insert_one (db : Collection) (doc : TokenomicsProject.t) : Collection :=
  db ++ [doc].

(** [find_one({"id": project_id})]: the first document with that id. *)
Definition find_one (db : Collection) (project_id : string)
    : option TokenomicsProject.t :=
  List.find (fun doc => String.eqb (TokenomicsProject.id doc) project_id) db.

Inductive HttpResult (A : Type) : Type :=
| Returns (a : A)
| HTTPException (status_code : Z) (detail : string).
Arguments Returns {A} a.
Arguments HTTPException {A} status_code detail.

Record TokenomicsResponse : Type := {
  project : TokenomicsProject.t;
  response_chart_data : list ChartEntry.t
}.

(** POST /tokenomics/generate, with a persistence collaborator that accepts
    the document. *)
Definition generate_tokenomics (json_loads : string -> option json) (c : Coercion)
    (request : TokenomicsRequest.t) (reply : Reply) (db : Collection) (w : World)
    : TokenomicsResponse * Collection * World :=
  let '(p, w') := generate_tokenomics_with_claude json_loads c request reply w in
  ({| project := p; response_chart_data := chart_data p |}, insert_one db p, w').

(** Mongo's document identity.  [insert_one] adds one under "_id" to the
    dict it stores (line 390) and [find_one], called without a projection,
    returns it with the document.  The driver chooses the value and the code
    never reads it; here it is the position of the document in the
    collection. *)
Inductive ObjectId : Type :=
| ObjectId_at (position : nat).

(** A document as [find_one] returns it: the fields of [project.dict()]
    and the "_id" that came with the insert. *)
Module Document.
Record t : Type := Build {
  _id : ObjectId;
  fields : TokenomicsProject.t
}.
End Document.

Fixpoint documents_from (position : nat) (db : Collection) : list Document.t :=
  match db with
  | [] => []
  | doc :: rest =>
      Document.Build (ObjectId_at position) doc :: documents_from (S position) rest
  end.

Definition documents (db : Collection) : list Document.t := documents_from 0 db.

(** [find_one({"id": project_id})] with the raw document as its result. *)
Definition find_one_document (db : Collection) (project_id : string)
    : option Document.t :=
  List.find
    (fun d => String.eqb (TokenomicsProject.id (Document.fields d)) project_id)
    (documents db).

(** GET /tokenomics/{project_id}: the route returns the raw document. *)
Definition get_tokenomics_project (db : Collection) (project_id : string)
    : HttpResult Document.t :=
  match find_one_document db project_id with
  | None => HTTPException 404 "Project not found"
  | Some project => Returns project
  end.

(** What the caller of GET /tokenomics/{project_id} receives.  The route is
    declared without a response model (line 409), so the framework encodes
    the returned dict value by value and answers 500 when a value has no
    encoding.  [encode_ObjectId] is the framework's encoder at a Mongo
    identity: the encoded value, or nothing when it raises.  The other
    values of a stored document are strings, numbers, booleans, lists and
    dicts of these, which the encoder accepts. *)
Definition response_of (encode_ObjectId : ObjectId -> option json)
    (answer : HttpResult Document.t) : HttpResult (json * TokenomicsProject.t) :=
  match answer with
  | HTTPException status_code detail => HTTPException status_code detail
  | Returns document =>
      match encode_ObjectId (Document._id document) with
      | Some encoded => Returns (encoded, Document.fields document)
      | None => HTTPException 500 "Internal Server Error"
      end
  end.

(** ** Report renderer (server.py, lines 268-378) *)

(** The calls made on the canvas, in order.  The page is US letter, 612 by
    792 points; every coordinate the renderer computes is an integer, so
    [Z] holds it exactly. *)
Inductive Op : Type :=
| SetFont (face : string) (size : Z)
| SetFillColor (color : string)
| DrawCentredString (x y : Z) (text : string)
| DrawString (x y : Z) (text : string)
| ShowPage
| Save.

Definition width : Z := 612.
Definition height : Z := 792.
Definition primary_color : string := "#DC1FFF".
Definition accent_color : string := "#00FFA3".
Definition black : string := "black".

(** [if y_pos < 100: c.showPage(); y_pos = height - 50] *)
Definition page_break (y_pos : Z) : list Op * Z :=
  if (y_pos <? 100)%Z then ([ShowPage], (height - 50)%Z) else ([], y_pos).

(** Lines 278-303 *)
Definition draw_header (project : TokenomicsProject.t) : list Op * Z :=
  let request := TokenomicsProject.request_data project in
  let y_pos := (height - 120)%Z in
  ([ SetFont "Helvetica-Bold" 24;
     SetFillColor primary_color;
     DrawCentredString (width / 2) (height - 50) (TokenomicsProject.project_name project);
     DrawCentredString (width / 2) (height - 75) "Tokenomics Design";
     SetFont "Helvetica-Bold" 14;
     SetFillColor black;
     DrawString 50 y_pos "Project Overview";
     SetFont "Helvetica" 11;
     DrawString 70 (y_pos - 30)
       ("Type: " +:+ TokenomicsRequest.project_type request);
     DrawString 70 (y_pos - 30 - 20)
       ("Target Audience: " +:+ TokenomicsRequest.target_audience request);
     DrawString 70 (y_pos - 30 - 20 - 20)
       ("Total Supply: "
        +:+ Py.format_grouped (TokenomicsProject.total_supply project)
        +:+ " tokens");
     SetFont "Helvetica-Bold" 14;
     DrawString 50 (y_pos - 30 - 20 - 20 - 40) "Token Allocations" ],
   (y_pos - 30 - 20 - 20 - 40 - 20)%Z).

Section Renderer.

(** [str] of a [float], as an f-string renders it. *)
Variable str_float : float -> string.

(** Lines 304-316 *)
Fixpoint draw_allocations (allocations : list TokenAllocation.t) (y_pos : Z)
    : list Op * Z :=
  match allocations with
  | [] => ([], y_pos)
  | allocation :: rest =>
      let '(brk, y) := page_break y_pos in
      let '(ops, y') := draw_allocations rest (y - 15 - 12 - 25)%Z in
      (brk
       ++ [ SetFont "Helvetica-Bold" 11;
            DrawString 70 y
              (TokenAllocation.category allocation +:+ ": "
               +:+ str_float (TokenAllocation.percentage allocation) +:+ "%");
            SetFont "Helvetica" 9;
            DrawString 90 (y - 15)
              (Py.format_grouped (TokenAllocation.tokens allocation)
               +:+ " tokens - " +:+ TokenAllocation.description allocation);
            DrawString 90 (y - 15 - 12)
              ("Vesting: " +:+ TokenAllocation.vesting_schedule allocation) ]
       ++ ops,
       y')
  end.

(** One turn of the loop of lines 333-338 on [(lines, current_line)]. *)
Definition wrap_step (st : list string * string) (word : string)
    : list string * string :=
  let '(lines, current_line) := st in
  if (String.length (current_line +:+ " " +:+ word) <? 90)%nat
  then (lines, if Py.truthy current_line then current_line +:+ " " +:+ word else word)
  else (lines ++ [current_line], word).

(** Lines 330-340 *)
Definition wrap_lines (words : list string) : list string :=
  let '(lines, current_line) := fold_left wrap_step words ([], EmptyString) in
  if Py.truthy current_line then lines ++ [current_line] else lines.

(** Lines 342-347 *)
Fixpoint draw_lines (lines : list string) (y_pos : Z) : list Op * Z :=
  match lines with
  | [] => ([], y_pos)
  | line :: rest =>
      let '(brk, y) := page_break y_pos in
      let '(ops, y') := draw_lines rest (y - 15)%Z in
      (brk ++ DrawString 50 y line :: ops, y')
  end.

(** Lines 358-363; [i] is the number of the first risk. *)
Fixpoint draw_risks (i : Z) (risks : list string) (y_pos : Z) : list Op * Z :=
  match risks with
  | [] => ([], y_pos)
  | risk :: rest =>
      let '(brk, y) := page_break y_pos in
      let '(ops, y') := draw_risks (i + 1)%Z rest (y - 20)%Z in
      (brk ++ DrawString 70 y (Py.str_int i +:+ ". " +:+ risk) :: ops, y')
  end.

(** Lines 318-327: the page break and the heading that open the narrative. *)
Definition narrative_heading : list Op * Z :=
  ([ ShowPage;
     SetFont "Helvetica-Bold" 16;
     SetFillColor primary_color;
     DrawString 50 (height - 50) "Economic Model & Narrative";
     SetFont "Helvetica" 11;
     SetFillColor black ],
   (height - 50 - 40)%Z).

(** The narrative as laid out by lines 330-347. *)
Definition draw_narrative (project : TokenomicsProject.t) : list Op * Z :=
  draw_lines (wrap_lines (Py.split (TokenomicsProject.narrative project)))
    narrative_heading.2.

(** Lines 349-374 *)
Definition draw_closing (project : TokenomicsProject.t) (y_pos : Z) : list Op :=
  let y_risks := (y_pos - 30)%Z in
  let '(risk_ops, y) :=
    draw_risks 1 (TokenomicsProject.risks project) (y_risks - 20)%Z in
  [ SetFont "Helvetica-Bold" 14;
    SetFillColor accent_color;
    DrawString 50 y_risks "Key Risks";
    SetFont "Helvetica" 11;
    SetFillColor black ]
  ++ risk_ops
  ++ [ SetFont "Helvetica-Bold" 14;
       SetFillColor accent_color;
       DrawString 50 (y - 20) "Comparable Projects";
       SetFont "Helvetica" 11;
       SetFillColor black;
       DrawString 70 (y - 20 - 20)
         (Py.join ", " (TokenomicsProject.comparable_projects project));
       Save ].

(** The canvas calls of [generate_pdf_report], from which the external
    renderer produces the bytes. *)
Definition generate_pdf_report (project : TokenomicsProject.t) : list Op :=
  let '(header, y1) := draw_header project in
  let '(rows, _) := draw_allocations (TokenomicsProject.allocations project) y1 in
  let '(body, y2) := draw_narrative project in
  header ++ rows ++ narrative_heading.1 ++ body ++ draw_closing project y2.

End Renderer.

(** The strings written by [drawString], in order. *)
Definition drawn_text (ops : list Op) : list string :=
  omap (fun op => match op with DrawString _ _ text => Some text | _ => None end) ops.

(** The number of page boundaries. *)
Definition is_show_page (op : Op) : bool :=
  match op with ShowPage => true | _ => false end.

Definition page_breaks (ops : list Op) : nat :=
  length (List.filter is_show_page ops).

(** ** Vocabulary of the statements *)

(** Everything in a design except its identity and creation time. *)
Definition design_content (p : TokenomicsProject.t) :=
  (TokenomicsProject.project_name p, TokenomicsProject.request_data p,
   TokenomicsProject.allocations p, TokenomicsProject.total_supply p,
   TokenomicsProject.narrative p, TokenomicsProject.risks p,
   TokenomicsProject.comparable_projects p,
   TokenomicsProject.pdf_generated p, TokenomicsProject.payment_status p).

(** The exceptions of decoding and validation (the specification's
    MalformedResponse). *)
Definition MalformedResponse (e : Exception) : Prop :=
  match e with
  | KeyError _ | TypeError | JSONDecodeError | ValidationError => True
  | ModelUnavailable | ModelTimeout => False
  end.

Definition required_keys : list string :=
  ["total_supply"; "allocations"; "narrative"; "risks"; "comparable_projects"].

Definition allocation_fields : list string :=
  ["category"; "percentage"; "tokens"; "description"; "vesting_schedule";
   "cliff_months"; "linear_unlock_months"].

(** Whether [v] converts at the field called [name] of [TokenAllocation]. *)
Definition convertible (c : Coercion) (name : string) (v : json) : bool :=
  if String.eqb name "percentage" then bool_decide (is_Some (as_float c v))
  else if String.eqb name "tokens" || String.eqb name "cliff_months"
          || String.eqb name "linear_unlock_months"
       then bool_decide (is_Some (as_int c v))
       else bool_decide (is_Some (as_str c v)).

(** The ranges the data model describes for an allocation. *)
Definition in_range (a : TokenAllocation.t) : bool :=
  (0 <=? TokenAllocation.percentage a)%float
  && (TokenAllocation.percentage a <=? 100)%float
  && (0 <=? TokenAllocation.tokens a)%Z
  && (0 <=? TokenAllocation.cliff_months a)%Z
  && (0 <=? TokenAllocation.linear_unlock_months a)%Z.

(** The whitespace [json.loads] skips around a document. *)
Definition json_space (ch : ascii) : bool :=
  let n := N_of_ascii ch in ((n =? 32) || (n =? 9) || (n =? 10) || (n =? 13))%N.

Fixpoint all_chars (p : ascii -> bool) (s : string) : bool :=
  match s with
  | EmptyString => true
  | String ch s' => p ch && all_chars p s'
  end.

(** The text of a JSON object: it opens and closes with a brace. *)
Definition object_text (text : string) : Prop :=
  exists body, text = "{" +:+ body +:+ "}".

(** The two fenced forms of a payload, with the padding that separates it
    from the markers. *)
Definition typed_fence (pad1 payload pad2 : string) : string :=
  "```json" +:+ pad1 +:+ payload +:+ pad2 +:+ "```".

Definition untyped_fence (pad1 payload pad2 : string) : string :=
  "```" +:+ pad1 +:+ payload +:+ pad2 +:+ "```".

(** The structured data of an allocation and of a design: the objects the
    prompt asks the model for. *)
Definition allocation_data (a : TokenAllocation.t) : json :=
  JObj (list_to_map
    [ ("category", JStr (TokenAllocation.category a));
      ("percentage", JFloat (TokenAllocation.percentage a));
      ("tokens", JInt (TokenAllocation.tokens a));
      ("description", JStr (TokenAllocation.description a));
      ("vesting_schedule", JStr (TokenAllocation.vesting_schedule a));
      ("cliff_months", JInt (TokenAllocation.cliff_months a));
      ("linear_unlock_months", JInt (TokenAllocation.linear_unlock_months a)) ]).

Definition design_data (p : TokenomicsProject.t) : json :=
  JObj (list_to_map
    [ ("total_supply", JInt (TokenomicsProject.total_supply p));
      ("allocations", JList (allocation_data <$> TokenomicsProject.allocations p));
      ("narrative", JStr (TokenomicsProject.narrative p));
      ("risks", JList (JStr <$> TokenomicsProject.risks p));
      ("comparable_projects",
       JList (JStr <$> TokenomicsProject.comparable_projects p)) ]).

(** A word: not empty and free of whitespace. *)
Definition is_word (s : string) : Prop :=
  s <> EmptyString /\ all_chars (fun ch => negb (Py.isspace ch)) s = true.

(** The pagination rule between two consecutive canvas calls of a run of
    text lines: a line that still fits is drawn 15 points lower; when it
    would fall below the bottom margin (100) a page break comes first and
    the line is drawn at the top margin. *)
Definition cursor_rule (op1 op2 : Op) : Prop :=
  match op1, op2 with
  | DrawString _ y1 _, DrawString _ y2 _ => (y2 = y1 - 15 /\ 100 <= y2)%Z
  | DrawString _ y1 _, ShowPage => (y1 - 15 < 100)%Z
  | ShowPage, DrawString _ y2 _ => y2 = (height - 50)%Z
  | _, _ => False
  end.

Fixpoint chained (R : Op -> Op -> Prop) (ops : list Op) : Prop :=
  match ops with
  | op1 :: rest =>
      match rest with
      | op2 :: _ => R op1 op2 /\ chained R rest
      | [] => True
      end
  | [] => True
  end.

(** The initial values of the four defaulted fields of a design built in
    world [w]: the identity and the timestamp are read from the sources at
    positions not consumed before the call, and the call consumed them. *)
Definition initial_fields (w : World) (built : TokenomicsProject.t * World) : Prop :=
  let '(p, w') := built in
  TokenomicsProject.pdf_generated p = false
  /\ TokenomicsProject.payment_status p = "pending"
  /\ (exists k, uuid_count w <= k < uuid_count w'
                /\ TokenomicsProject.id p = uuid_source w k)
  /\ (exists t, clock_count w <= t < clock_count w'
                /\ TokenomicsProject.created_at p = clock_source w t)
  /\ uuid_source w' = uuid_source w
  /\ clock_source w' = clock_source w.

(** A decoded response without the top-level key [key]: an object that
    does not bind it, or no object at all. *)
Definition lacks_key (data : json) (key : string) : Prop :=
  match data with
  | JObj m => m !! key = None
  | _ => True
  end.

(** A decoded response one of whose allocation entries does not bind one of
    the seven fields. *)
Definition lacks_field (data : json) : Prop :=
  exists m entries kw f,
    data = JObj m /\ m !! "allocations" = Some (JList entries)
    /\ JObj kw ∈ entries /\ f ∈ allocation_fields /\ kw !! f = None.

(** What a design takes from the model's data. *)
Definition design_payload (p : TokenomicsProject.t) :=
  (TokenomicsProject.allocations p, TokenomicsProject.total_supply p,
   TokenomicsProject.narrative p, TokenomicsProject.risks p,
   TokenomicsProject.comparable_projects p).

(** The words of the lines laid so far and of the line being filled. *)
Definition words_of (st : list string * string) : list string :=
  concat (Py.split <$> st.1) ++ Py.split st.2.

(** A line is shorter than 90 characters or is one word of the text. *)
Definition fits (ws : list string) (line : string) : Prop :=
  String.length line < 90 \/ line ∈ ws.

(** A line is its words joined by single spaces. *)
Definition single_spaced (line : string) : Prop :=
  line = Py.join " " (Py.split line).

(** Where a text is drawn: between the bottom and the top margin. *)
Definition on_page (op : Op) : Prop :=
  match op with
  | DrawString _ y _ => (100 <= y <= height - 50)%Z
  | _ => True
  end.

(** ** Concrete data used to instantiate the statements *)

Definition sample_request : TokenomicsRequest.t :=
  TokenomicsRequest.Build "DeFi" "retail" "seed round" None
    ["staking"; "governance"] None None (Some "100M") (Some "balanced")
    (Some "gradual") (Some "standard").

(** A uuid source that never repeats: each identity is one letter longer
    than the one before. *)
Fixpoint unary (n : nat) : string :=
  match n with
  | O => "id"
  | S k => String "u" (unary k)
  end.

Definition sample_world : World :=
  {| uuid_source := unary; uuid_count := 0;
     clock_source := Z.of_nat; clock_count := 0 |}.

Definition sample_project : TokenomicsProject.t :=
  (create_fallback_tokenomics sample_request sample_world).1.

Definition nl : string := String (ascii_of_nat 10) EmptyString.
Definition dquote : string := String (ascii_of_nat 34) EmptyString.
Definition quoted (s : string) : string := dquote +:+ s +:+ dquote.

(** A small design and the JSON text of its data. *)
Definition small_design : TokenomicsProject.t :=
  TokenomicsProject.Build "id-0" "DeFi Project" sample_request
    [TokenAllocation.Build "Team" 100 1000 "all" "none" 0 0]
    1000 "A plain design" ["Market volatility"] ["Uniswap"] 0 false "pending".

Definition small_design_text : string :=
  "{" +:+ quoted "total_supply" +:+ ": 1000, "
  +:+ quoted "allocations" +:+ ": [{"
  +:+ quoted "category" +:+ ": " +:+ quoted "Team" +:+ ", "
  +:+ quoted "percentage" +:+ ": 100.0, "
  +:+ quoted "tokens" +:+ ": 1000, "
  +:+ quoted "description" +:+ ": " +:+ quoted "all" +:+ ", "
  +:+ quoted "vesting_schedule" +:+ ": " +:+ quoted "none" +:+ ", "
  +:+ quoted "cliff_months" +:+ ": 0, "
  +:+ quoted "linear_unlock_months" +:+ ": 0}], "
  +:+ quoted "narrative" +:+ ": " +:+ quoted "A plain design" +:+ ", "
  +:+ quoted "risks" +:+ ": [" +:+ quoted "Market volatility" +:+ "], "
  +:+ quoted "comparable_projects" +:+ ": [" +:+ quoted "Uniswap" +:+ "]}".

(** A decoder that knows finitely many documents and, like [json.loads],
    skips the whitespace around one. *)
Definition table_decoder (table : list (string * json)) (text : string)
    : option json :=
  let inner := Py.lstrip_by json_space (Py.rstrip_by json_space text) in
  snd <$> List.find (fun entry => String.eqb entry.1 inner) table.

Definition small_decoder : string -> option json :=
  table_decoder [(small_design_text, design_data small_design)].

(** An allocation entry of the right types and the wrong ranges. *)
Definition out_of_range_entry : gmap string json :=
  list_to_map
    [ ("category", JStr "Team");
      ("percentage", JFloat 150);
      ("tokens", JInt (-5));
      ("description", JStr "Core team");
      ("vesting_schedule", JStr "none");
      ("cliff_months", JInt (-1));
      ("linear_unlock_months", JInt (-2)) ].

(** A rendering of floats for the instances below; the statements about the
    report hold for every rendering. *)
Definition sample_str_float (f : float) : string := "0.0".

(** Forty-two words of fifty letters: none shares a line with another. *)
Definition long_word : string :=
  string_of_list_ascii (repeat "a"%char 50).

Definition long_narrative : string :=
  Py.join " " (repeat long_word 42).

Definition long_project : TokenomicsProject.t :=
  TokenomicsProject.Build "id-1" "DeFi Project" sample_request
    fallback_allocations 100000000 long_narrative
    ["Market volatility"] ["Uniswap"] 0 false "pending".

(** ** Vocabulary for the whole report *)

(** The strings written by [drawString] and [drawCentredString], in order. *)
Definition all_text (ops : list Op) : list string :=
  omap (fun op => match op with
                  | DrawString _ _ text | DrawCentredString _ _ text => Some text
                  | _ => None
                  end) ops.

(** The three text lines of an allocation. *)
Definition allocation_texts (str_float : float -> string) (a : TokenAllocation.t)
    : list string :=
  [ TokenAllocation.category a +:+ ": "
      +:+ str_float (TokenAllocation.percentage a) +:+ "%";
    Py.format_grouped (TokenAllocation.tokens a) +:+ " tokens - "
      +:+ TokenAllocation.description a;
    "Vesting: " +:+ TokenAllocation.vesting_schedule a ].

(** The text of a design, section by section, without any layout. *)
Definition report_texts (str_float : float -> string) (project : TokenomicsProject.t)
    : list string :=
  [ TokenomicsProject.project_name project;
    "Tokenomics Design";
    "Project Overview";
    "Type: " +:+ TokenomicsRequest.project_type (TokenomicsProject.request_data project);
    "Target Audience: "
      +:+ TokenomicsRequest.target_audience (TokenomicsProject.request_data project);
    "Total Supply: " +:+ Py.format_grouped (TokenomicsProject.total_supply project)
      +:+ " tokens";
    "Token Allocations" ]
  ++ concat (allocation_texts str_float <$> TokenomicsProject.allocations project)
  ++ ["Economic Model & Narrative"]
  ++ wrap_lines (Py.split (TokenomicsProject.narrative project))
  ++ ["Key Risks"]
  ++ imap (fun k risk => Py.str_int (Z.of_nat k + 1) +:+ ". " +:+ risk)
       (TokenomicsProject.risks project)
  ++ [ "Comparable Projects";
       Py.join ", " (TokenomicsProject.comparable_projects project) ].

(** The texts of the report before the narrative lines and after them,
    from the fields they are made of; the narrative is not among these. *)
Definition texts_before_narrative (str_float : float -> string)
    (project_name : string) (request_data : TokenomicsRequest.t)
    (total_supply : Z) (allocations : list TokenAllocation.t) : list string :=
  [ project_name;
    "Tokenomics Design";
    "Project Overview";
    "Type: " +:+ TokenomicsRequest.project_type request_data;
    "Target Audience: " +:+ TokenomicsRequest.target_audience request_data;
    "Total Supply: " +:+ Py.format_grouped total_supply +:+ " tokens";
    "Token Allocations" ]
  ++ concat (allocation_texts str_float <$> allocations)
  ++ ["Economic Model & Narrative"].

Definition texts_after_narrative (risks comparable_projects : list string)
    : list string :=
  ["Key Risks"]
  ++ imap (fun k risk => Py.str_int (Z.of_nat k + 1) +:+ ". " +:+ risk) risks
  ++ [ "Comparable Projects"; Py.join ", " comparable_projects ].

(** A text drawn no lower than [low] and no higher than the top margin. *)
Definition drawn_within (low : Z) (op : Op) : Prop :=
  match op with
  | DrawString _ y _ | DrawCentredString _ y _ => (low <= y <= height - 50)%Z
  | _ => True
  end.

(** The number of page breaks of a loop that checks the cursor, draws, and
    moves the cursor down by [step], run [n] times from cursor [y]; and the
    cursor it leaves. *)
Fixpoint cursor_run (step : Z) (n : nat) (y : Z) : nat * Z :=
  match n with
  | O => (0, y)
  | S k =>
      let y1 := if (y <? 100)%Z then (height - 50)%Z else y in
      let '(breaks, y') := cursor_run step k (y1 - step)%Z in
      ((if (y <? 100)%Z then 1 else 0) + breaks, y')
  end.

(** A design whose comparable projects are drawn below the page: forty-one
    narrative lines and no risk. *)
Definition low_project : TokenomicsProject.t :=
  TokenomicsProject.Build "id-2" "DeFi Project" sample_request
    fallback_allocations 100000000 (Py.join " " (repeat long_word 41))
    [] ["Uniswap"] 0 false "pending".

(** Every two neighbours of a list are related by [R]. *)
Fixpoint adjacent {A : Type} (R : A -> A -> Prop) (l : list A) : Prop :=
  match l with
  | x :: rest =>
      match rest with
      | y :: _ => R x y /\ adjacent R rest
      | [] => True
      end
  | [] => True
  end.

(** The line [a] had no room for the first word of the line [b] that
    follows it: with a space and that word it would have 90 characters or
    more. *)
Definition no_room (a b : string) : Prop :=
  exists w, head (Py.split b) = Some w
            /\ 90 <= String.length (a +:+ " " +:+ w).

(** ** Document download (server.py, lines 417-440) *)

Module FileResponse.
Record t : Type := Build {
  path : string;
  media_type : string;
  filename : string
}.
End FileResponse.

(** [f"/tmp/{project_id}_tokenomics.pdf"] *)
Definition pdf_path (project_id : string) : string :=
  "/tmp/" +:+ project_id +:+ "_tokenomics.pdf".

(** GET /tokenomics/{project_id}/pdf.  [files] maps a path to what was
    written there, given as the canvas calls the bytes are rendered from.  A
    stored document is the design that was stored, so rebuilding the model
    from it gives that design. *)
Definition download_pdf (str_float : float -> string) (db : Collection)
    (files : gmap string (list Op)) (project_id : string)
    : HttpResult FileResponse.t * gmap string (list Op) :=
  match find_one db project_id with
  | None => (HTTPException 404 "Project not found", files)
  | Some project =>
      let pdf_bytes := generate_pdf_report str_float project in
      (Returns (FileResponse.Build (pdf_path project_id) "application/pdf"
                  (TokenomicsProject.project_name project +:+ "_Tokenomics.pdf")),
       <[pdf_path project_id := pdf_bytes]> files)
  end.

(** ** Payments (server.py, lines 92-109 and 442-555) *)

Module Package.
Record t : Type := Build {
  amount : float;
  name : string;
  description : string
}.
End Package.

Definition PRICING_PACKAGES : gmap string Package.t :=
  list_to_map
    [ ("basic", Package.Build 79 "Basic Tokenomics"
                  "Standard tokenomics design with PDF and charts");
      ("pro", Package.Build 199 "Pro Tokenomics"
                "Advanced tokenomics with multiple iterations and comparisons");
      ("premium", Package.Build 499 "Premium Package"
                    "Complete tokenomics suite with investor deck") ].

Module PaymentTransaction.
Record t : Type := Build {
  id : string;
  session_id : string;
  amount : float;
  currency : string;
  payment_status : string;
  project_id : option string;
  metadata : gmap string string;
  created_at : Z;
  updated_at : Z
}.
End PaymentTransaction.

(** [PaymentTransaction(session_id=..., amount=..., currency=...,
    metadata=...)]: the identity and the two timestamps come from the default
    factories, each timestamp from its own reading of the clock. *)
Definition PaymentTransaction_new (session_id : string) (amount : float)
    (currency : string) (metadata : gmap string string) (w : World)
    : PaymentTransaction.t * World :=
  let '(i, w1) := uuid4 w in
  let '(created, w2) := datetime_now w1 in
  let '(updated, w3) := datetime_now w2 in
  (PaymentTransaction.Build i session_id amount currency "pending" None
     metadata created updated,
   w3).

(** The objects exchanged with the payment library: the request the route
    fills in, and of each answer the fields the routes read. *)
Module CheckoutSessionRequest.
Record t : Type := Build {
  amount : float;
  currency : string;
  success_url : string;
  cancel_url : string;
  metadata : gmap string string
}.
End CheckoutSessionRequest.

Module CheckoutSessionResponse.
Record t : Type := Build {
  url : string;
  session_id : string
}.
End CheckoutSessionResponse.

Module CheckoutStatusResponse.
Record t : Type := Build {
  status : string;
  payment_status : string
}.
End CheckoutStatusResponse.

Module WebhookResponse.
Record t : Type := Build {
  session_id : string;
  payment_status : string
}.
End WebhookResponse.

(** What a payment route can raise inside its [try]. *)
Inductive RouteException : Type :=
| RaisedHTTP (status_code : Z) (detail : string)
| RaisedKeyError (key : string)
| RaisedByStripe (message : string).

(** [update_one({"session_id": session_id}, {"$set": {...}})]: the first
    transaction of the session gets the status and the time; nothing
    happens when there is none. *)
Definition set_status (payment_status : string) (updated_at : Z)
    (tx : PaymentTransaction.t) : PaymentTransaction.t :=
  PaymentTransaction.Build (PaymentTransaction.id tx)
    (PaymentTransaction.session_id tx) (PaymentTransaction.amount tx)
    (PaymentTransaction.currency tx) payment_status
    (PaymentTransaction.project_id tx) (PaymentTransaction.metadata tx)
    (PaymentTransaction.created_at tx) updated_at.

Fixpoint update_one (session_id payment_status : string) (updated_at : Z)
    (txs : list PaymentTransaction.t) : list PaymentTransaction.t :=
  match txs with
  | [] => []
  | tx :: rest =>
      if String.eqb (PaymentTransaction.session_id tx) session_id
      then set_status payment_status updated_at tx :: rest
      else tx :: update_one session_id payment_status updated_at rest
  end.

(** The first transaction of a session. *)
Definition find_transaction (txs : list PaymentTransaction.t) (session_id : string)
    : option PaymentTransaction.t :=
  List.find (fun tx => String.eqb (PaymentTransaction.session_id tx) session_id) txs.

Section PaymentRoutes.

(** [str(e)] for an exception caught by a route. *)
Variable str_exception : RouteException -> string.

(** [os.environ['STRIPE_API_KEY']], when set. *)
Variable STRIPE_API_KEY : option string.

(** The body of the [try] of [create_checkout_session] (lines 447-492).
    [create] is the payment library's call: given the key, the webhook URL
    and the request it returns a session or raises with a message. *)
Definition checkout_attempt
    (create : string -> string -> CheckoutSessionRequest.t
              -> string + CheckoutSessionResponse.t)
    (package_id origin_url : string)
    (txs : list PaymentTransaction.t) (w : World)
    : RouteException
      + (CheckoutSessionResponse.t * list PaymentTransaction.t * World) :=
  match PRICING_PACKAGES !! package_id with
  | None => inl (RaisedHTTP 400 "Invalid package ID")
  | Some package =>
      let amount := Package.amount package in
      let webhook_url := origin_url +:+ "/api/webhook/stripe" in
      match STRIPE_API_KEY with
      | None => inl (RaisedKeyError "STRIPE_API_KEY")
      | Some key =>
          let success_url :=
            origin_url +:+ "/success?session_id={CHECKOUT_SESSION_ID}" in
          let cancel_url := origin_url +:+ "/pricing" in
          let checkout_request :=
            CheckoutSessionRequest.Build amount "usd" success_url cancel_url
              (<["package_id" := package_id]>
                 (<["package_name" := Package.name package]> ∅)) in
          match create key webhook_url checkout_request with
          | inl message => inl (RaisedByStripe message)
          | inr session =>
              let '(transaction, w') :=
                PaymentTransaction_new
                  (CheckoutSessionResponse.session_id session) amount "usd"
                  (CheckoutSessionRequest.metadata checkout_request) w in
              inr (session, txs ++ [transaction], w')
          end
      end
  end.

(** POST /payments/checkout/session *)
Definition create_checkout_session
    (create : string -> string -> CheckoutSessionRequest.t
              -> string + CheckoutSessionResponse.t)
    (package_id origin_url : string)
    (txs : list PaymentTransaction.t) (w : World)
    : HttpResult CheckoutSessionResponse.t * list PaymentTransaction.t * World :=
  match checkout_attempt create package_id origin_url txs w with
  | inr (session, txs', w') => (Returns session, txs', w')
  | inl e =>
      (HTTPException 500 ("Error creating checkout session: " +:+ str_exception e),
       txs, w)
  end.

(** GET /payments/checkout/status/{session_id} (lines 498-524) *)
Definition get_checkout_status
    (status_of : string -> string -> string + CheckoutStatusResponse.t)
    (session_id : string) (txs : list PaymentTransaction.t) (w : World)
    : HttpResult CheckoutStatusResponse.t * list PaymentTransaction.t * World :=
  match STRIPE_API_KEY with
  | None =>
      (HTTPException 500
         ("Error getting checkout status: "
          +:+ str_exception (RaisedKeyError "STRIPE_API_KEY")), txs, w)
  | Some key =>
      match status_of key session_id with
      | inl message =>
          (HTTPException 500
             ("Error getting checkout status: "
              +:+ str_exception (RaisedByStripe message)), txs, w)
      | inr status =>
          let '(now, w') := datetime_now w in
          (Returns status,
           update_one session_id (CheckoutStatusResponse.payment_status status) now txs,
           w')
      end
  end.

(** POST /webhook/stripe (lines 526-555); the answer is the dict
    [{"status": "success"}], given by its one value. *)
Definition stripe_webhook
    (handle_webhook : string -> string -> option string
                      -> string + WebhookResponse.t)
    (body : string) (stripe_signature : option string)
    (txs : list PaymentTransaction.t) (w : World)
    : HttpResult string * list PaymentTransaction.t * World :=
  match STRIPE_API_KEY with
  | None =>
      (HTTPException 500
         ("Error handling webhook: "
          +:+ str_exception (RaisedKeyError "STRIPE_API_KEY")), txs, w)
  | Some key =>
      match handle_webhook key body stripe_signature with
      | inl message =>
          (HTTPException 500
             ("Error handling webhook: "
              +:+ str_exception (RaisedByStripe message)), txs, w)
      | inr webhook_response =>
          let '(now, w') := datetime_now w in
          (Returns "success",
           update_one (WebhookResponse.session_id webhook_response)
             (WebhookResponse.payment_status webhook_response) now txs,
           w')
      end
  end.

End PaymentRoutes.

(** ** The application as a whole *)

(** What the routes read and write: the two collections, the files under
    /tmp and the environment of the default factories. *)
Record System : Type := {
  tokenomics_projects : Collection;
  payment_transactions : list PaymentTransaction.t;
  tmp_files : gmap string (list Op);
  world : World
}.

Definition initial (w : World) : System :=
  {| tokenomics_projects := []; payment_transactions := [];
     tmp_files := ∅; world := w |}.

(** A request to one of the routes, with what the model or the payment
    library does when the route calls it. *)
Inductive Call : Type :=
| PostGenerate (request : TokenomicsRequest.t) (reply : Reply)
| GetProject (project_id : string)
| GetPdf (project_id : string)
| PostCheckout (package_id origin_url : string)
    (create : string -> string -> CheckoutSessionRequest.t
              -> string + CheckoutSessionResponse.t)
| GetCheckoutStatus (session_id : string)
    (status_of : string -> string -> string + CheckoutStatusResponse.t)
| PostWebhook (body : string) (stripe_signature : option string)
    (handle_webhook : string -> string -> option string
                      -> string + WebhookResponse.t).

Section Application.

Variable json_loads : string -> option json.
Variable c : Coercion.
Variable str_float : float -> string.
Variable str_exception : RouteException -> string.
Variable STRIPE_API_KEY : option string.

(** The state a route leaves. *)
Definition serve (s : System) (call : Call) : System :=
  match call with
  | PostGenerate request reply =>
      let '(_, db, w) :=
        generate_tokenomics json_loads c request reply
          (tokenomics_projects s) (world s) in
      {| tokenomics_projects := db;
         payment_transactions := payment_transactions s;
         tmp_files := tmp_files s; world := w |}
  | GetProject _ => s
  | GetPdf project_id =>
      {| tokenomics_projects := tokenomics_projects s;
         payment_transactions := payment_transactions s;
         tmp_files :=
           (download_pdf str_float (tokenomics_projects s) (tmp_files s) project_id).2;
         world := world s |}
  | PostCheckout package_id origin_url create =>
      let '(_, txs, w) :=
        create_checkout_session str_exception STRIPE_API_KEY create
          package_id origin_url (payment_transactions s) (world s) in
      {| tokenomics_projects := tokenomics_projects s;
         payment_transactions := txs;
         tmp_files := tmp_files s; world := w |}
  | GetCheckoutStatus session_id status_of =>
      let '(_, txs, w) :=
        get_checkout_status str_exception STRIPE_API_KEY status_of session_id
          (payment_transactions s) (world s) in
      {| tokenomics_projects := tokenomics_projects s;
         payment_transactions := txs;
         tmp_files := tmp_files s; world := w |}
  | PostWebhook body stripe_signature handle_webhook =>
      let '(_, txs, w) :=
        stripe_webhook str_exception STRIPE_API_KEY handle_webhook body
          stripe_signature (payment_transactions s) (world s) in
      {| tokenomics_projects := tokenomics_projects s;
         payment_transactions := txs;
         tmp_files := tmp_files s; world := w |}
  end.

(** The state after a sequence of requests. *)
Definition run (calls : list Call) (s : System) : System :=
  fold_left serve calls s.

End Application.

(** The fields of a transaction that no route changes after it is stored. *)
Definition frozen_fields (tx : PaymentTransaction.t) :=
  (PaymentTransaction.id tx, PaymentTransaction.session_id tx,
   PaymentTransaction.amount tx, PaymentTransaction.currency tx,
   PaymentTransaction.project_id tx, PaymentTransaction.metadata tx,
   PaymentTransaction.created_at tx).

(** A transaction as [create_checkout_session] stores them: in dollars, at
    the price of the package named in its metadata, linked to no project. *)
Definition priced (tx : PaymentTransaction.t) : Prop :=
  PaymentTransaction.currency tx = "usd"
  /\ PaymentTransaction.project_id tx = None
  /\ exists package_id package,
       PRICING_PACKAGES !! package_id = Some package
       /\ PaymentTransaction.metadata tx !! "package_id" = Some package_id
       /\ PaymentTransaction.metadata tx !! "package_name" = Some (Package.name package)
       /\ PaymentTransaction.amount tx = Package.amount package.

(** Sample behaviours of the payment library for the instances. *)
Definition sample_create (key webhook_url : string) (r : CheckoutSessionRequest.t)
    : string + CheckoutSessionResponse.t :=
  inr (CheckoutSessionResponse.Build "https://checkout.example/cs_1" "cs_1").

Definition sample_status_of (key session_id : string)
    : string + CheckoutStatusResponse.t :=
  inr (CheckoutStatusResponse.Build "complete" "paid").

Definition sample_str_exception (e : RouteException) : string :=
  match e with
  | RaisedHTTP _ detail => detail
  | RaisedKeyError key => "'" +:+ key +:+ "'"
  | RaisedByStripe message => message
  end.

Definition sample_calls : list Call :=
  [ PostGenerate sample_request (SendFailed ModelTimeout);
    PostCheckout "pro" "https://app.example" sample_create;
    GetPdf "uid";
    PostGenerate sample_request NoApiKey;
    GetCheckoutStatus "cs_1" sample_status_of ].

(** The identities stored in a state reached from world [w0] were drawn
    from its uuid source at different positions, all of them consumed. *)
Definition drawn_identities (w0 : World) (s : System) : Prop :=
  uuid_source (world s) = uuid_source w0
  /\ exists project_draws transaction_draws : list nat,
       TokenomicsProject.id <$> tokenomics_projects s
       = uuid_source w0 <$> project_draws
       /\ PaymentTransaction.id <$> payment_transactions s
          = uuid_source w0 <$> transaction_draws
       /\ NoDup (project_draws ++ transaction_draws)
       /\ Forall (fun k => k < uuid_count (world s))
            (project_draws ++ transaction_draws).

(** A stored design as the generation paths build it. *)
Definition untouched (p : TokenomicsProject.t) : Prop :=
  TokenomicsProject.pdf_generated p = false
  /\ TokenomicsProject.payment_status p = "pending".

(** Every file under /tmp is the report of a stored design, at the path of
    that design's identity. *)
Definition files_are_reports (str_float : float -> string) (s : System) : Prop :=
  forall path ops,
    tmp_files s !! path = Some ops ->
    exists p, p ∈ tokenomics_projects s
              /\ path = pdf_path (TokenomicsProject.id p)
              /\ ops = generate_pdf_report str_float p.

(** * Properties *)

(** C1. For every request the fallback generator returns the five-row
    template Team 15%, Investors 20%, Community 30%, Treasury 25%,
    Liquidity 10%; the percentages add up to exactly 100, the token counts
    add up to exactly the total supply of 100,000,000, and every token count
    is exactly its percentage of that supply. *)
Theorem fallback_allocation_invariants (request : TokenomicsRequest.t) (w : World) :
  let p := (create_fallback_tokenomics request w).1 in
  let rows := TokenomicsProject.allocations p in
  length rows = 5
  /\ map (fun a => (TokenAllocation.category a, TokenAllocation.percentage a,
                   TokenAllocation.tokens a)) rows
     = [ ("Team", 15%float, 15000000%Z); ("Investors", 20%float, 20000000%Z);
         ("Community", 30%float, 30000000%Z); ("Treasury", 25%float, 25000000%Z);
         ("Liquidity", 10%float, 10000000%Z) ]
  /\ sum_percentages rows = 100%float
  /\ (exists q, exact_percentage_sum rows = Some q /\ (q == 100)%Q)
  /\ TokenomicsProject.total_supply p = 100000000%Z
  /\ sum_tokens rows = TokenomicsProject.total_supply p
  /\ Forall (proportional (TokenomicsProject.total_supply p)) rows.
Proof.
  cbn -[fallback_allocations sum_percentages sum_tokens exact_percentage_sum].
  split; [reflexivity|]. split; [reflexivity|]. split; [reflexivity|].
  split; [eexists; split; [vm_compute; reflexivity | reflexivity]|].
  split; [reflexivity|]. split; [reflexivity|].
  unfold fallback_allocations.
  repeat constructor; eexists; (split; [vm_compute; reflexivity | reflexivity]).
Qed.


(** ** Strings *)

Lemma append_cons (ch : ascii) (a b : string) :
  String ch a +:+ b = String ch (a +:+ b).
Proof. reflexivity. Qed.

Lemma append_empty_l (a : string) : EmptyString +:+ a = a.
Proof. reflexivity. Qed.

Lemma append_assoc (a b d : string) : (a +:+ b) +:+ d = a +:+ (b +:+ d).
Proof.
  induction a as [|ch a IH]; [reflexivity|].
  rewrite !append_cons, IH. reflexivity.
Qed.

Lemma append_empty_r (a : string) : a +:+ EmptyString = a.
Proof.
  induction a as [|ch a IH]; [reflexivity|]. rewrite append_cons, IH. reflexivity.
Qed.

Lemma length_append (a b : string) :
  String.length (a +:+ b) = String.length a + String.length b.
Proof.
  induction a as [|ch a IH]; [reflexivity|].
  rewrite append_cons. cbn. rewrite IH. reflexivity.
Qed.

Lemma prefix_split (p s : string) :
  String.prefix p s = true -> exists rest, s = p +:+ rest.
Proof.
  revert s. induction p as [|ch p IH]; intros s H.
  - exists s. reflexivity.
  - destruct s as [|ch' s]; [discriminate|]. cbn in H.
    destruct (ascii_dec ch ch') as [->|]; [|discriminate].
    destruct (IH s H) as [rest ->]. exists rest. reflexivity.
Qed.

Lemma prefix_append (p rest : string) : String.prefix p (p +:+ rest) = true.
Proof.
  induction p as [|ch p IH]; [destruct rest; reflexivity|].
  rewrite append_cons.
  change (String.prefix (String ch p) (String ch (p +:+ rest)))
    with (if ascii_dec ch ch then String.prefix p (p +:+ rest) else false).
  destruct (ascii_dec ch ch); [exact IH | congruence].
Qed.

Lemma substring_all (s : string) : substring 0 (String.length s) s = s.
Proof. induction s as [|ch s IH]; cbn; [reflexivity | rewrite IH; reflexivity]. Qed.

Lemma substring_split (k : nat) (s : string) :
  s = substring 0 k s +:+ substring k (String.length s - k) s.
Proof.
  revert k. induction s as [|ch s IH]; intros k.
  - destruct k; reflexivity.
  - destruct k as [|k]; cbn [substring String.length Nat.sub].
    + rewrite append_empty_l, substring_all. reflexivity.
    + rewrite append_cons. f_equal. apply IH.
Qed.

Lemma length_substring_tail (k : nat) (s : string) :
  String.length (substring k (String.length s - k) s) = String.length s - k.
Proof.
  revert k. induction s as [|ch s IH]; intros k.
  - destruct k; reflexivity.
  - destruct k as [|k]; cbn [substring String.length Nat.sub].
    + rewrite substring_all. reflexivity.
    + apply IH.
Qed.

Lemma substring_prefix_append (a b : string) :
  substring 0 (String.length a) (a +:+ b) = a.
Proof.
  induction a as [|ch a IH]; [destruct b; reflexivity|].
  rewrite append_cons. cbn [String.length substring]. rewrite IH. reflexivity.
Qed.

Lemma append_eq_empty (a b : string) :
  a +:+ b = EmptyString -> a = EmptyString /\ b = EmptyString.
Proof. destruct a; [intros H; split; [reflexivity | exact H] | discriminate]. Qed.

(** *** Trimming *)

Section Trimming.

Variable p : ascii -> bool.

Lemma rstrip_by_cons (ch : ascii) (s : string) :
  Py.rstrip_by p s <> EmptyString ->
  Py.rstrip_by p (String ch s) = String ch (Py.rstrip_by p s).
Proof. cbn. destruct (Py.rstrip_by p s); [congruence | reflexivity]. Qed.

Lemma rstrip_by_append_keep (a b : string) :
  Py.rstrip_by p b <> EmptyString ->
  Py.rstrip_by p (a +:+ b) = a +:+ Py.rstrip_by p b.
Proof.
  intros Hb. induction a as [|ch a IH]; [reflexivity|].
  rewrite !append_cons, rstrip_by_cons; [rewrite IH; reflexivity|].
  rewrite IH. intros H. apply append_eq_empty in H as [_ H]. exact (Hb H).
Qed.

Lemma rstrip_by_all (b : string) :
  all_chars p b = true -> Py.rstrip_by p b = EmptyString.
Proof.
  induction b as [|ch b IH]; [reflexivity|]. cbn.
  intros H. apply andb_prop in H as [Hch Hb]. rewrite (IH Hb), Hch. reflexivity.
Qed.

Lemma rstrip_by_append_drop (a b : string) :
  all_chars p b = true -> Py.rstrip_by p (a +:+ b) = Py.rstrip_by p a.
Proof.
  intros Hb. induction a as [|ch a IH].
  - rewrite append_empty_l. apply rstrip_by_all. exact Hb.
  - rewrite append_cons. cbn. rewrite IH. reflexivity.
Qed.

Lemma lstrip_by_append_drop (a b : string) :
  all_chars p a = true -> Py.lstrip_by p (a +:+ b) = Py.lstrip_by p b.
Proof.
  induction a as [|ch a IH]; [reflexivity|]. cbn [all_chars].
  intros H. apply andb_prop in H as [Hch Ha].
  rewrite append_cons. cbn. rewrite Hch. apply IH. exact Ha.
Qed.

Lemma lstrip_by_idem (s : string) :
  Py.lstrip_by p (Py.lstrip_by p s) = Py.lstrip_by p s.
Proof.
  induction s as [|ch s IH]; [reflexivity|]. cbn.
  destruct (p ch) eqn:E; [exact IH|]. cbn. rewrite E. reflexivity.
Qed.

Lemma rstrip_by_idem (s : string) :
  Py.rstrip_by p (Py.rstrip_by p s) = Py.rstrip_by p s.
Proof.
  induction s as [|ch s IH]; [reflexivity|]. cbn.
  destruct (Py.rstrip_by p s) as [|ch' r] eqn:E.
  - destruct (p ch) eqn:Ep; [reflexivity|]. cbn. rewrite Ep. reflexivity.
  - rewrite rstrip_by_cons; rewrite IH; [reflexivity | discriminate].
Qed.

Lemma strip_by_comm (s : string) :
  Py.lstrip_by p (Py.rstrip_by p s) = Py.rstrip_by p (Py.lstrip_by p s).
Proof.
  induction s as [|ch s IH]; [reflexivity|]. cbn [Py.lstrip_by].
  destruct (p ch) eqn:Ep.
  - rewrite <- IH. cbn. destruct (Py.rstrip_by p s) as [|ch' r].
    + rewrite Ep. reflexivity.
    + cbn. rewrite Ep. reflexivity.
  - cbn. destruct (Py.rstrip_by p s) as [|ch' r]; rewrite ?Ep; cbn; rewrite ?Ep; reflexivity.
Qed.

Lemma strip_by_idem (s : string) :
  Py.lstrip_by p (Py.rstrip_by p (Py.lstrip_by p (Py.rstrip_by p s)))
  = Py.lstrip_by p (Py.rstrip_by p s).
Proof.
  rewrite <- (strip_by_comm (Py.rstrip_by p s)), rstrip_by_idem, lstrip_by_idem.
  reflexivity.
Qed.

(** Padding made of trimmed characters does not show after trimming. *)
Lemma strip_by_padding (pad1 pad2 s : string) :
  all_chars p pad1 = true -> all_chars p pad2 = true ->
  Py.lstrip_by p (Py.rstrip_by p (pad1 +:+ s +:+ pad2))
  = Py.lstrip_by p (Py.rstrip_by p s).
Proof.
  intros H1 H2.
  rewrite strip_by_comm, (lstrip_by_append_drop _ _ H1), <- strip_by_comm.
  rewrite (rstrip_by_append_drop _ _ H2). reflexivity.
Qed.

End Trimming.

Lemma json_space_isspace (ch : ascii) :
  json_space ch = true -> Py.isspace ch = true.
Proof.
  destruct ch as [[] [] [] [] [] [] [] []]; intros H; try reflexivity; discriminate H.
Qed.

Lemma all_json_space_isspace (s : string) :
  all_chars json_space s = true -> all_chars Py.isspace s = true.
Proof.
  induction s as [|ch s IH]; [reflexivity|]. cbn.
  intros H. apply andb_prop in H as [Hch Hs].
  rewrite (json_space_isspace _ Hch), (IH Hs). reflexivity.
Qed.

(** A text that opens and closes with a character that is not whitespace is
    its own trimming. *)
Lemma strip_delimited (open close : ascii) (body : string) :
  Py.isspace open = false -> Py.isspace close = false ->
  Py.strip (String open (body +:+ String close EmptyString))
  = String open (body +:+ String close EmptyString).
Proof.
  intros Ho Hc. unfold Py.strip.
  assert (Hclose : Py.rstrip_by Py.isspace (String close EmptyString)
                   = String close EmptyString) by (cbn; rewrite Hc; reflexivity).
  rewrite rstrip_by_cons; rewrite rstrip_by_append_keep; rewrite Hclose;
    try discriminate.
  - cbn. rewrite Ho. reflexivity.
  - intros H. apply append_eq_empty in H as [_ H]. discriminate H.
Qed.

(** ** Cutting the fence *)

Lemma slice_after_marker (marker payload : string) (b : nat) :
  Py.slice (String.length marker) b (marker +:+ payload)
  = substring 0 (String.length payload - b) payload.
Proof.
  unfold Py.slice. rewrite length_append.
  replace (String.length marker + String.length payload - b - String.length marker)
    with (String.length payload - b) by lia.
  generalize (String.length payload - b) as m.
  induction marker as [|ch marker IH]; intros m; [reflexivity|].
  rewrite append_cons. cbn [String.length substring]. apply IH.
Qed.

Lemma cut_tail (payload : string) :
  let kept := substring 0 (String.length payload - 3) payload in
  (String.length payload < 3 -> kept = EmptyString)
  /\ (3 <= String.length payload ->
      exists tail, String.length tail = 3 /\ payload = kept +:+ tail).
Proof.
  cbn zeta. split.
  - intros Hshort. replace (String.length payload - 3) with 0 by lia.
    destruct payload; reflexivity.
  - intros Hlong.
    exists (substring (String.length payload - 3)
              (String.length payload - (String.length payload - 3)) payload).
    split; [rewrite length_substring_tail; lia | apply substring_split].
Qed.

Lemma strip_object_text (text : string) :
  object_text text -> Py.strip text = text.
Proof. intros [body ->]. apply (strip_delimited "{" "}" body); reflexivity. Qed.

Lemma strip_fenced (marker_tail inner : string) :
  Py.strip (String "`" (marker_tail +:+ inner +:+ "```"))
  = String "`" (marker_tail +:+ inner +:+ "```").
Proof.
  replace (String "`" (marker_tail +:+ inner +:+ "```"))
    with (String "`" ((marker_tail +:+ inner +:+ "``") +:+ String "`" EmptyString))
    by (rewrite !append_assoc; reflexivity).
  apply strip_delimited; reflexivity.
Qed.

Lemma cut_closing_fence (inner : string) :
  substring 0 (String.length (inner +:+ "```") - 3) (inner +:+ "```") = inner.
Proof.
  rewrite length_append. cbn [String.length].
  replace (String.length inner + 3 - 3) with (String.length inner) by lia.
  apply substring_prefix_append.
Qed.

Lemma strip_code_fence_typed (pad1 payload pad2 : string) :
  strip_code_fence (typed_fence pad1 payload pad2) = pad1 +:+ payload +:+ pad2.
Proof.
  unfold strip_code_fence, typed_fence.
  replace ("```json" +:+ pad1 +:+ payload +:+ pad2 +:+ "```")
    with (String "`" ("``json" +:+ (pad1 +:+ payload +:+ pad2) +:+ "```"))
    by (rewrite !append_assoc; reflexivity).
  rewrite strip_fenced.
  change (String "`" ("``json" +:+ (pad1 +:+ payload +:+ pad2) +:+ "```"))
    with ("```json" +:+ ((pad1 +:+ payload +:+ pad2) +:+ "```")).
  unfold Py.startswith. rewrite prefix_append.
  rewrite (slice_after_marker "```json"). apply cut_closing_fence.
Qed.

Lemma no_json_prefix (pad1 rest : string) :
  all_chars json_space pad1 = true ->
  String.prefix "json" (pad1 +:+ String "{" rest) = false.
Proof.
  destruct pad1 as [|ch pad1]; [reflexivity|]. cbn [all_chars].
  intros H. apply andb_prop in H as [Hch _].
  rewrite append_cons.
  change (String.prefix "json" (String ch (pad1 +:+ String "{" rest)))
    with (if ascii_dec "j" ch
          then String.prefix "son" (pad1 +:+ String "{" rest) else false).
  destruct (ascii_dec "j" ch) as [<-|]; [discriminate Hch | reflexivity].
Qed.

Lemma strip_code_fence_untyped (pad1 payload pad2 : string) :
  all_chars json_space pad1 = true -> object_text payload ->
  strip_code_fence (untyped_fence pad1 payload pad2) = pad1 +:+ payload +:+ pad2.
Proof.
  intros Hpad [body ->]. unfold strip_code_fence, untyped_fence.
  set (inner := pad1 +:+ ("{" +:+ body +:+ "}") +:+ pad2).
  replace ("```" +:+ pad1 +:+ ("{" +:+ body +:+ "}") +:+ pad2 +:+ "```")
    with (String "`" ("``" +:+ inner +:+ "```"))
    by (unfold inner; rewrite !append_assoc; reflexivity).
  rewrite strip_fenced.
  change (String "`" ("``" +:+ inner +:+ "```")) with ("```" +:+ (inner +:+ "```")).
  assert (Hnot : Py.startswith ("```" +:+ (inner +:+ "```")) "```json" = false).
  { change (String.prefix "json" (inner +:+ "```") = false). unfold inner.
    rewrite !append_assoc. apply (no_json_prefix pad1 _ Hpad). }
  rewrite Hnot.
  unfold Py.startswith. rewrite prefix_append.
  rewrite (slice_after_marker "```"). apply cut_closing_fence.
Qed.

Lemma strip_code_fence_plain (text : string) :
  object_text text -> strip_code_fence text = text.
Proof.
  intros Hobj. unfold strip_code_fence. rewrite (strip_object_text _ Hobj).
  destruct Hobj as [body ->]. reflexivity.
Qed.

Lemma strip_code_fence_padded (pad1 payload pad2 : string) :
  all_chars json_space pad1 = true -> all_chars json_space pad2 = true ->
  object_text payload ->
  strip_code_fence (pad1 +:+ payload +:+ pad2) = payload.
Proof.
  intros H1 H2 Hobj. unfold strip_code_fence.
  assert (Hstrip : Py.strip (pad1 +:+ payload +:+ pad2) = payload).
  { unfold Py.strip.
    rewrite strip_by_padding by (apply all_json_space_isspace; assumption).
    apply (strip_object_text _ Hobj). }
  rewrite Hstrip. destruct Hobj as [body ->]. reflexivity.
Qed.

Lemma typed_marker_is_bare (s : string) :
  Py.startswith s "```" = false -> Py.startswith s "```json" = false.
Proof.
  intros Hbare. destruct (Py.startswith s "```json") eqn:E; [|reflexivity].
  apply prefix_split in E as [rest ->]. discriminate Hbare.
Qed.

Lemma strip_code_fence_unfenced_idem (response : string) :
  Py.startswith (Py.strip response) "```" = false ->
  strip_code_fence (strip_code_fence response) = strip_code_fence response.
Proof.
  intros Hbare. pose proof (typed_marker_is_bare _ Hbare) as Htyped.
  assert (Hone : strip_code_fence response = Py.strip response)
    by (unfold strip_code_fence; rewrite Htyped, Hbare; reflexivity).
  rewrite Hone. unfold strip_code_fence.
  replace (Py.strip (Py.strip response)) with (Py.strip response)
    by (symmetry; apply strip_by_idem).
  rewrite Htyped, Hbare. reflexivity.
Qed.

(** C10. When the trimmed response starts with the typed marker the parser
    keeps what lies between the first 7 and the last 3 characters, and when
    it starts with the bare marker what lies between the first 3 and the last
    3, without looking at what the last 3 characters are; the text handed to
    the decoder is the payload after the marker without its last three
    characters (nothing, when the payload has fewer than three).  So a
    response with an opening fence and no closing fence loses the last three
    characters of its payload. *)
Theorem fence_cut_is_unconditional (response : string) :
  let t := Py.strip response in
  let kept := strip_code_fence response in
  (Py.startswith t "```json" = true ->
   exists payload,
     t = "```json" +:+ payload
     /\ kept = substring 0 (String.length payload - 3) payload
     /\ (String.length payload < 3 -> kept = EmptyString)
     /\ (3 <= String.length payload ->
         exists tail, String.length tail = 3 /\ t = "```json" +:+ kept +:+ tail))
  /\ (Py.startswith t "```json" = false -> Py.startswith t "```" = true ->
      exists payload,
        t = "```" +:+ payload
        /\ kept = substring 0 (String.length payload - 3) payload
        /\ (String.length payload < 3 -> kept = EmptyString)
        /\ (3 <= String.length payload ->
            exists tail, String.length tail = 3 /\ t = "```" +:+ kept +:+ tail))
  /\ (forall json_loads : string -> option json,
        decode json_loads response
        = match json_loads kept with
          | Some data => Ok data
          | None => Raise JSONDecodeError
          end).
Proof.
  cbn zeta. unfold strip_code_fence. split; [|split].
  - intros Htyped. rewrite Htyped.
    destruct (prefix_split _ _ Htyped) as [payload Hp]. exists payload.
    split; [exact Hp|].
    assert (Hk : Py.slice 7 3 (Py.strip response)
                 = substring 0 (String.length payload - 3) payload)
      by (rewrite Hp; exact (slice_after_marker "```json" payload 3)).
    rewrite Hk. destruct (cut_tail payload) as [Hshort Hlong].
    split; [reflexivity|]. split; [exact Hshort|].
    intros H3. destruct (Hlong H3) as (tail & Hlen & Hsplit).
    exists tail. split; [exact Hlen|]. rewrite Hp. f_equal. exact Hsplit.
  - intros Hnot Hbare. rewrite Hnot, Hbare.
    destruct (prefix_split _ _ Hbare) as [payload Hp]. exists payload.
    split; [exact Hp|].
    assert (Hk : Py.slice 3 3 (Py.strip response)
                 = substring 0 (String.length payload - 3) payload)
      by (rewrite Hp; exact (slice_after_marker "```" payload 3)).
    rewrite Hk. destruct (cut_tail payload) as [Hshort Hlong].
    split; [reflexivity|]. split; [exact Hshort|].
    intros H3. destruct (Hlong H3) as (tail & Hlen & Hsplit).
    exists tail. split; [exact Hlen|]. rewrite Hp. f_equal. exact Hsplit.
  - intros json_loads. reflexivity.
Qed.

Lemma fence_cut_is_unconditional_witness :
  strip_code_fence "```json[1, 2, 3]" = "[1, 2,"
  /\ strip_code_fence "```[1, 2, 3]" = "[1, 2,".
Proof.
  split.
  - destruct (fence_cut_is_unconditional "```json[1, 2, 3]") as (H & _ & _).
    destruct H as (payload & Hp & Hkept & _); [reflexivity|].
    vm_compute in Hp. injection Hp as <-. exact Hkept.
  - destruct (fence_cut_is_unconditional "```[1, 2, 3]") as (_ & H & _).
    destruct H as (payload & Hp & Hkept & _); [reflexivity | reflexivity |].
    vm_compute in Hp. injection Hp as <-. exact Hkept.
Defined.

(** ** Splitting into words and wrapping *)

Lemma all_chars_append (p : ascii -> bool) (a b : string) :
  all_chars p (a +:+ b) = all_chars p a && all_chars p b.
Proof.
  induction a as [|ch a IH]; [reflexivity|].
  rewrite append_cons. cbn. rewrite IH. apply andb_assoc.
Qed.

Lemma truthy_append_char (a : string) (ch : ascii) :
  Py.truthy (a +:+ String ch EmptyString) = true.
Proof. destruct a; reflexivity. Qed.

Lemma truthy_true (s : string) : Py.truthy s = true <-> s <> EmptyString.
Proof. destruct s; cbn; split; congruence. Qed.

Lemma split_from_words (s cur : string) :
  all_chars (fun ch => negb (Py.isspace ch)) cur = true ->
  Forall is_word (Py.split_from cur s).
Proof.
  revert cur. induction s as [|ch s IH]; intros cur Hcur; cbn.
  - destruct (Py.truthy cur) eqn:E; constructor; [|constructor].
    split; [apply truthy_true; exact E | exact Hcur].
  - destruct (Py.isspace ch) eqn:Ech.
    + destruct (Py.truthy cur) eqn:E; [constructor|]; try (apply IH; reflexivity).
      split; [apply truthy_true; exact E | exact Hcur].
    + apply IH. rewrite all_chars_append, Hcur. cbn. rewrite Ech. reflexivity.
Qed.

Lemma split_words (s : string) : Forall is_word (Py.split s).
Proof. apply split_from_words. reflexivity. Qed.

Lemma split_from_append_space (a cur b : string) :
  Py.split_from cur (a +:+ " " +:+ b)
  = Py.split_from cur a ++ Py.split_from EmptyString b.
Proof.
  revert cur. induction a as [|ch a IH]; intros cur.
  - rewrite append_empty_l. change (" " +:+ b) with (String " " b).
    cbn. destruct (Py.truthy cur); reflexivity.
  - rewrite append_cons. cbn [Py.split_from].
    destruct (Py.isspace ch); [|apply IH].
    destruct (Py.truthy cur); rewrite IH; reflexivity.
Qed.

Lemma split_from_word (w cur : string) :
  all_chars (fun ch => negb (Py.isspace ch)) w = true ->
  Py.split_from cur w = if Py.truthy (cur +:+ w) then [cur +:+ w] else [].
Proof.
  revert cur. induction w as [|ch w IH]; intros cur Hw.
  - rewrite append_empty_r. reflexivity.
  - cbn in Hw. apply andb_prop in Hw as [Hch Hw].
    cbn [Py.split_from]. apply negb_true_iff in Hch. rewrite Hch.
    rewrite (IH _ Hw), append_assoc. reflexivity.
Qed.

Lemma split_word (w : string) : is_word w -> Py.split w = [w].
Proof.
  intros [Hne Hw]. unfold Py.split. rewrite (split_from_word _ _ Hw).
  rewrite append_empty_l. apply truthy_true in Hne. rewrite Hne. reflexivity.
Qed.

Lemma split_append_word (cur w : string) :
  is_word w -> Py.split (cur +:+ " " +:+ w) = Py.split cur ++ [w].
Proof.
  intros Hw. unfold Py.split. rewrite split_from_append_space.
  f_equal. apply (split_word _ Hw).
Qed.

Lemma wrap_step_words (st : list string * string) (w : string) :
  is_word w -> words_of (wrap_step st w) = words_of st ++ [w].
Proof.
  intros Hw. destruct st as [lines cur]. unfold wrap_step, words_of.
  destruct (String.length (cur +:+ " " +:+ w) <? 90)%nat; cbn [fst snd].
  - rewrite <- app_assoc. f_equal. destruct cur as [|ch cur]; cbn [Py.truthy].
    + apply (split_word _ Hw).
    + apply (split_append_word _ _ Hw).
  - rewrite fmap_app, concat_app. cbn [fmap list_fmap concat].
    rewrite app_nil_r, (split_word _ Hw), <- app_assoc. reflexivity.
Qed.

Lemma wrap_fold_words (ws : list string) (st : list string * string) :
  Forall is_word ws ->
  words_of (fold_left wrap_step ws st) = words_of st ++ ws.
Proof.
  revert st. induction ws as [|w ws IH]; intros st Hws; cbn.
  - rewrite app_nil_r. reflexivity.
  - apply Forall_cons in Hws as [Hw Hws].
    rewrite (IH _ Hws), (wrap_step_words _ _ Hw), <- app_assoc. reflexivity.
Qed.

Lemma wrap_lines_words (ws : list string) :
  Forall is_word ws -> concat (Py.split <$> wrap_lines ws) = ws.
Proof.
  intros Hws. pose proof (wrap_fold_words ws ([], EmptyString) Hws) as H.
  unfold wrap_lines. destruct (fold_left wrap_step ws ([], EmptyString)) as [lines cur].
  unfold words_of in H. cbn [fst snd] in H. cbn in H.
  destruct cur as [|ch cur]; cbn [Py.truthy].
  - cbn in H. rewrite app_nil_r in H. exact H.
  - rewrite fmap_app, concat_app. cbn [fmap list_fmap concat].
    rewrite app_nil_r. exact H.
Qed.

Lemma wrap_fold_fits (ws part : list string) (lines : list string) (cur : string) :
  (forall w, w ∈ part -> w ∈ ws) ->
  Forall (fits ws) lines -> fits ws cur ->
  Forall (fits ws) (fold_left wrap_step part (lines, cur)).1
  /\ fits ws (fold_left wrap_step part (lines, cur)).2.
Proof.
  revert lines cur. induction part as [|w part IH]; intros lines cur Hpart Hl Hc.
  - split; assumption.
  - cbn [fold_left]. unfold wrap_step at 2 4.
    destruct (String.length (cur +:+ " " +:+ w) <? 90)%nat eqn:E.
    + apply IH; [intros v Hv; apply Hpart; right; exact Hv | exact Hl |].
      destruct (Py.truthy cur).
      * left. apply Nat.ltb_lt. exact E.
      * right. apply Hpart. left.
    + apply IH; [intros v Hv; apply Hpart; right; exact Hv | |].
      * apply Forall_app. split; [exact Hl|]. constructor; [exact Hc | constructor].
      * right. apply Hpart. left.
Qed.

Lemma wrap_lines_fit (ws : list string) : Forall (fits ws) (wrap_lines ws).
Proof.
  destruct (wrap_fold_fits ws ws [] EmptyString) as [Hl Hc].
  - intros w Hw. exact Hw.
  - constructor.
  - left. cbn. lia.
  - unfold wrap_lines. destruct (fold_left wrap_step ws ([], EmptyString)) as [lines cur].
    cbn [fst snd] in *. destruct (Py.truthy cur); [|exact Hl].
    apply Forall_app. split; [exact Hl|]. constructor; [exact Hc | constructor].
Qed.

(** ** Pagination of the lines *)

Lemma page_break_cases (y : Z) :
  (y < 100 /\ page_break y = ([ShowPage], height - 50))%Z
  \/ (100 <= y /\ page_break y = ([], y))%Z.
Proof.
  unfold page_break. destruct (Z.ltb_spec y 100); [left | right]; split; auto.
Qed.

Lemma drawn_text_app (a b : list Op) :
  drawn_text (a ++ b) = drawn_text a ++ drawn_text b.
Proof. apply omap_app. Qed.

Lemma draw_lines_text (lines : list string) (y : Z) :
  drawn_text (draw_lines lines y).1 = lines.
Proof.
  revert y. induction lines as [|line lines IH]; intros y; [reflexivity|].
  cbn [draw_lines].
  destruct (page_break_cases y) as [[_ ->]|[_ ->]].
  - specialize (IH (height - 50 - 15)%Z).
    destruct (draw_lines lines (height - 50 - 15)) as [ops y']. cbn [fst] in *.
    rewrite drawn_text_app.
    change (drawn_text [ShowPage] ++ line :: drawn_text ops = line :: lines).
    rewrite IH. reflexivity.
  - specialize (IH (y - 15)%Z).
    destruct (draw_lines lines (y - 15)) as [ops y']. cbn [fst] in *.
    change (line :: drawn_text ops = line :: lines).
    rewrite IH. reflexivity.
Qed.

Lemma draw_lines_chained (lines : list string) (y : Z) (x : Z) (t : string) :
  chained cursor_rule (DrawString x (y + 15) t :: (draw_lines lines y).1).
Proof.
  revert y x t. induction lines as [|line lines IH]; intros y x t; [exact I|].
  cbn [draw_lines].
  destruct (page_break_cases y) as [[Hy ->]|[Hy ->]].
  - specialize (IH (height - 50 - 15)%Z 50%Z line).
    replace (height - 50 - 15 + 15)%Z with (height - 50)%Z in IH by lia.
    destruct (draw_lines lines (height - 50 - 15)) as [ops y']. cbn [fst snd] in *.
    cbn. repeat split; [lia | exact IH].
  - specialize (IH (y - 15)%Z 50%Z line).
    replace (y - 15 + 15)%Z with y in IH by lia.
    destruct (draw_lines lines (y - 15)) as [ops y']. cbn [fst snd] in *.
    cbn. repeat split; [lia | lia | exact IH].
Qed.

Lemma chained_tail (R : Op -> Op -> Prop) (op : Op) (ops : list Op) :
  chained R (op :: ops) -> chained R ops.
Proof. destruct ops as [|op2 ops]; [intros _; exact I | intros [_ H]; exact H]. Qed.

Lemma draw_lines_on_page (lines : list string) (y : Z) :
  (y <= height - 50)%Z -> Forall on_page (draw_lines lines y).1.
Proof.
  revert y. induction lines as [|line lines IH]; intros y Hy; [constructor|].
  cbn [draw_lines].
  destruct (page_break_cases y) as [[Hlow ->]|[Hhigh ->]].
  - specialize (IH (height - 50 - 15)%Z ltac:(lia)).
    destruct (draw_lines lines (height - 50 - 15)) as [ops y']. cbn [fst snd] in *.
    constructor; [exact I|]. constructor; [|exact IH]. cbn. unfold height. lia.
  - specialize (IH (y - 15)%Z ltac:(lia)).
    destruct (draw_lines lines (y - 15)) as [ops y']. cbn [fst snd] in *.
    constructor; [|exact IH]. cbn. lia.
Qed.

Lemma page_breaks_app (a b : list Op) :
  page_breaks (a ++ b) = page_breaks a + page_breaks b.
Proof. unfold page_breaks. rewrite List.filter_app, length_app. reflexivity. Qed.

(** Lines drawn without a page break all lie above the bottom margin. *)
Lemma draw_lines_one_page (lines : list string) (y : Z) (n : nat) :
  page_breaks (draw_lines lines y).1 = 0 -> length lines = S n ->
  (100 <= y - 15 * Z.of_nat n)%Z.
Proof.
  revert y n. induction lines as [|line lines IH]; intros y n Hnone Hlen; [discriminate|].
  cbn [draw_lines] in Hnone.
  destruct (page_break_cases y) as [[Hlow Hb]|[Hhigh Hb]]; rewrite Hb in Hnone.
  - destruct (draw_lines lines (height - 50 - 15)) as [ops y']. discriminate Hnone.
  - specialize (IH (y - 15)%Z).
    destruct (draw_lines lines (y - 15)) as [ops y']. cbn [fst snd] in *.
    change (page_breaks ops = 0) in Hnone.
    destruct lines as [|line2 lines].
    + cbn in Hlen. injection Hlen as <-. lia.
    + destruct n as [|n]; [discriminate|].
      specialize (IH n Hnone ltac:(cbn in *; lia)). lia.
Qed.

Lemma draw_lines_head (line : string) (rest : list string) (y : Z) :
  (100 <= y)%Z ->
  exists ops, (draw_lines (line :: rest) y).1 = DrawString 50 y line :: ops.
Proof.
  intros Hy. cbn [draw_lines].
  destruct (page_break_cases y) as [[Hlow _]|[_ ->]]; [lia|].
  destruct (draw_lines rest (y - 15)) as [ops y']. exists ops. reflexivity.
Qed.

(** The report is the header, the allocation rows, the heading of the
    narrative page, the narrative lines and the closing sections. *)
Lemma generate_pdf_report_parts (str_float : float -> string)
    (project : TokenomicsProject.t) :
  exists front back,
    generate_pdf_report str_float project
    = (front ++ narrative_heading.1) ++ (draw_narrative project).1 ++ back.
Proof.
  unfold generate_pdf_report.
  destruct (draw_header project) as [header y1].
  destruct (draw_allocations str_float _ y1) as [rows y2].
  destruct (draw_narrative project) as [body y3].
  exists (header ++ rows), (draw_closing project y3).
  cbn [fst]. rewrite <- !app_assoc. reflexivity.
Qed.

(** ** Chart projection *)

Lemma palette_lookup (i : nat) :
  palette !! (i mod 7) = Some (nth (i mod 7) palette EmptyString).
Proof.
  assert (H : i mod 7 < 7) by (apply Nat.mod_upper_bound; lia).
  destruct (i mod 7) as [|[|[|[|[|[|[|k]]]]]]]; try reflexivity; lia.
Qed.

(** C4. The chart projection has one entry per allocation, in the order of
    the allocations; entry [i] carries the category, percentage and token
    count of allocation [i] and the colour at index [i mod 7] of the
    seven-colour palette.  Three allocations give three entries with the
    colours at indices 0, 1 and 2. *)
Theorem chart_data_projection (project : TokenomicsProject.t) :
  length (chart_data project) = length (TokenomicsProject.allocations project)
  /\ (forall (i : nat) (alloc : TokenAllocation.t),
        TokenomicsProject.allocations project !! i = Some alloc ->
        exists entry,
          chart_data project !! i = Some entry
          /\ ChartEntry.name entry = TokenAllocation.category alloc
          /\ ChartEntry.value entry = TokenAllocation.percentage alloc
          /\ ChartEntry.tokens entry = TokenAllocation.tokens alloc
          /\ palette !! (i mod 7) = Some (ChartEntry.color entry))
  /\ (length (TokenomicsProject.allocations project) = 3 ->
      length (chart_data project) = 3
      /\ ChartEntry.color <$> chart_data project = take 3 palette).
Proof.
  unfold chart_data. split; [apply length_imap|]. split.
  - intros i alloc Hi. eexists. rewrite list_lookup_imap, Hi. cbn.
    repeat split; try reflexivity. apply palette_lookup.
  - intros H3. rewrite length_imap. split; [exact H3|].
    destruct (TokenomicsProject.allocations project) as [|a [|b [|d [|e rest]]]];
      try discriminate H3.
    reflexivity.
Qed.

Lemma chart_data_projection_witness :
  exists entry,
    chart_data sample_project !! 1 = Some entry
    /\ ChartEntry.name entry = "Investors"
    /\ ChartEntry.color entry = "#00FFA3".
Proof.
  destruct (chart_data_projection sample_project) as (_ & Hentry & _).
  destruct (Hentry 1 (TokenAllocation.Build "Investors" 20 20000000
              "Private and seed investor allocation"
              "2-year linear vesting with 6-month cliff" 6 18))
    as (entry & Hlook & Hname & _ & _ & Hcolor).
  - reflexivity.
  - exists entry. split; [exact Hlook|]. split; [exact Hname|].
    cbn in Hcolor. congruence.
Defined.

(** ** Lookup by identity *)

Lemma find_one_none (db : Collection) (project_id : string) :
  (forall doc, doc ∈ db -> TokenomicsProject.id doc <> project_id) ->
  find_one db project_id = None.
Proof.
  unfold find_one. induction db as [|d db IH]; intros Hall; [reflexivity|].
  cbn. destruct (String.eqb_spec (TokenomicsProject.id d) project_id) as [E|E].
  - exfalso. apply (Hall d); [left | exact E].
  - apply IH. intros doc Hdoc. apply Hall. right. exact Hdoc.
Qed.

Lemma find_one_some (db : Collection) (project_id : string) (doc : TokenomicsProject.t) :
  find_one db project_id = Some doc ->
  doc ∈ db /\ TokenomicsProject.id doc = project_id.
Proof.
  unfold find_one. induction db as [|d db IH]; [discriminate|].
  cbn. destruct (String.eqb_spec (TokenomicsProject.id d) project_id) as [E|E].
  - intros [= <-]. split; [left | exact E].
  - intros H. destruct (IH H) as [Hin Hid]. split; [right; exact Hin | exact Hid].
Qed.

Lemma find_one_unique (db : Collection) (doc : TokenomicsProject.t) :
  doc ∈ db -> NoDup (TokenomicsProject.id <$> db) ->
  find_one db (TokenomicsProject.id doc) = Some doc.
Proof.
  unfold find_one. induction db as [|d db IH]; intros Hin Hnd.
  - inversion Hin.
  - cbn. cbn in Hnd. apply NoDup_cons in Hnd as [Hfresh Hnd].
    destruct (String.eqb_spec (TokenomicsProject.id d) (TokenomicsProject.id doc)) as [E|E].
    + apply elem_of_cons in Hin as [->|Hin]; [reflexivity|].
      exfalso. apply Hfresh. rewrite E. apply list_elem_of_fmap. eauto.
    + apply elem_of_cons in Hin as [->|Hin]; [congruence|]. apply IH; assumption.
Qed.

Lemma find_one_exists (db : Collection) (project_id : string) :
  (exists doc, doc ∈ db /\ TokenomicsProject.id doc = project_id) ->
  exists found, find_one db project_id = Some found.
Proof.
  intros (doc & Hin & Hid). unfold find_one.
  induction db as [|d db IH]; [inversion Hin|].
  cbn. destruct (String.eqb_spec (TokenomicsProject.id d) project_id) as [E|E];
    [eexists; reflexivity|].
  apply elem_of_cons in Hin as [->|Hin]; [congruence|]. apply IH. exact Hin.
Qed.

Lemma find_documents_from (position : nat) (db : Collection) (project_id : string) :
  match find_one db project_id with
  | None =>
      List.find
        (fun d => String.eqb (TokenomicsProject.id (Document.fields d)) project_id)
        (documents_from position db)
      = None
  | Some doc =>
      exists n,
        db !! n = Some doc
        /\ List.find
             (fun d => String.eqb (TokenomicsProject.id (Document.fields d)) project_id)
             (documents_from position db)
           = Some (Document.Build (ObjectId_at (position + n)) doc)
  end.
Proof.
  unfold find_one. revert position.
  induction db as [|d db IH]; intros position; [reflexivity|].
  cbn. destruct (String.eqb (TokenomicsProject.id d) project_id).
  - exists 0. rewrite Nat.add_0_r. split; reflexivity.
  - specialize (IH (S position)).
    destruct (List.find _ db) as [doc|]; [|exact IH].
    destruct IH as (n & Hn & Hfind). exists (S n).
    rewrite Nat.add_succ_r. split; [exact Hn | exact Hfind].
Qed.

Lemma find_one_document_cases (db : Collection) (project_id : string) :
  match find_one db project_id with
  | None => find_one_document db project_id = None
  | Some doc =>
      exists n,
        db !! n = Some doc
        /\ find_one_document db project_id
           = Some (Document.Build (ObjectId_at n) doc)
  end.
Proof. apply (find_documents_from 0). Qed.

Lemma response_of_stored (encode_ObjectId : ObjectId -> option json)
    (db : Collection) (project_id : string) :
  (forall o, encode_ObjectId o = None) ->
  (exists doc, doc ∈ db /\ TokenomicsProject.id doc = project_id) ->
  response_of encode_ObjectId (get_tokenomics_project db project_id)
  = HTTPException 500 "Internal Server Error".
Proof.
  intros Hencode Hstored.
  destruct (find_one_exists db project_id Hstored) as (found & Hfound).
  pose proof (find_one_document_cases db project_id) as H. rewrite Hfound in H.
  destruct H as (n & _ & Hdoc).
  unfold get_tokenomics_project. rewrite Hdoc. cbn. rewrite Hencode. reflexivity.
Qed.

(** C8. Looking up an identity that no stored document has fails with the
    404 "Project not found" error, which reaches the caller as it is.
    Looking up the identity of a stored design makes the route return the
    raw document: the first stored design with that identity together with
    the "_id" under which Mongo keeps it.  The framework has to encode what
    the route returns, and when its encoder raises on a Mongo identity the
    caller receives 500 Internal Server Error and no design, for every
    stored identity; in particular for the identity of the design that a
    generation request has just stored and returned. *)
Theorem persisted_lookup_answers_500 (encode_ObjectId : ObjectId -> option json)
    (db : Collection) (project_id : string) :
  ((forall doc, doc ∈ db -> TokenomicsProject.id doc <> project_id) ->
   get_tokenomics_project db project_id = HTTPException 404 "Project not found"
   /\ response_of encode_ObjectId (get_tokenomics_project db project_id)
      = HTTPException 404 "Project not found")
  /\ (forall doc, find_one db project_id = Some doc ->
        exists n,
          db !! n = Some doc
          /\ get_tokenomics_project db project_id
             = Returns (Document.Build (ObjectId_at n) doc))
  /\ ((forall o, encode_ObjectId o = None) ->
      (forall doc, doc ∈ db -> TokenomicsProject.id doc = project_id ->
         response_of encode_ObjectId (get_tokenomics_project db project_id)
         = HTTPException 500 "Internal Server Error")
      /\ (forall json_loads c request reply w,
            let generated := generate_tokenomics json_loads c request reply db w in
            response_of encode_ObjectId
              (get_tokenomics_project generated.1.2
                 (TokenomicsProject.id (project generated.1.1)))
            = HTTPException 500 "Internal Server Error")).
Proof.
  split; [|split].
  - intros Hnone.
    pose proof (find_one_document_cases db project_id) as H.
    rewrite (find_one_none db project_id Hnone) in H.
    unfold get_tokenomics_project. rewrite H. split; reflexivity.
  - intros doc Hfind.
    pose proof (find_one_document_cases db project_id) as H. rewrite Hfind in H.
    destruct H as (n & Hn & Hdoc). exists n.
    unfold get_tokenomics_project. rewrite Hdoc. split; [exact Hn | reflexivity].
  - intros Hencode. split.
    + intros doc Hin Hid. apply response_of_stored; [exact Hencode|].
      exists doc. split; assumption.
    + intros json_loads c request reply w. cbn zeta. unfold generate_tokenomics.
      destruct (generate_tokenomics_with_claude json_loads c request reply w)
        as [p w']. cbn [fst snd project].
      apply response_of_stored; [exact Hencode|].
      exists p. split; [|reflexivity].
      unfold insert_one. apply elem_of_app. right. apply list_elem_of_singleton.
      reflexivity.
Qed.

Lemma persisted_lookup_answers_500_witness :
  response_of (fun _ => None) (get_tokenomics_project [sample_project] "missing")
  = HTTPException 404 "Project not found"
  /\ get_tokenomics_project (insert_one [] sample_project) "id"
     = Returns (Document.Build (ObjectId_at 0) sample_project)
  /\ response_of (fun _ => None)
       (get_tokenomics_project (insert_one [] sample_project) "id")
     = HTTPException 500 "Internal Server Error".
Proof.
  destruct (persisted_lookup_answers_500 (fun _ => None) [sample_project] "missing")
    as (Hmiss & _).
  destruct (persisted_lookup_answers_500 (fun _ => None)
              (insert_one [] sample_project) "id") as (_ & Hraw & H500).
  split; [|split].
  - apply Hmiss. intros doc Hdoc.
    apply list_elem_of_singleton in Hdoc. subst doc. discriminate.
  - destruct (Hraw sample_project eq_refl) as (n & Hn & Hdoc).
    destruct n as [|n]; [exact Hdoc | discriminate Hn].
  - destruct (H500 (fun _ => eq_refl)) as [Hstored _].
    apply (Hstored sample_project); [|reflexivity].
    apply list_elem_of_singleton. reflexivity.
Defined.

(** ** Validation of an allocation entry *)

Ltac unbind := unfold mbind, result_bind, mret, result_ret in *.

Lemma field_ok_inv {A : Type} (conv : json -> option A) kw name (x : A) :
  field conv kw name = Ok x ->
  exists v, kw !! name = Some v /\ conv v = Some x.
Proof.
  unfold field. destruct (kw !! name) as [v|]; [|discriminate].
  destruct (conv v) as [y|] eqn:E; [|discriminate].
  intros [= <-]. exists v. split; [reflexivity | exact E].
Qed.

Lemma field_raise_inv {A : Type} (conv : json -> option A) kw name e :
  field conv kw name = Raise e -> e = ValidationError.
Proof.
  unfold field. destruct (kw !! name) as [v|]; [|congruence].
  destruct (conv v); congruence.
Qed.

Lemma field_ok {A : Type} (conv : json -> option A) kw name v (x : A) :
  kw !! name = Some v -> conv v = Some x -> field conv kw name = Ok x.
Proof. intros H1 H2. unfold field. rewrite H1, H2. reflexivity. Qed.

Section AllocationFacts.

Variable c : Coercion.

Lemma TokenAllocation_new_raise_inv kw e :
  TokenAllocation_new c kw = Raise e -> e = ValidationError.
Proof.
  unfold TokenAllocation_new. unbind.
  repeat match goal with
  | |- context [field ?conv kw ?name] =>
      let E := fresh "E" in
      destruct (field conv kw name) eqn:E;
      [| apply field_raise_inv in E; congruence]
  end.
  discriminate.
Qed.

Lemma TokenAllocation_new_ok_inv kw a :
  TokenAllocation_new c kw = Ok a ->
  forall f, f ∈ allocation_fields ->
  exists v, kw !! f = Some v /\ convertible c f v = true.
Proof.
  unfold TokenAllocation_new. unbind.
  repeat match goal with
  | |- context [field ?conv kw ?name] =>
      let E := fresh "E" in
      destruct (field conv kw name) eqn:E; [apply field_ok_inv in E | discriminate]
  end.
  intros _ f Hf. unfold allocation_fields in Hf.
  repeat (apply elem_of_cons in Hf as [->|Hf]);
    [ .. | inversion Hf ];
    match goal with
    | H : exists v, kw !! ?name = Some v /\ _ |- exists v, kw !! ?name = Some v /\ _ =>
        destruct H as (v & Hv & Hconv); exists v; split; [exact Hv|];
        unfold convertible; cbn; rewrite Hconv; reflexivity
    end.
Qed.

Lemma TokenAllocation_new_values kw cat pct tok desc vest cliff lin :
  CoercionLaws c ->
  kw !! "category" = Some (JStr cat) ->
  kw !! "percentage" = Some (JFloat pct) ->
  kw !! "tokens" = Some (JInt tok) ->
  kw !! "description" = Some (JStr desc) ->
  kw !! "vesting_schedule" = Some (JStr vest) ->
  kw !! "cliff_months" = Some (JInt cliff) ->
  kw !! "linear_unlock_months" = Some (JInt lin) ->
  TokenAllocation_new c kw
    = Ok (TokenAllocation.Build cat pct tok desc vest cliff lin).
Proof.
  intros [Hs Hi Hf] H1 H2 H3 H4 H5 H6 H7. unfold TokenAllocation_new.
  rewrite (field_ok _ _ _ _ _ H1 (Hs cat)), (field_ok _ _ _ _ _ H2 (Hf pct)),
    (field_ok _ _ _ _ _ H3 (Hi tok)), (field_ok _ _ _ _ _ H4 (Hs desc)),
    (field_ok _ _ _ _ _ H5 (Hs vest)), (field_ok _ _ _ _ _ H6 (Hi cliff)),
    (field_ok _ _ _ _ _ H7 (Hi lin)).
  reflexivity.
Qed.

(** C5, as the code has it.  Building an allocation from an entry fails
    with a validation error when one of the seven fields is missing or holds
    a value that does not convert to the annotated type; an entry whose
    fields hold values of the annotated types is accepted with exactly those
    values, whatever their sign or size: no range is checked. *)
Theorem allocation_validation_is_by_type (kw : gmap string json) :
  CoercionLaws c ->
  (forall f, f ∈ allocation_fields -> kw !! f = None ->
     TokenAllocation_new c kw = Raise ValidationError)
  /\ (forall f v, f ∈ allocation_fields -> kw !! f = Some v ->
        convertible c f v = false ->
        TokenAllocation_new c kw = Raise ValidationError)
  /\ (forall cat pct tok desc vest cliff lin,
        kw !! "category" = Some (JStr cat) ->
        kw !! "percentage" = Some (JFloat pct) ->
        kw !! "tokens" = Some (JInt tok) ->
        kw !! "description" = Some (JStr desc) ->
        kw !! "vesting_schedule" = Some (JStr vest) ->
        kw !! "cliff_months" = Some (JInt cliff) ->
        kw !! "linear_unlock_months" = Some (JInt lin) ->
        TokenAllocation_new c kw
          = Ok (TokenAllocation.Build cat pct tok desc vest cliff lin)).
Proof.
  intros Hlaws. split; [|split].
  - intros f Hf Hnone.
    destruct (TokenAllocation_new c kw) as [a|e] eqn:E.
    + destruct (TokenAllocation_new_ok_inv _ _ E f Hf) as (v & Hv & _). congruence.
    + apply TokenAllocation_new_raise_inv in E. congruence.
  - intros f v Hf Hv Hconv.
    destruct (TokenAllocation_new c kw) as [a|e] eqn:E.
    + destruct (TokenAllocation_new_ok_inv _ _ E f Hf) as (v' & Hv' & Hc). congruence.
    + apply TokenAllocation_new_raise_inv in E. congruence.
  - intros. apply TokenAllocation_new_values; assumption.
Qed.

End AllocationFacts.

Lemma exact_coercion_laws : CoercionLaws exact_coercion.
Proof. split; reflexivity. Qed.

Lemma allocation_validation_is_by_type_witness :
  TokenAllocation_new exact_coercion (delete "tokens" out_of_range_entry)
    = Raise ValidationError
  /\ TokenAllocation_new exact_coercion (<["tokens" := JStr "many"]> out_of_range_entry)
     = Raise ValidationError
  /\ TokenAllocation_new exact_coercion out_of_range_entry
     = Ok (TokenAllocation.Build "Team" 150 (-5) "Core team" "none" (-1) (-2)).
Proof.
  split; [|split].
  - destruct (allocation_validation_is_by_type exact_coercion
                (delete "tokens" out_of_range_entry) exact_coercion_laws) as (H & _).
    apply (H "tokens"); [|reflexivity].
    unfold allocation_fields. do 2 right. left.
  - destruct (allocation_validation_is_by_type exact_coercion
                (<["tokens" := JStr "many"]> out_of_range_entry) exact_coercion_laws)
      as (_ & H & _).
    apply (H "tokens" (JStr "many")); [|reflexivity|reflexivity].
    unfold allocation_fields. do 2 right. left.
  - destruct (allocation_validation_is_by_type exact_coercion out_of_range_entry
                exact_coercion_laws) as (_ & _ & H).
    apply H; reflexivity.
Defined.

(** C5, as stated, fails: an entry with percentage 150, token count -5 and
    negative cliff and unlock months is accepted as an allocation, and the
    allocation is outside the ranges of the data model. *)
Lemma allocation_out_of_range_accepted :
  exists a,
    TokenAllocation_new exact_coercion out_of_range_entry = Ok a
    /\ in_range a = false
    /\ (TokenAllocation.percentage a <=? 100)%float = false
    /\ (TokenAllocation.tokens a < 0)%Z
    /\ (TokenAllocation.cliff_months a < 0)%Z
    /\ (TokenAllocation.linear_unlock_months a < 0)%Z.
Proof.
  eexists. split; [reflexivity|]. cbn. repeat split; reflexivity.
Qed.

(** ** The orchestrator *)

Section OrchestratorFacts.

Variable json_loads : string -> option json.
Variable c : Coercion.

(** Whatever happens, the design returned is the result of one constructor
    call that passes no identity, timestamp or status. *)
Lemma generate_constructs (request : TokenomicsRequest.t) (reply : Reply) (w : World) :
  exists name allocs total narr risks comps w0,
    generate_tokenomics_with_claude json_loads c request reply w
      = TokenomicsProject_new name request allocs total narr risks comps w0
    /\ uuid_source w0 = uuid_source w /\ clock_source w0 = clock_source w
    /\ uuid_count w <= uuid_count w0 /\ clock_count w <= clock_count w0.
Proof.
  unfold generate_tokenomics_with_claude, attempt.
  destruct reply as [|e|response].
  - do 7 eexists. split; [reflexivity|]. cbn. repeat split; lia.
  - do 7 eexists. split; [reflexivity|]. cbn. repeat split; lia.
  - destruct (read_response json_loads c response)
      as [[allocs [[[total narr] risks] comps]]|e].
    + unfold TokenomicsProject_validated.
      destruct (validate_project_fields c total narr risks comps)
        as [[[[t n] r] p]|].
      * do 7 eexists. split; [reflexivity|]. cbn. repeat split; lia.
      * do 7 eexists. split; [reflexivity|]. cbn. repeat split; lia.
    + do 7 eexists. split; [reflexivity|]. cbn. repeat split; lia.
Qed.

Lemma TokenomicsProject_new_initial name request allocs total narr risks comps
    (w w0 : World) :
  uuid_source w0 = uuid_source w -> clock_source w0 = clock_source w ->
  uuid_count w <= uuid_count w0 -> clock_count w <= clock_count w0 ->
  initial_fields w
    (TokenomicsProject_new name request allocs total narr risks comps w0).
Proof.
  intros Hu Hc Hun Hcn. cbn. repeat split; try assumption.
  - exists (uuid_count w0). rewrite Hu. split; [lia | reflexivity].
  - exists (clock_count w0). rewrite Hc. split; [lia | reflexivity].
Qed.

Lemma generate_initial (request : TokenomicsRequest.t) (reply : Reply) (w : World) :
  initial_fields w (generate_tokenomics_with_claude json_loads c request reply w).
Proof.
  destruct (generate_constructs request reply w)
    as (name & allocs & total & narr & risks & comps & w0 & -> & Hu & Hc & Hun & Hcn).
  apply TokenomicsProject_new_initial; assumption.
Qed.

(** C9. A design built by either generation path starts with the rendering
    flag false and the payment status "pending", with an identity drawn from
    the uuid source and a timestamp read from the clock during the call;
    a later generation draws a later identity, so identities differ as long
    as the uuid source does not repeat itself. *)
Theorem new_design_defaults (request : TokenomicsRequest.t) (reply : Reply) (w : World) :
  initial_fields w (create_fallback_tokenomics request w)
  /\ initial_fields w (generate_tokenomics_with_claude json_loads c request reply w)
  /\ (forall request' reply',
        (forall i j, uuid_source w i = uuid_source w j -> i = j) ->
        let first := generate_tokenomics_with_claude json_loads c request reply w in
        let second := generate_tokenomics_with_claude json_loads c request' reply' first.2 in
        TokenomicsProject.id second.1 <> TokenomicsProject.id first.1).
Proof.
  split; [|split].
  - apply TokenomicsProject_new_initial; reflexivity || lia.
  - apply generate_initial.
  - intros request' reply' Hinj first second.
    pose proof (generate_initial request reply w) as H1.
    pose proof (generate_initial request' reply' first.2) as H2.
    fold first in H1, H2. fold second in H2.
    destruct first as [p1 w1], second as [p2 w2]. cbn in *.
    destruct H1 as (_ & _ & (k1 & Hk1 & Hid1) & _ & Hsrc1 & _).
    destruct H2 as (_ & _ & (k2 & Hk2 & Hid2) & _).
    rewrite Hid1, Hid2, Hsrc1. intros Heq. apply Hinj in Heq. lia.
Qed.

Lemma allocations_of_raise_inv (items : list json) e :
  allocations_of c items = Raise e -> e = TypeError \/ e = ValidationError.
Proof.
  induction items as [|item items IH]; cbn; [discriminate|]. unbind.
  destruct (kwargs item) as [kw|e1] eqn:Ek.
  - destruct (TokenAllocation_new c kw) as [a|e2] eqn:Ea.
    + destruct (allocations_of c items) as [others|e3]; [discriminate|].
      intros [= <-]. apply IH. reflexivity.
    + intros [= <-]. right. eapply TokenAllocation_new_raise_inv. exact Ea.
  - intros [= <-]. left. destruct item; cbn in Ek; congruence.
Qed.

Lemma allocations_of_ok_inv (items : list json) allocs kw :
  allocations_of c items = Ok allocs -> JObj kw ∈ items ->
  exists a, TokenAllocation_new c kw = Ok a.
Proof.
  revert allocs. induction items as [|item items IH]; intros allocs Hok Hin.
  - inversion Hin.
  - cbn in Hok. unbind.
    destruct (kwargs item) as [kw'|] eqn:Ek; [|discriminate].
    destruct (TokenAllocation_new c kw') as [a|] eqn:Ea; [|discriminate].
    destruct (allocations_of c items) as [others|] eqn:Eo; [|discriminate].
    apply elem_of_cons in Hin as [<-|Hin].
    + cbn in Ek. injection Ek as <-. exists a. exact Ea.
    + eapply IH; [reflexivity | exact Hin].
Qed.

Lemma getitem_raise_inv (data : json) key e :
  getitem data key = Raise e -> e = TypeError \/ e = KeyError key.
Proof.
  unfold getitem. destruct data; try (intros [= <-]; left; reflexivity).
  destruct (m !! key); [discriminate|]. intros [= <-]. right. reflexivity.
Qed.

Lemma getitem_ok_inv (data : json) key v :
  getitem data key = Ok v -> exists m, data = JObj m /\ m !! key = Some v.
Proof.
  unfold getitem. destruct data; try discriminate.
  destruct (m !! key) as [v'|] eqn:E; [|discriminate].
  intros [= <-]. exists m. split; [reflexivity | exact E].
Qed.

Lemma iterate_raise_inv (v : json) e : iterate v = Raise e -> e = TypeError.
Proof. destruct v; cbn; congruence. Qed.

(** Only decoding and validation errors leave [read_response]. *)
Lemma read_response_raise_inv (response : string) e :
  read_response json_loads c response = Raise e -> MalformedResponse e.
Proof.
  unfold read_response, decode. unbind.
  destruct (json_loads (strip_code_fence response)) as [data|];
    [|intros [= <-]; exact I].
  destruct (getitem data "allocations") as [entries|e0] eqn:E0;
    [|intros [= <-]; apply getitem_raise_inv in E0 as [->| ->]; exact I].
  destruct (iterate entries) as [items|e1] eqn:E1;
    [|intros [= <-]; apply iterate_raise_inv in E1 as ->; exact I].
  destruct (allocations_of c items) as [allocs|e2] eqn:E2;
    [|intros [= <-]; apply allocations_of_raise_inv in E2 as [->| ->]; exact I].
  repeat match goal with
  | |- context [getitem data ?key] =>
      let E := fresh "E" in
      destruct (getitem data key) eqn:E;
      [|intros [= <-]; apply getitem_raise_inv in E as [->| ->]; exact I]
  end.
  discriminate.
Qed.

(** A response that is read successfully decoded to an object that binds
    the five keys, and each entry of its allocation list was accepted. *)
Lemma read_response_ok_inv (response : string) allocs raw :
  read_response json_loads c response = Ok (allocs, raw) ->
  exists m,
    json_loads (strip_code_fence response) = Some (JObj m)
    /\ (forall key, key ∈ required_keys -> is_Some (m !! key))
    /\ (forall entries kw, m !! "allocations" = Some (JList entries) ->
          JObj kw ∈ entries -> exists a, TokenAllocation_new c kw = Ok a).
Proof.
  unfold read_response, decode. unbind.
  destruct (json_loads (strip_code_fence response)) as [data|]; [|discriminate].
  destruct (getitem data "allocations") as [entries|] eqn:E0; [|discriminate].
  destruct (iterate entries) as [items|] eqn:E1; [|discriminate].
  destruct (allocations_of c items) as [allocs'|] eqn:E2; [|discriminate].
  destruct (getitem data "total_supply") as [v1|] eqn:E3; [|discriminate].
  destruct (getitem data "narrative") as [v2|] eqn:E4; [|discriminate].
  destruct (getitem data "risks") as [v3|] eqn:E5; [|discriminate].
  destruct (getitem data "comparable_projects") as [v4|] eqn:E6; [|discriminate].
  intros _.
  apply getitem_ok_inv in E0 as (m & -> & H0).
  apply getitem_ok_inv in E3 as (m3 & [= <-] & H3).
  apply getitem_ok_inv in E4 as (m4 & [= <-] & H4).
  apply getitem_ok_inv in E5 as (m5 & [= <-] & H5).
  apply getitem_ok_inv in E6 as (m6 & [= <-] & H6).
  exists m. split; [reflexivity|]. split.
  - intros key Hkey. unfold required_keys in Hkey.
    repeat (apply elem_of_cons in Hkey as [->|Hkey]); [ .. | inversion Hkey ]; eauto.
  - intros entries' kw Hentries Hin. rewrite H0 in Hentries.
    injection Hentries as ->. cbn in E1. injection E1 as <-.
    eapply allocations_of_ok_inv; eassumption.
Qed.

(** C3. A response whose decoded data lacks one of the five top-level keys,
    or has an allocation entry that lacks one of the seven fields, makes
    reading it raise a decoding or validation error (no design is built
    from it); the orchestrator absorbs the error and returns the fallback
    design instead of raising. *)
Theorem missing_key_falls_back (request : TokenomicsRequest.t) (response : string)
    (data : json) (w : World) :
  json_loads (strip_code_fence response) = Some data ->
  (exists key, key ∈ required_keys /\ lacks_key data key) \/ lacks_field data ->
  exists e,
    MalformedResponse e
    /\ read_response json_loads c response = Raise e
    /\ attempt json_loads c request (Returned response) w = (Raise e, (uuid4 w).2)
    /\ generate_tokenomics_with_claude json_loads c request (Returned response) w
       = create_fallback_tokenomics request (uuid4 w).2.
Proof.
  intros Hdata Hlack.
  destruct (read_response json_loads c response) as [[allocs raw]|e] eqn:Hread.
  - exfalso. apply read_response_ok_inv in Hread as (m & Hm & Hkeys & Hentries).
    rewrite Hdata in Hm. injection Hm as ->.
    destruct Hlack as [(key & Hkey & Hnone) | (m' & entries & kw & f & [= <-] & Hl & Hin & Hf & Hnone)].
    + cbn in Hnone. destruct (Hkeys key Hkey) as [v Hv]. congruence.
    + destruct (Hentries entries kw Hl Hin) as [a Ha].
      destruct (TokenAllocation_new_ok_inv c kw a Ha f Hf) as (v & Hv & _). congruence.
  - exists e. split; [eapply read_response_raise_inv; exact Hread|].
    split; [reflexivity|].
    unfold generate_tokenomics_with_claude, attempt. rewrite Hread.
    split; reflexivity.
Qed.

Lemma allocations_of_data (l : list TokenAllocation.t) :
  CoercionLaws c -> allocations_of c (allocation_data <$> l) = Ok l.
Proof.
  intros Hlaws. induction l as [|a l IH]; [reflexivity|].
  cbn [fmap list_fmap allocations_of allocation_data kwargs]. unbind.
  rewrite (TokenAllocation_new_values c _ (TokenAllocation.category a)
             (TokenAllocation.percentage a) (TokenAllocation.tokens a)
             (TokenAllocation.description a) (TokenAllocation.vesting_schedule a)
             (TokenAllocation.cliff_months a) (TokenAllocation.linear_unlock_months a)
             Hlaws) by reflexivity.
  fold (list_fmap _ _ allocation_data l).
  change (list_fmap _ _ allocation_data l) with (allocation_data <$> l).
  rewrite IH. destruct a; reflexivity.
Qed.

Lemma as_str_list_data (l : list string) :
  CoercionLaws c -> as_str_list c (JList (JStr <$> l)) = Some l.
Proof.
  intros Hlaws. cbn. apply mapM_Some. apply Forall2_fmap_l.
  induction l as [|x l IH]; constructor; [apply (as_str_str c Hlaws) | exact IH].
Qed.

(** Reading a response that decodes to the data of a design gives back the
    allocations and the four values of that design. *)
Lemma attempt_design (request : TokenomicsRequest.t) (response : string)
    (d : TokenomicsProject.t) (w : World) :
  CoercionLaws c ->
  json_loads (strip_code_fence response) = Some (design_data d) ->
  exists p w',
    attempt json_loads c request (Returned response) w = (Ok p, w')
    /\ design_payload p = design_payload d.
Proof.
  intros Hlaws Hdata.
  assert (Hread : read_response json_loads c response
                  = Ok (TokenomicsProject.allocations d,
                        (JInt (TokenomicsProject.total_supply d),
                         JStr (TokenomicsProject.narrative d),
                         JList (JStr <$> TokenomicsProject.risks d),
                         JList (JStr <$> TokenomicsProject.comparable_projects d)))).
  { unfold read_response, decode. rewrite Hdata. unbind.
    change (getitem (design_data d) "allocations")
      with (Ok (A := json) (JList (allocation_data <$> TokenomicsProject.allocations d))).
    cbn [iterate]. rewrite (allocations_of_data _ Hlaws). reflexivity. }
  unfold attempt. rewrite Hread. unfold TokenomicsProject_validated, validate_project_fields.
  rewrite (as_int_int c Hlaws), (as_str_str c Hlaws), !(as_str_list_data _ Hlaws).
  cbn. do 2 eexists. split; reflexivity.
Qed.

(** C6, as the code has it.  The text of a design's data parses back to
    that data, and to a design with the same allocations, supply, narrative,
    risks and comparables, whether it is sent plain, in a typed fence or in an
    untyped fence, with any JSON whitespace between the markers and the
    text.  Stripping is idempotent on a response that does not start with a
    fence.  On a fenced text a second stripping removes the padding that the
    first one left, so it changes the text unless there was no padding, and
    never changes what the text decodes to. *)
Theorem fence_round_trip (request : TokenomicsRequest.t) (w : World)
    (d : TokenomicsProject.t) (text pad1 pad2 : string) :
  CoercionLaws c ->
  (forall p1 p2 s,
     all_chars json_space p1 = true -> all_chars json_space p2 = true ->
     json_loads (p1 +:+ s +:+ p2) = json_loads s) ->
  object_text text ->
  json_loads text = Some (design_data d) ->
  all_chars json_space pad1 = true ->
  all_chars json_space pad2 = true ->
  (forall response,
     response ∈ [text; typed_fence pad1 text pad2; untyped_fence pad1 text pad2] ->
     decode json_loads response = Ok (design_data d)
     /\ exists p w',
          attempt json_loads c request (Returned response) w = (Ok p, w')
          /\ generate_tokenomics_with_claude json_loads c request (Returned response) w
             = (p, w')
          /\ design_payload p = design_payload d)
  /\ (forall response,
        Py.startswith (Py.strip response) "```" = false ->
        strip_code_fence (strip_code_fence response) = strip_code_fence response)
  /\ (forall fenced,
        fenced ∈ [typed_fence pad1 text pad2; untyped_fence pad1 text pad2] ->
        strip_code_fence fenced = pad1 +:+ text +:+ pad2
        /\ strip_code_fence (strip_code_fence fenced) = text
        /\ json_loads (strip_code_fence (strip_code_fence fenced))
           = json_loads (strip_code_fence fenced)
        /\ (pad1 = EmptyString -> pad2 = EmptyString ->
            strip_code_fence (strip_code_fence fenced) = strip_code_fence fenced)).
Proof.
  intros Hlaws Hskip Hobj Htext H1 H2.
  assert (Hfenced : forall fenced,
            fenced ∈ [typed_fence pad1 text pad2; untyped_fence pad1 text pad2] ->
            strip_code_fence fenced = pad1 +:+ text +:+ pad2).
  { intros fenced Hin. repeat (apply elem_of_cons in Hin as [->|Hin]).
    - apply strip_code_fence_typed.
    - apply strip_code_fence_untyped; assumption.
    - inversion Hin. }
  assert (Hdecoded : forall response,
            response ∈ [text; typed_fence pad1 text pad2; untyped_fence pad1 text pad2] ->
            json_loads (strip_code_fence response) = Some (design_data d)).
  { intros response Hin. apply elem_of_cons in Hin as [->|Hin].
    - rewrite (strip_code_fence_plain _ Hobj). exact Htext.
    - rewrite (Hfenced _ Hin), Hskip by assumption. exact Htext. }
  split; [|split].
  - intros response Hin. pose proof (Hdecoded response Hin) as Hdata.
    split; [unfold decode; rewrite Hdata; reflexivity|].
    destruct (attempt_design request response d w Hlaws Hdata) as (p & w' & Hatt & Hpay).
    exists p, w'. split; [exact Hatt|]. split; [|exact Hpay].
    unfold generate_tokenomics_with_claude. rewrite Hatt. reflexivity.
  - apply strip_code_fence_unfenced_idem.
  - intros fenced Hin. rewrite (Hfenced fenced Hin).
    rewrite (strip_code_fence_padded _ _ _ H1 H2 Hobj).
    split; [reflexivity|]. split; [reflexivity|]. split.
    + symmetry. apply Hskip; assumption.
    + intros -> ->. rewrite append_empty_r. reflexivity.
Qed.

(** C2, as the code has it.  A failed model call raises inside the [try],
    and so does a response that does not decode or validate; whenever the
    [try] raises, the orchestrator returns exactly what the fallback
    generator returns for the same request in the world reached at the
    failure.  Every field of that design except the identity and the
    creation time is the same in whatever world the fallback generator is
    run again. *)
Theorem failure_returns_fallback (request : TokenomicsRequest.t) (w : World) :
  (attempt json_loads c request NoApiKey w).1 = Raise (KeyError "EMERGENT_LLM_KEY")
  /\ (forall e, (attempt json_loads c request (SendFailed e) w).1 = Raise e)
  /\ (forall reply e,
        (attempt json_loads c request reply w).1 = Raise e ->
        generate_tokenomics_with_claude json_loads c request reply w
          = create_fallback_tokenomics request (attempt json_loads c request reply w).2
        /\ forall w',
             design_content (generate_tokenomics_with_claude json_loads c request reply w).1
             = design_content (create_fallback_tokenomics request w').1).
Proof.
  split; [reflexivity|]. split; [reflexivity|].
  intros reply e Hraise. unfold generate_tokenomics_with_claude.
  destruct (attempt json_loads c request reply w) as [[p|e'] w1]; [discriminate|].
  split; reflexivity.
Qed.

End OrchestratorFacts.

Lemma unary_length (n : nat) : String.length (unary n) = n + 2.
Proof. induction n as [|n IH]; cbn; [reflexivity | rewrite IH; reflexivity]. Qed.

Lemma unary_inj (i j : nat) : unary i = unary j -> i = j.
Proof.
  intros H. apply (f_equal String.length) in H.
  rewrite !unary_length in H. lia.
Qed.

Lemma new_design_defaults_witness :
  TokenomicsProject.id
    (generate_tokenomics_with_claude small_decoder exact_coercion sample_request
       (SendFailed ModelTimeout)
       (generate_tokenomics_with_claude small_decoder exact_coercion sample_request
          NoApiKey sample_world).2).1
  <> TokenomicsProject.id
       (generate_tokenomics_with_claude small_decoder exact_coercion sample_request
          NoApiKey sample_world).1.
Proof.
  destruct (new_design_defaults small_decoder exact_coercion sample_request
              NoApiKey sample_world) as (_ & _ & Hfresh).
  apply (Hfresh sample_request (SendFailed ModelTimeout)).
  intros i j. apply unary_inj.
Defined.


Lemma failure_returns_fallback_witness :
  generate_tokenomics_with_claude small_decoder exact_coercion sample_request
    (SendFailed ModelTimeout) sample_world
  = create_fallback_tokenomics sample_request (uuid4 sample_world).2.
Proof.
  destruct (failure_returns_fallback small_decoder exact_coercion sample_request
              sample_world) as (_ & _ & H).
  destruct (H (SendFailed ModelTimeout) ModelTimeout) as [Heq _]; [reflexivity|].
  exact Heq.
Defined.

(** C2, as stated, fails: with the model call timing out, the design the
    orchestrator returns differs from the one the fallback generator builds
    for the same request in the same starting world, and two runs of the
    fallback generator on the same request differ from each other (the
    identities differ). *)
Lemma fallback_design_not_reproducible :
  (attempt small_decoder exact_coercion sample_request
     (SendFailed ModelTimeout) sample_world).1 = Raise ModelTimeout
  /\ (generate_tokenomics_with_claude small_decoder exact_coercion sample_request
        (SendFailed ModelTimeout) sample_world).1
     <> (create_fallback_tokenomics sample_request sample_world).1
  /\ (create_fallback_tokenomics sample_request
        (create_fallback_tokenomics sample_request sample_world).2).1
     <> (create_fallback_tokenomics sample_request sample_world).1.
Proof.
  split; [reflexivity|]. split; intros H;
    apply (f_equal TokenomicsProject.id) in H; discriminate H.
Qed.


Lemma missing_key_falls_back_witness :
  exists e,
    MalformedResponse e
    /\ generate_tokenomics_with_claude
         (table_decoder [("{}", JObj ∅)]) exact_coercion sample_request
         (Returned "```json{}```") sample_world
       = create_fallback_tokenomics sample_request (uuid4 sample_world).2.
Proof.
  destruct (missing_key_falls_back (table_decoder [("{}", JObj ∅)]) exact_coercion
              sample_request "```json{}```" (JObj ∅) sample_world)
    as (e & He & _ & _ & Hgen).
  - reflexivity.
  - left. exists "narrative". split; [|reflexivity].
    unfold required_keys. do 2 right. left.
  - exists e. split; [exact He | exact Hgen].
Defined.


Lemma table_decoder_padding (table : list (string * json)) (p1 p2 s : string) :
  all_chars json_space p1 = true -> all_chars json_space p2 = true ->
  table_decoder table (p1 +:+ s +:+ p2) = table_decoder table s.
Proof.
  intros H1 H2. unfold table_decoder. rewrite strip_by_padding by assumption.
  reflexivity.
Qed.

Lemma small_design_text_object : object_text small_design_text.
Proof.
  exists (substring 1 (String.length small_design_text - 2) small_design_text).
  vm_compute. reflexivity.
Qed.

Lemma fence_round_trip_witness :
  decode small_decoder (typed_fence nl small_design_text nl)
    = Ok (design_data small_design)
  /\ decode small_decoder (untyped_fence nl small_design_text nl)
     = Ok (design_data small_design)
  /\ decode small_decoder small_design_text = Ok (design_data small_design)
  /\ strip_code_fence (strip_code_fence (typed_fence nl small_design_text nl))
     = small_design_text.
Proof.
  destruct (fence_round_trip small_decoder exact_coercion sample_request sample_world
              small_design small_design_text nl nl exact_coercion_laws
              (table_decoder_padding _) small_design_text_object
              eq_refl eq_refl eq_refl) as (Hparse & _ & Hfenced).
  split; [|split; [|split]].
  - apply Hparse. right. left.
  - apply Hparse. do 2 right. left.
  - apply Hparse. left.
  - apply Hfenced. left.
Defined.

(** C6, as stated, fails: for the text of a design's data in a typed fence
    with a newline after the opening marker and before the closing one,
    stripping the stripped text gives a different text. *)
Lemma fence_strip_not_idempotent :
  small_decoder small_design_text = Some (design_data small_design)
  /\ strip_code_fence (strip_code_fence (typed_fence nl small_design_text nl))
     <> strip_code_fence (typed_fence nl small_design_text nl).
Proof.
  split; [reflexivity|]. intros H.
  apply (f_equal String.length) in H. vm_compute in H. discriminate H.
Qed.

(** * Further properties of the generation path *)

Section GenerationFacts.

Variable json_loads : string -> option json.
Variable c : Coercion.


Lemma field_insert_other {A : Type} (conv : json -> option A)
    (kw : gmap string json) (k name : string) (v : json) :
  k <> name -> field conv (<[k := v]> kw) name = field conv kw name.
Proof. intros Hne. unfold field. rewrite lookup_insert_ne by exact Hne. reflexivity. Qed.

Lemma getitem_insert_other (m : gmap string json) (k key : string) (v : json) :
  k <> key -> getitem (JObj (<[k := v]> m)) key = getitem (JObj m) key.
Proof. intros Hne. unfold getitem. rewrite lookup_insert_ne by exact Hne. reflexivity. Qed.

(** X2. Keys that the code does not read are ignored: adding to an
    allocation entry a key that is not one of the seven fields does not
    change the allocation built from it (or the error), and adding to the
    decoded response a key that is not one of the five top-level keys does
    not change what is read from it. *)
Theorem unread_keys_are_ignored :
  (forall (kw : gmap string json) (k : string) (v : json),
     k ∉ allocation_fields ->
     TokenAllocation_new c (<[k := v]> kw) = TokenAllocation_new c kw)
  /\ (forall (json_loads' : string -> option json) (response : string)
        (m : gmap string json) (k : string) (v : json),
        k ∉ required_keys ->
        json_loads (strip_code_fence response) = Some (JObj m) ->
        json_loads' (strip_code_fence response) = Some (JObj (<[k := v]> m)) ->
        read_response json_loads' c response = read_response json_loads c response).
Proof.
  split.
  - intros kw k v Hk. unfold TokenAllocation_new.
    rewrite !field_insert_other; [reflexivity | ..];
      intros ->; apply Hk; unfold allocation_fields;
      repeat first [left; reflexivity | right].
  - intros json_loads' response m k v Hk H1 H2.
    unfold read_response, decode. rewrite H1, H2. unbind.
    rewrite !getitem_insert_other; [reflexivity | ..];
      intros ->; apply Hk; unfold required_keys;
      repeat first [left; reflexivity | right].
Qed.

End GenerationFacts.


Lemma unread_keys_are_ignored_witness :
  TokenAllocation_new exact_coercion (<["note" := JStr "extra"]> out_of_range_entry)
  = TokenAllocation_new exact_coercion out_of_range_entry.
Proof.
  destruct (unread_keys_are_ignored small_decoder exact_coercion) as [H _].
  apply H. unfold allocation_fields. intros Hin.
  repeat (apply elem_of_cons in Hin as [Hin|Hin]; [discriminate Hin|]).
  inversion Hin.
Defined.

Section ContainerFacts.

Variable json_loads : string -> option json.
Variable c : Coercion.

Lemma iterate_nonlist_raises (v : json) :
  (forall l, v <> JList l) -> v <> JStr EmptyString -> v <> JObj ∅ ->
  (items ← iterate v; allocations_of c items) = Raise TypeError.
Proof.
  intros Hlist Hstr Hobj. unbind.
  destruct v as [| b | z | f | s | l | m]; try reflexivity.
  - destruct s as [|ch s]; [congruence | reflexivity].
  - exfalso. apply (Hlist l). reflexivity.
  - cbn [iterate]. destruct (map_to_list m) as [|[k x] rest] eqn:E.
    + exfalso. apply Hobj. f_equal. apply map_to_list_empty_iff. exact E.
    + reflexivity.
Qed.

(** X3. The value under "allocations" has to be a list: a number, a
    boolean, null, a non-empty string or a non-empty object makes reading
    the response raise a TypeError, and the orchestrator returns the
    fallback design.  The empty string and the empty object are the
    exception: like the empty list they are read as no allocations at
    all. *)
Theorem allocations_must_be_a_list (request : TokenomicsRequest.t)
    (response : string) (m : gmap string json) (v : json) (w : World) :
  json_loads (strip_code_fence response) = Some (JObj m) ->
  m !! "allocations" = Some v ->
  ((forall l, v <> JList l) -> v <> JStr EmptyString -> v <> JObj ∅ ->
   read_response json_loads c response = Raise TypeError
   /\ generate_tokenomics_with_claude json_loads c request (Returned response) w
      = create_fallback_tokenomics request (uuid4 w).2)
  /\ (v = JList [] \/ v = JStr EmptyString \/ v = JObj ∅ ->
      (items ← iterate v; allocations_of c items) = Ok []).
Proof.
  intros Hdata Hv. split.
  - intros Hlist Hstr Hobj.
    assert (Hread : read_response json_loads c response = Raise TypeError).
    { pose proof (iterate_nonlist_raises v Hlist Hstr Hobj) as Hit.
      unfold read_response, decode. rewrite Hdata. unbind.
      unfold getitem at 1. rewrite Hv.
      destruct (iterate v) as [items|e]; [rewrite Hit; reflexivity|].
      injection Hit as ->. reflexivity. }
    split; [exact Hread|].
    unfold generate_tokenomics_with_claude, attempt. rewrite Hread. reflexivity.
  - intros [-> | [-> | ->]]; reflexivity.
Qed.

(** X4. A response that decodes to the data of a design is taken as it is:
    the returned design has exactly those allocations, that total supply,
    narrative, risks and comparables, whatever the percentages or the token
    counts add up to; its identity is the uuid drawn after the session id and
    its timestamp the first clock reading of the call. *)
Theorem model_design_is_taken_as_is (request : TokenomicsRequest.t)
    (response : string) (d : TokenomicsProject.t) (w : World) :
  CoercionLaws c ->
  json_loads (strip_code_fence response) = Some (design_data d) ->
  let p := (generate_tokenomics_with_claude json_loads c request (Returned response) w).1 in
  design_payload p = design_payload d
  /\ TokenomicsProject.id p = uuid_source w (S (uuid_count w))
  /\ TokenomicsProject.created_at p = clock_source w (clock_count w).
Proof.
  intros Hlaws Hdata.
  assert (Hread : read_response json_loads c response
                  = Ok (TokenomicsProject.allocations d,
                        (JInt (TokenomicsProject.total_supply d),
                         JStr (TokenomicsProject.narrative d),
                         JList (JStr <$> TokenomicsProject.risks d),
                         JList (JStr <$> TokenomicsProject.comparable_projects d)))).
  { unfold read_response, decode. rewrite Hdata. unbind.
    change (getitem (design_data d) "allocations")
      with (Ok (A := json) (JList (allocation_data <$> TokenomicsProject.allocations d))).
    cbn [iterate]. rewrite (allocations_of_data c _ Hlaws). reflexivity. }
  cbn zeta. unfold generate_tokenomics_with_claude, attempt. rewrite Hread.
  unfold TokenomicsProject_validated, validate_project_fields.
  rewrite (as_int_int c Hlaws), (as_str_str c Hlaws), !(as_str_list_data c _ Hlaws).
  cbn. repeat split.
Qed.

End ContainerFacts.

Lemma allocations_must_be_a_list_witness :
  generate_tokenomics_with_claude
    (table_decoder [("{}", JObj {["allocations" := JStr "none"]})])
    exact_coercion sample_request (Returned "{}") sample_world
  = create_fallback_tokenomics sample_request (uuid4 sample_world).2.
Proof.
  destruct (allocations_must_be_a_list
              (table_decoder [("{}", JObj {["allocations" := JStr "none"]})])
              exact_coercion sample_request "{}" {["allocations" := JStr "none"]}
              (JStr "none") sample_world) as [H _];
    [vm_compute; reflexivity | vm_compute; reflexivity |].
  apply H; [intros l; discriminate | discriminate | discriminate].
Defined.

Lemma model_design_is_taken_as_is_witness :
  design_payload
    (generate_tokenomics_with_claude small_decoder exact_coercion sample_request
       (Returned small_design_text) sample_world).1
  = design_payload small_design.
Proof.
  destruct (model_design_is_taken_as_is small_decoder exact_coercion sample_request
              small_design_text small_design sample_world exact_coercion_laws)
    as [H _]; [vm_compute; reflexivity|].
  exact H.
Defined.

(** * Further properties of the report *)

Lemma all_text_app (a b : list Op) : all_text (a ++ b) = all_text a ++ all_text b.
Proof. apply omap_app. Qed.

Lemma page_break_text (y : Z) : all_text (page_break y).1 = [].
Proof. destruct (page_break_cases y) as [[_ ->]|[_ ->]]; reflexivity. Qed.

Lemma draw_lines_all_text (lines : list string) (y : Z) :
  all_text (draw_lines lines y).1 = lines.
Proof.
  revert y. induction lines as [|line lines IH]; intros y; [reflexivity|].
  cbn [draw_lines]. pose proof (page_break_text y) as Hb.
  destruct (page_break y) as [brk y1]. cbn [fst] in Hb.
  specialize (IH (y1 - 15)%Z).
  destruct (draw_lines lines (y1 - 15)) as [ops y']. cbn [fst] in *.
  rewrite all_text_app, Hb.
  change (line :: all_text ops = line :: lines). rewrite IH. reflexivity.
Qed.

Lemma draw_risks_all_text (risks : list string) (i y : Z) :
  all_text (draw_risks i risks y).1
  = imap (fun k risk => Py.str_int (Z.of_nat k + i) +:+ ". " +:+ risk) risks.
Proof.
  revert i y. induction risks as [|risk risks IH]; intros i y; [reflexivity|].
  cbn [draw_risks imap]. pose proof (page_break_text y) as Hb.
  destruct (page_break y) as [brk y1]. cbn [fst] in Hb.
  specialize (IH (i + 1)%Z (y1 - 20)%Z).
  destruct (draw_risks (i + 1) risks (y1 - 20)) as [ops y']. cbn [fst] in *.
  rewrite all_text_app, Hb.
  change ((Py.str_int i +:+ ". " +:+ risk) :: all_text ops
          = (Py.str_int (0 + i) +:+ ". " +:+ risk)
            :: imap ((fun k risk0 => Py.str_int (Z.of_nat k + i) +:+ ". " +:+ risk0) ∘ S)
                 risks).
  rewrite IH. f_equal. apply imap_ext. intros k x _. cbn.
  replace (Z.of_nat k + (i + 1))%Z with (Z.of_nat (S k) + i)%Z by lia.
  reflexivity.
Qed.

Section ReportFacts.

Variable str_float : float -> string.

Lemma draw_allocations_all_text (allocations : list TokenAllocation.t) (y : Z) :
  all_text (draw_allocations str_float allocations y).1
  = concat (allocation_texts str_float <$> allocations).
Proof.
  revert y. induction allocations as [|a rest IH]; intros y; [reflexivity|].
  cbn [draw_allocations]. pose proof (page_break_text y) as Hb.
  destruct (page_break y) as [brk y1]. cbn [fst] in Hb.
  specialize (IH (y1 - 15 - 12 - 25)%Z).
  destruct (draw_allocations str_float rest (y1 - 15 - 12 - 25)) as [ops y'].
  cbn [fst] in *. rewrite !all_text_app, Hb, IH. reflexivity.
Qed.

(** X6. The text of the report does not depend on where the pages break:
    the strings placed on the canvas are, in this order, the title lines,
    the overview, three lines for every allocation, the narrative heading,
    the wrapped narrative lines, the risks numbered from 1 and the
    comparable projects joined by commas; no allocation, line or risk is
    dropped, repeated or moved. *)
Theorem report_text_is_complete (project : TokenomicsProject.t) :
  all_text (generate_pdf_report str_float project) = report_texts str_float project.
Proof.
  unfold generate_pdf_report, report_texts, draw_narrative, draw_closing.
  destruct (draw_header project) as [header y1] eqn:Hheader.
  pose proof (draw_allocations_all_text (TokenomicsProject.allocations project) y1)
    as Hrows.
  destruct (draw_allocations str_float _ y1) as [rows y2].
  pose proof (draw_lines_all_text
                (wrap_lines (Py.split (TokenomicsProject.narrative project)))
                narrative_heading.2) as Hbody.
  destruct (draw_lines _ narrative_heading.2) as [body y3].
  pose proof (draw_risks_all_text (TokenomicsProject.risks project) 1
                (y3 - 30 - 20)) as Hrisks.
  destruct (draw_risks 1 _ (y3 - 30 - 20)) as [risk_ops y4].
  cbn [fst snd] in *. injection Hheader as <- _.
  rewrite !all_text_app, Hrows, Hbody, Hrisks. reflexivity.
Qed.

End ReportFacts.

(** ** Where the text lands *)

Lemma drawn_within_mono (low low' : Z) (op : Op) :
  (low' <= low)%Z -> drawn_within low op -> drawn_within low' op.
Proof. intros Hle. destruct op; cbn; try exact id; lia. Qed.

Lemma Forall_drawn_within_mono (low low' : Z) (ops : list Op) :
  (low' <= low)%Z -> Forall (drawn_within low) ops -> Forall (drawn_within low') ops.
Proof.
  intros Hle H. eapply Forall_impl; [exact H|].
  intros op. apply drawn_within_mono. exact Hle.
Qed.

Lemma page_break_bounds (y : Z) :
  (y <= height - 50)%Z ->
  Forall (drawn_within 100) (page_break y).1
  /\ (100 <= (page_break y).2 <= height - 50)%Z.
Proof.
  intros Hy. destruct (page_break_cases y) as [[Hlow ->]|[Hhigh ->]]; cbn [fst snd].
  - split; [repeat constructor | unfold height; lia].
  - split; [constructor | lia].
Qed.

Lemma draw_lines_bounds (lines : list string) (y : Z) :
  (85 <= y <= height - 50)%Z ->
  Forall (drawn_within 100) (draw_lines lines y).1
  /\ (85 <= (draw_lines lines y).2 <= height - 50)%Z.
Proof.
  revert y. induction lines as [|line lines IH]; intros y Hy.
  - split; [constructor | exact Hy].
  - cbn [draw_lines].
    destruct (page_break_bounds y ltac:(lia)) as [Hb Hy1].
    destruct (page_break y) as [brk y1]. cbn [fst snd] in *.
    specialize (IH (y1 - 15)%Z ltac:(lia)).
    destruct (draw_lines lines (y1 - 15)) as [ops y']. cbn [fst snd] in *.
    destruct IH as [Hops Hy']. split; [|exact Hy'].
    apply Forall_app. split; [exact Hb|]. constructor; [exact Hy1 | exact Hops].
Qed.

Lemma draw_risks_bounds (risks : list string) (i y : Z) :
  (y <= height - 50)%Z ->
  Forall (drawn_within 100) (draw_risks i risks y).1
  /\ ((draw_risks i risks y).2 <= height - 50)%Z
  /\ (risks <> [] -> (80 <= (draw_risks i risks y).2)%Z)
  /\ (risks = [] -> (draw_risks i risks y).2 = y).
Proof.
  revert i y. induction risks as [|risk risks IH]; intros i y Hy.
  - repeat split; [constructor | exact Hy | congruence].
  - cbn [draw_risks].
    destruct (page_break_bounds y Hy) as [Hb Hy1].
    destruct (page_break y) as [brk y1]. cbn [fst snd] in *.
    specialize (IH (i + 1)%Z (y1 - 20)%Z ltac:(lia)).
    destruct (draw_risks (i + 1) risks (y1 - 20)) as [ops y']. cbn [fst snd] in *.
    destruct IH as (Hops & Hle & Hfull & Hempty).
    split; [|split; [exact Hle | split; [|discriminate]]].
    + apply Forall_app. split; [exact Hb|]. constructor; [exact Hy1 | exact Hops].
    + intros _. destruct risks as [|r rs]; [rewrite Hempty by reflexivity; lia|].
      apply Hfull. discriminate.
Qed.

Section PageFacts.

Variable str_float : float -> string.

Lemma draw_allocations_bounds (allocations : list TokenAllocation.t) (y : Z) :
  (y <= height - 50)%Z ->
  Forall (drawn_within 73) (draw_allocations str_float allocations y).1.
Proof.
  revert y. induction allocations as [|a rest IH]; intros y Hy; [constructor|].
  cbn [draw_allocations].
  destruct (page_break_bounds y Hy) as [Hb Hy1].
  destruct (page_break y) as [brk y1]. cbn [fst snd] in *.
  specialize (IH (y1 - 15 - 12 - 25)%Z ltac:(lia)).
  destruct (draw_allocations str_float rest (y1 - 15 - 12 - 25)) as [ops y'].
  cbn [fst]. apply Forall_app. split.
  - apply (Forall_drawn_within_mono 100); [lia | exact Hb].
  - repeat (constructor; [cbn; try exact I; lia|]). exact IH.
Qed.

Lemma draw_closing_bounds (project : TokenomicsProject.t) (y low : Z) :
  (85 <= y <= height - 50)%Z -> (low <= 40)%Z ->
  (low <= -5)%Z \/ TokenomicsProject.risks project <> [] ->
  Forall (drawn_within low) (draw_closing project y).
Proof.
  intros Hy Hlow Hcase. unfold draw_closing.
  destruct (draw_risks_bounds (TokenomicsProject.risks project) 1 (y - 30 - 20)
              ltac:(lia)) as (Hops & Hle & Hfull & Hempty).
  destruct (draw_risks 1 _ (y - 30 - 20)) as [risk_ops y']. cbn [fst snd] in *.
  assert (Hy' : (low + 40 <= y')%Z).
  { destruct Hcase as [Hneg|Hrisks]; [|specialize (Hfull Hrisks); lia].
    destruct (TokenomicsProject.risks project) as [|r rs].
    - rewrite Hempty by reflexivity. lia.
    - specialize (Hfull ltac:(discriminate)). lia. }
  repeat (constructor; [cbn; try exact I; lia|]).
  apply Forall_app. split.
  - apply (Forall_drawn_within_mono 100); [lia | exact Hops].
  - repeat (constructor; [cbn; try exact I; lia|]). constructor.
Qed.

Lemma report_within (project : TokenomicsProject.t) (low : Z) :
  (low <= 40)%Z ->
  (low <= -5)%Z \/ TokenomicsProject.risks project <> [] ->
  Forall (drawn_within low) (generate_pdf_report str_float project).
Proof.
  intros Hlow Hcase. unfold generate_pdf_report, draw_narrative.
  pose proof (draw_allocations_bounds (TokenomicsProject.allocations project)
                (draw_header project).2 ltac:(cbn; unfold height; lia)) as Hrows.
  assert (Hheader : Forall (drawn_within low) (draw_header project).1).
  { unfold draw_header. cbn [fst].
    repeat (constructor; [cbn; unfold height; try exact I; lia|]). constructor. }
  destruct (draw_header project) as [header y1]. cbn [fst snd] in *.
  destruct (draw_allocations str_float _ y1) as [rows y2]. cbn [fst] in *.
  destruct (draw_lines_bounds
              (wrap_lines (Py.split (TokenomicsProject.narrative project)))
              narrative_heading.2 ltac:(cbn; unfold height; lia)) as [Hbody Hy3].
  destruct (draw_lines _ narrative_heading.2) as [body y3]. cbn [fst snd] in *.
  repeat (apply Forall_app; split).
  - exact Hheader.
  - apply (Forall_drawn_within_mono 73); [lia | exact Hrows].
  - unfold narrative_heading. cbn [fst].
    repeat (constructor; [cbn; unfold height; try exact I; lia|]). constructor.
  - apply (Forall_drawn_within_mono 100); [lia | exact Hbody].
  - apply draw_closing_bounds; assumption.
Qed.

(** X7. In the report of a design with at least one risk every text is
    drawn on the page, between 40 points from the bottom and the top margin;
    allocation rows may reach down to 73 because only the first of their
    three lines is checked against the bottom margin.  With no risk the
    closing section is drawn without any check and can leave the page: the
    comparable projects of a design with forty-one narrative lines and no
    risk are drawn at height -3; the lowest any design can reach is -5. *)
Theorem report_stays_on_page (project : TokenomicsProject.t) :
  (TokenomicsProject.risks project <> [] ->
   Forall (drawn_within 40) (generate_pdf_report str_float project))
  /\ Forall (drawn_within (-5)) (generate_pdf_report str_float project)
  /\ Forall (drawn_within 73)
       (draw_allocations str_float (TokenomicsProject.allocations project)
          (draw_header project).2).1
  /\ last (generate_pdf_report str_float low_project) = Some Save
  /\ DrawString 70 (-3) "Uniswap" ∈ generate_pdf_report str_float low_project.
Proof.
  split; [|split; [|split; [|split]]].
  - intros Hrisks. apply report_within; [lia | right; exact Hrisks].
  - apply report_within; [lia | left; lia].
  - apply draw_allocations_bounds. cbn. unfold height. lia.
  - vm_compute. reflexivity.
  - apply list_elem_of_In. vm_compute. tauto.
Qed.

End PageFacts.

Lemma report_stays_on_page_witness :
  Forall (drawn_within 40) (generate_pdf_report sample_str_float sample_project).
Proof.
  destruct (report_stays_on_page sample_str_float sample_project) as [H _].
  apply H. discriminate.
Defined.

(** ** Counting the pages *)

Lemma page_breaks_break (y : Z) :
  page_breaks (page_break y).1 = (if (y <? 100)%Z then 1 else 0)
  /\ (page_break y).2 = (if (y <? 100)%Z then (height - 50)%Z else y).
Proof. unfold page_break. destruct (y <? 100)%Z; split; reflexivity. Qed.

Lemma draw_lines_run (lines : list string) (y : Z) :
  (page_breaks (draw_lines lines y).1, (draw_lines lines y).2)
  = cursor_run 15 (length lines) y.
Proof.
  revert y. induction lines as [|line lines IH]; intros y; [reflexivity|].
  cbn [draw_lines length cursor_run].
  destruct (page_breaks_break y) as [Hb Hy]. rewrite <- Hy.
  destruct (page_break y) as [brk y1]. cbn [fst snd] in *.
  rewrite <- (IH (y1 - 15)%Z).
  destruct (draw_lines lines (y1 - 15)) as [ops y']. cbn [fst snd].
  rewrite page_breaks_app, Hb. reflexivity.
Qed.

Lemma draw_risks_run (risks : list string) (i y : Z) :
  (page_breaks (draw_risks i risks y).1, (draw_risks i risks y).2)
  = cursor_run 20 (length risks) y.
Proof.
  revert i y. induction risks as [|risk risks IH]; intros i y; [reflexivity|].
  cbn [draw_risks length cursor_run].
  destruct (page_breaks_break y) as [Hb Hy]. rewrite <- Hy.
  destruct (page_break y) as [brk y1]. cbn [fst snd] in *.
  rewrite <- (IH (i + 1)%Z (y1 - 20)%Z).
  destruct (draw_risks (i + 1) risks (y1 - 20)) as [ops y']. cbn [fst snd].
  rewrite page_breaks_app, Hb. reflexivity.
Qed.

Lemma draw_allocations_run (str_float : float -> string)
    (allocations : list TokenAllocation.t) (y : Z) :
  (page_breaks (draw_allocations str_float allocations y).1,
   (draw_allocations str_float allocations y).2)
  = cursor_run 52 (length allocations) y.
Proof.
  revert y. induction allocations as [|a rest IH]; intros y; [reflexivity|].
  cbn [draw_allocations length cursor_run].
  destruct (page_breaks_break y) as [Hb Hy]. rewrite <- Hy.
  destruct (page_break y) as [brk y1]. cbn [fst snd] in *.
  replace (y1 - 52)%Z with (y1 - 15 - 12 - 25)%Z by lia.
  rewrite <- (IH (y1 - 15 - 12 - 25)%Z).
  destruct (draw_allocations str_float rest (y1 - 15 - 12 - 25)) as [ops y'].
  cbn [fst snd]. rewrite !page_breaks_app, Hb. reflexivity.
Qed.

Section CursorRun.

Variable step : Z.
Hypothesis step_positive : (0 < step)%Z.

(** Running [a + b] turns is running [a] turns and then [b] turns. *)
Lemma cursor_run_add (a b : nat) (y : Z) :
  cursor_run step (a + b) y
  = ((cursor_run step a y).1 + (cursor_run step b (cursor_run step a y).2).1,
     (cursor_run step b (cursor_run step a y).2).2).
Proof.
  revert y. induction a as [|a IH]; intros y.
  - cbn. destruct (cursor_run step b y). reflexivity.
  - cbn [Nat.add cursor_run].
    rewrite (IH ((if (y <? 100)%Z then (height - 50)%Z else y) - step)%Z).
    destruct (cursor_run step a _) as [b1 y1]. cbn [fst snd].
    destruct (cursor_run step b y1) as [b2 y2]. cbn [fst snd].
    f_equal. lia.
Qed.

(** As long as the last turn still starts at or above the margin there is no
    page break. *)
Lemma cursor_run_fits (n : nat) (y : Z) :
  (100 <= y - step * Z.of_nat n + step)%Z ->
  cursor_run step n y = (0, (y - step * Z.of_nat n)%Z).
Proof.
  revert y. induction n as [|n IH]; intros y Hfit.
  - cbn. f_equal. lia.
  - rewrite Nat2Z.inj_succ, Z.mul_succ_r in Hfit.
    cbn [cursor_run].
    assert (Hy : (y <? 100)%Z = false) by (apply Z.ltb_ge; lia).
    rewrite Hy, (IH (y - step)%Z) by lia.
    rewrite Nat2Z.inj_succ, Z.mul_succ_r. f_equal. lia.
Qed.

(** Below the margin the run is the run from the top of a new page, with one
    more page break. *)
Lemma cursor_run_low (n : nat) (y : Z) :
  (y < 100)%Z ->
  cursor_run step (S n) y
  = (S (cursor_run step (S n) (height - 50)).1,
     (cursor_run step (S n) (height - 50)).2).
Proof.
  intros Hy. cbn [cursor_run].
  assert (H1 : (y <? 100)%Z = true) by (apply Z.ltb_lt; exact Hy).
  assert (H2 : (height - 50 <? 100)%Z = false) by reflexivity.
  rewrite H1, H2. destruct (cursor_run step n (height - 50 - step)) as [b y'].
  reflexivity.
Qed.

(** [per_page] turns fit on a page started at the top margin. *)
Variable per_page : nat.
Hypothesis per_page_fits : (100 <= height - 50 - step * Z.of_nat per_page + step)%Z.
Hypothesis per_page_full : (height - 50 - step * Z.of_nat per_page < 100)%Z.

Lemma per_page_positive : 0 < per_page.
Proof. destruct per_page; [cbn in per_page_full; unfold height in *; lia | lia]. Qed.

Lemma cursor_run_top (m : nat) :
  (cursor_run step (S m) (height - 50)).1 = m / per_page.
Proof.
  pose proof per_page_positive as Hpos.
  induction m as [m IH] using lt_wf_ind.
  destruct (Nat.lt_ge_cases m per_page) as [Hsmall|Hlarge].
  - rewrite cursor_run_fits.
    + rewrite Nat.div_small by exact Hsmall. reflexivity.
    + assert (Z.of_nat (S m) <= Z.of_nat per_page)%Z by lia. nia.
  - replace (S m) with (per_page + S (m - per_page)) by lia.
    rewrite cursor_run_add, (cursor_run_fits per_page) by exact per_page_fits.
    cbn [fst snd]. rewrite cursor_run_low by exact per_page_full. cbn [fst].
    rewrite IH by lia.
    replace m with (m - per_page + 1 * per_page) at 2 by lia.
    rewrite Nat.div_add by lia. lia.
Qed.

(** From a cursor [y] at or above the margin under which [first] turns fit:
    no page break for up to [first] turns, and after that one more for every
    [per_page] turns started. *)
Lemma cursor_run_count (first n : nat) (y : Z) :
  (100 <= y - step * Z.of_nat first + step)%Z ->
  (y - step * Z.of_nat first < 100)%Z ->
  (cursor_run step n y).1
  = if (n <=? first)%nat then 0 else S ((n - first - 1) / per_page).
Proof.
  intros Hfit Hfull. destruct (Nat.leb_spec n first) as [Hle|Hgt].
  - rewrite cursor_run_fits; [reflexivity|].
    assert (Z.of_nat n <= Z.of_nat first)%Z by lia. nia.
  - replace n with (first + S (n - first - 1)) at 1 by lia.
    rewrite cursor_run_add, (cursor_run_fits first) by exact Hfit.
    cbn [fst snd]. rewrite cursor_run_low by exact Hfull. cbn [fst].
    rewrite cursor_run_top. reflexivity.
Qed.

End CursorRun.

(** X8. The number of page breaks in the report.  Nine allocations fit
    under the overview and thirteen on every later page; forty-one narrative
    lines fit under the narrative heading and forty-three on every later
    page.  The whole report has the page breaks of the allocation rows, the
    one that opens the narrative, those of the narrative lines and those of
    the risk list, so it always has at least one. *)
Theorem report_page_breaks (str_float : float -> string) (project : TokenomicsProject.t) :
  let rows := length (TokenomicsProject.allocations project) in
  let lines := length (wrap_lines (Py.split (TokenomicsProject.narrative project))) in
  let row_breaks :=
    page_breaks (draw_allocations str_float (TokenomicsProject.allocations project)
                   (draw_header project).2).1 in
  let line_breaks := page_breaks (draw_narrative project).1 in
  row_breaks = (if (rows <=? 9)%nat then 0 else S ((rows - 10) / 13))
  /\ line_breaks = (if (lines <=? 41)%nat then 0 else S ((lines - 42) / 43))
  /\ page_breaks (generate_pdf_report str_float project)
     = row_breaks + 1 + line_breaks
       + (cursor_run 20 (length (TokenomicsProject.risks project))
            ((draw_narrative project).2 - 30 - 20)).1
  /\ 1 <= page_breaks (generate_pdf_report str_float project).
Proof.
  cbn zeta.
  assert (Hrows : page_breaks
            (draw_allocations str_float (TokenomicsProject.allocations project)
               (draw_header project).2).1
          = (if (length (TokenomicsProject.allocations project) <=? 9)%nat then 0
             else S ((length (TokenomicsProject.allocations project) - 10) / 13))).
  { pose proof (draw_allocations_run str_float
                  (TokenomicsProject.allocations project) (draw_header project).2) as H.
    apply (f_equal fst) in H. cbn [fst] in H. rewrite H.
    rewrite (cursor_run_count 52 ltac:(lia) 13 ltac:(unfold height; lia)
               ltac:(unfold height; lia) 9)
      by (cbn; unfold height; lia).
    replace (length (TokenomicsProject.allocations project) - 9 - 1)
      with (length (TokenomicsProject.allocations project) - 10) by lia.
    reflexivity. }
  assert (Hlines : page_breaks (draw_narrative project).1
          = (if (length (wrap_lines (Py.split (TokenomicsProject.narrative project)))
                 <=? 41)%nat then 0
             else S ((length (wrap_lines (Py.split (TokenomicsProject.narrative project)))
                      - 42) / 43))).
  { unfold draw_narrative.
    pose proof (draw_lines_run
                  (wrap_lines (Py.split (TokenomicsProject.narrative project)))
                  narrative_heading.2) as H.
    apply (f_equal fst) in H. cbn [fst] in H. rewrite H.
    rewrite (cursor_run_count 15 ltac:(lia) 43 ltac:(unfold height; lia)
               ltac:(unfold height; lia) 41)
      by (cbn; unfold height; lia).
    replace (length (wrap_lines (Py.split (TokenomicsProject.narrative project))) - 41 - 1)
      with (length (wrap_lines (Py.split (TokenomicsProject.narrative project))) - 42)
      by lia.
    reflexivity. }
  split; [exact Hrows|]. split; [exact Hlines|].
  assert (Htotal : page_breaks (generate_pdf_report str_float project)
            = page_breaks
                (draw_allocations str_float (TokenomicsProject.allocations project)
                   (draw_header project).2).1
              + 1 + page_breaks (draw_narrative project).1
              + (cursor_run 20 (length (TokenomicsProject.risks project))
                   ((draw_narrative project).2 - 30 - 20)).1).
  { clear Hrows Hlines. unfold generate_pdf_report, draw_closing.
    assert (Hheader : page_breaks (draw_header project).1 = 0) by reflexivity.
    destruct (draw_header project) as [header y1]. cbn [fst snd] in *.
    destruct (draw_allocations str_float _ y1) as [rows y2]. cbn [fst].
    destruct (draw_narrative project) as [body y3]. cbn [fst snd].
    pose proof (draw_risks_run (TokenomicsProject.risks project) 1 (y3 - 30 - 20)) as H.
    apply (f_equal fst) in H. cbn [fst] in H. rewrite <- H.
    destruct (draw_risks 1 _ (y3 - 30 - 20)) as [risk_ops y4]. cbn [fst].
    rewrite !page_breaks_app, Hheader.
    change (page_breaks narrative_heading.1) with 1.
    cbn [page_breaks List.filter is_show_page length]. lia. }
  split; [exact Htotal | lia].
Qed.


(** ** More on wrapping *)

Lemma wrap_fold_nonempty (ws lines : list string) (cur : string) :
  Forall is_word ws -> cur <> EmptyString ->
  exists more cur',
    fold_left wrap_step ws (lines, cur) = (lines ++ more, cur')
    /\ Forall (fun line => line <> EmptyString) more
    /\ cur' <> EmptyString.
Proof.
  revert lines cur. induction ws as [|w ws IH]; intros lines cur Hws Hcur.
  - exists [], cur. rewrite app_nil_r. repeat split; [constructor | exact Hcur].
  - apply Forall_cons in Hws as [Hw Hws]. cbn [fold_left]. unfold wrap_step at 2.
    destruct (String.length (cur +:+ " " +:+ w) <? 90)%nat.
    + apply IH; [exact Hws|]. destruct cur; [congruence | discriminate].
    + destruct (IH (lines ++ [cur]) w Hws (proj1 Hw)) as (more & cur' & -> & Hmore & Hcur').
      exists (cur :: more), cur'. rewrite <- app_assoc.
      repeat split; [constructor; assumption | exact Hcur'].
Qed.

Lemma wrap_first_step (w : string) (rest : list string) :
  fold_left wrap_step (w :: rest) ([], EmptyString)
  = fold_left wrap_step rest
      (if (S (String.length w) <? 90)%nat then ([], w) else ([EmptyString], w)).
Proof.
  reflexivity.
Qed.

(** X9. Wrapping never produces a blank line, with one exception: when the
    first word of the text has 89 characters or more, the first line is
    blank and the word starts on the second line.  A text without words
    gives no line at all. *)
Theorem wrap_blank_first_line (ws : list string) :
  Forall is_word ws ->
  (ws = [] -> wrap_lines ws = [])
  /\ (forall w rest, ws = w :: rest ->
        (String.length w < 89 ->
         Forall (fun line => line <> EmptyString) (wrap_lines ws))
        /\ (89 <= String.length w ->
            exists lines,
              wrap_lines ws = EmptyString :: lines
              /\ Forall (fun line => line <> EmptyString) lines)).
Proof.
  intros Hws. split; [intros ->; reflexivity|].
  intros w rest ->. apply Forall_cons in Hws as [Hw Hrest].
  unfold wrap_lines. rewrite wrap_first_step.
  split; intros Hlen.
  - assert (Htest : (S (String.length w) <? 90)%nat = true) by (apply Nat.ltb_lt; lia).
    rewrite Htest.
    destruct (wrap_fold_nonempty rest [] w Hrest (proj1 Hw))
      as (more & cur' & -> & Hmore & Hcur').
    cbn [app]. destruct cur' as [|ch cur']; [congruence|]. cbn [Py.truthy].
    apply Forall_app. split; [exact Hmore|]. constructor; [discriminate | constructor].
  - assert (Htest : (S (String.length w) <? 90)%nat = false) by (apply Nat.ltb_ge; lia).
    rewrite Htest.
    destruct (wrap_fold_nonempty rest [EmptyString] w Hrest (proj1 Hw))
      as (more & cur' & -> & Hmore & Hcur').
    destruct cur' as [|ch cur']; [congruence|]. cbn [Py.truthy app].
    exists (more ++ [String ch cur']). split; [reflexivity|].
    apply Forall_app. split; [exact Hmore|]. constructor; [discriminate | constructor].
Qed.

Lemma wrap_blank_first_line_witness :
  exists lines,
    wrap_lines [long_word +:+ long_word; "a"] = EmptyString :: lines
    /\ Forall (fun line => line <> EmptyString) lines.
Proof.
  assert (Hws : Forall is_word [long_word +:+ long_word; "a"])
    by (repeat constructor; discriminate).
  destruct (wrap_blank_first_line _ Hws) as [_ H].
  destruct (H (long_word +:+ long_word) ["a"] eq_refl) as [_ Hblank].
  apply Hblank. apply Nat.leb_le. vm_compute. reflexivity.
Defined.

Lemma adjacent_snoc {A : Type} (R : A -> A -> Prop) (l : list A) (x : A) :
  adjacent R l -> (forall a, last l = Some a -> R a x) -> adjacent R (l ++ [x]).
Proof.
  induction l as [|a l IH]; intros Hl Hlast; [exact I|].
  destruct l as [|b l].
  - cbn. split; [apply Hlast; reflexivity | exact I].
  - destruct Hl as [Hab Hl]. cbn. split; [exact Hab|].
    apply IH; [exact Hl|]. intros a' Ha'. apply Hlast. exact Ha'.
Qed.

Lemma no_room_extend (a cur w : string) :
  is_word w -> no_room a cur -> no_room a (cur +:+ " " +:+ w).
Proof.
  intros Hw (w0 & Hhead & Hlen). exists w0. split; [|exact Hlen].
  rewrite (split_append_word _ _ Hw). destruct (Py.split cur); [discriminate|exact Hhead].
Qed.

Lemma no_room_empty (a : string) : ~ no_room a EmptyString.
Proof. intros (w & Hhead & _). discriminate Hhead. Qed.

Lemma wrap_fold_greedy (ws lines : list string) (cur : string) :
  Forall is_word ws ->
  adjacent no_room lines ->
  (forall a, last lines = Some a -> no_room a cur) ->
  adjacent no_room (fold_left wrap_step ws (lines, cur)).1
  /\ (forall a, last (fold_left wrap_step ws (lines, cur)).1 = Some a ->
        no_room a (fold_left wrap_step ws (lines, cur)).2).
Proof.
  revert lines cur. induction ws as [|w ws IH]; intros lines cur Hws Hadj Hlast.
  - split; assumption.
  - apply Forall_cons in Hws as [Hw Hws]. cbn [fold_left]. unfold wrap_step at 2 4 6.
    destruct (String.length (cur +:+ " " +:+ w) <? 90)%nat eqn:E.
    + apply IH; [exact Hws | exact Hadj|].
      intros a Ha. specialize (Hlast a Ha).
      destruct cur as [|ch cur]; [destruct (no_room_empty a Hlast)|].
      cbn [Py.truthy]. apply no_room_extend; assumption.
    + apply IH; [exact Hws | apply adjacent_snoc; assumption |].
      intros a Ha. rewrite last_snoc in Ha. injection Ha as <-.
      exists w. split; [rewrite (split_word _ Hw); reflexivity|].
      apply Nat.ltb_ge. exact E.
Qed.

(** X10. Wrapping is greedy: wherever one line ends and the next begins,
    the first word of the next line did not fit on the line before it; with
    a space and that word the line would have had 90 characters or more.  No
    line is broken early. *)
Theorem wrap_is_greedy (text : string) :
  adjacent no_room (wrap_lines (Py.split text)).
Proof.
  destruct (wrap_fold_greedy (Py.split text) [] EmptyString (split_words text) I)
    as [Hadj Hlast]; [discriminate|].
  unfold wrap_lines.
  destruct (fold_left wrap_step (Py.split text) ([], EmptyString)) as [lines cur].
  cbn [fst snd] in *. destruct (Py.truthy cur); [|exact Hadj].
  apply adjacent_snoc; assumption.
Qed.

(** * Document download *)

Lemma append_inj_same_length (a b s t : string) :
  String.length a = String.length b -> a +:+ s = b +:+ t -> a = b /\ s = t.
Proof.
  revert b. induction a as [|ch a IH]; intros b Hlen Heq.
  - destruct b; [split; [reflexivity | exact Heq] | discriminate Hlen].
  - destruct b as [|ch' b]; [discriminate Hlen|].
    rewrite !append_cons in Heq. injection Heq as -> Heq.
    injection Hlen as Hlen. destruct (IH b Hlen Heq) as [-> ->]. split; reflexivity.
Qed.

Lemma append_inj_r (a b s : string) : a +:+ s = b +:+ s -> a = b.
Proof.
  intros Heq. apply (append_inj_same_length a b s s); [|exact Heq].
  apply (f_equal String.length) in Heq. rewrite !length_append in Heq. lia.
Qed.

Lemma pdf_path_inj (a b : string) : pdf_path a = pdf_path b -> a = b.
Proof.
  unfold pdf_path. intros H.
  apply (append_inj_same_length "/tmp/" "/tmp/") in H as [_ H]; [|reflexivity].
  apply append_inj_r in H. exact H.
Qed.

(** X11. Downloading the document of an unknown identity answers 404 and
    writes nothing.  For a stored identity it renders the first stored
    design with that identity, writes the result at the path made from the
    identity, leaves every other path alone, and answers with that path, the
    PDF media type and a file name made from the project name.  Different
    identities have different paths, so the document of one project never
    overwrites that of another. *)
Theorem download_pdf_writes_one_file (str_float : float -> string)
    (db : Collection) (files : gmap string (list Op)) (project_id : string) :
  ((forall doc, doc ∈ db -> TokenomicsProject.id doc <> project_id) ->
   download_pdf str_float db files project_id
   = (HTTPException 404 "Project not found", files))
  /\ (forall project,
        find_one db project_id = Some project ->
        project ∈ db
        /\ (download_pdf str_float db files project_id).1
           = Returns (FileResponse.Build (pdf_path project_id) "application/pdf"
                        (TokenomicsProject.project_name project +:+ "_Tokenomics.pdf"))
        /\ (download_pdf str_float db files project_id).2 !! pdf_path project_id
           = Some (generate_pdf_report str_float project)
        /\ (forall path, path <> pdf_path project_id ->
              (download_pdf str_float db files project_id).2 !! path = files !! path)
        /\ (forall other, other <> project_id ->
              (download_pdf str_float db files project_id).2 !! pdf_path other
              = files !! pdf_path other))
  /\ (forall a b, pdf_path a = pdf_path b -> a = b).
Proof.
  split; [|split].
  - intros Hnone. unfold download_pdf. rewrite find_one_none by exact Hnone. reflexivity.
  - intros project Hfind. unfold download_pdf. rewrite Hfind. cbn [fst snd].
    split; [apply (find_one_some _ _ _ Hfind)|]. split; [reflexivity|].
    split; [apply lookup_insert_eq|]. split.
    + intros path Hpath. apply lookup_insert_ne. congruence.
    + intros other Hother. apply lookup_insert_ne.
      intros H. apply pdf_path_inj in H. congruence.
  - apply pdf_path_inj.
Qed.

Lemma download_pdf_writes_one_file_witness :
  (download_pdf sample_str_float [sample_project] ∅ "id").2 !! pdf_path "id"
  = Some (generate_pdf_report sample_str_float sample_project)
  /\ download_pdf sample_str_float [sample_project] ∅ "other"
     = (HTTPException 404 "Project not found", ∅).
Proof.
  destruct (download_pdf_writes_one_file sample_str_float [sample_project] ∅ "id")
    as (_ & Hhit & _).
  destruct (download_pdf_writes_one_file sample_str_float [sample_project] ∅ "other")
    as (Hmiss & _).
  split.
  - apply (Hhit sample_project). reflexivity.
  - apply Hmiss. intros doc Hdoc.
    apply list_elem_of_singleton in Hdoc. subst doc. discriminate.
Defined.

(** * Payments *)

Lemma pricing_lookup_inv (package_id : string) (package : Package.t) :
  PRICING_PACKAGES !! package_id = Some package ->
  (package_id, package)
  ∈ [ ("basic", Package.Build 79 "Basic Tokenomics"
                  "Standard tokenomics design with PDF and charts");
      ("pro", Package.Build 199 "Pro Tokenomics"
                "Advanced tokenomics with multiple iterations and comparisons");
      ("premium", Package.Build 499 "Premium Package"
                    "Complete tokenomics suite with investor deck") ].
Proof. apply elem_of_list_to_map_2. Qed.

Lemma pricing_unknown (package_id : string) :
  package_id ∉ ["basic"; "pro"; "premium"] ->
  PRICING_PACKAGES !! package_id = None.
Proof. intros H. apply not_elem_of_list_to_map_1. exact H. Qed.

Section PaymentFacts.

Variable str_exception : RouteException -> string.
Variable STRIPE_API_KEY : option string.

(** X12. Creating a checkout session never answers with any error status
    but 500, and an error leaves the stored transactions and the environment
    as they were.  In particular a package id other than "basic", "pro" and
    "premium" is answered with 500: the 400 "Invalid package ID" raised for
    it is caught by the route's own handler and only shows inside the detail
    of the 500. *)
Theorem checkout_errors_are_500
    (create : string -> string -> CheckoutSessionRequest.t
              -> string + CheckoutSessionResponse.t)
    (package_id origin_url : string) (txs : list PaymentTransaction.t) (w : World) :
  let r := create_checkout_session str_exception STRIPE_API_KEY create
             package_id origin_url txs w in
  (forall status_code detail,
     r.1.1 = HTTPException status_code detail ->
     status_code = 500%Z /\ r.1.2 = txs /\ r.2 = w)
  /\ (package_id ∉ ["basic"; "pro"; "premium"] ->
      r = (HTTPException 500
             ("Error creating checkout session: "
              +:+ str_exception (RaisedHTTP 400 "Invalid package ID")), txs, w))
  /\ (STRIPE_API_KEY = None -> exists detail, r = (HTTPException 500 detail, txs, w)).
Proof.
  cbn zeta. unfold create_checkout_session. split; [|split].
  - intros status_code detail.
    destruct (checkout_attempt STRIPE_API_KEY create package_id origin_url txs w)
      as [e|[[session txs'] w']]; cbn [fst snd].
    + intros [= <- _]. repeat split.
    + discriminate.
  - intros Hunknown. unfold checkout_attempt.
    rewrite (pricing_unknown _ Hunknown). reflexivity.
  - intros Hkey. unfold checkout_attempt. rewrite Hkey.
    destruct (PRICING_PACKAGES !! package_id); eexists; reflexivity.
Qed.

(** X13. When the package is known, the key is set and the payment library
    returns a session for the request the route builds (the package's price
    in dollars, the success and cancel URLs under the caller's origin, the
    package id and name as metadata), the route returns that session and
    stores exactly one new transaction after the existing ones, every field
    of which is determined: pending, for that session, in dollars at the
    price of the package that was asked for, linked to no project, with that
    package's id and name as its only metadata, a fresh identity and two
    consecutive clock readings as creation and update time. *)
Theorem checkout_stores_priced_transaction
    (create : string -> string -> CheckoutSessionRequest.t
              -> string + CheckoutSessionResponse.t)
    (key package_id origin_url : string) (package : Package.t)
    (session : CheckoutSessionResponse.t)
    (txs : list PaymentTransaction.t) (w : World) :
  STRIPE_API_KEY = Some key ->
  PRICING_PACKAGES !! package_id = Some package ->
  create key (origin_url +:+ "/api/webhook/stripe")
    (CheckoutSessionRequest.Build (Package.amount package) "usd"
       (origin_url +:+ "/success?session_id={CHECKOUT_SESSION_ID}")
       (origin_url +:+ "/pricing")
       (<["package_id" := package_id]>
          (<["package_name" := Package.name package]> ∅)))
  = inr session ->
  exists tx,
    create_checkout_session str_exception STRIPE_API_KEY create
      package_id origin_url txs w
    = (Returns session, txs ++ [tx], (datetime_now (datetime_now (uuid4 w).2).2).2)
    /\ tx = PaymentTransaction.Build
              (uuid_source w (uuid_count w))
              (CheckoutSessionResponse.session_id session)
              (Package.amount package) "usd" "pending" None
              (<["package_id" := package_id]>
                 (<["package_name" := Package.name package]> ∅))
              (clock_source w (clock_count w))
              (clock_source w (S (clock_count w)))
    /\ PaymentTransaction.session_id tx = CheckoutSessionResponse.session_id session
    /\ PaymentTransaction.payment_status tx = "pending"
    /\ PaymentTransaction.amount tx = Package.amount package
    /\ PaymentTransaction.metadata tx !! "package_id" = Some package_id
    /\ PaymentTransaction.metadata tx !! "package_name" = Some (Package.name package)
    /\ priced tx
    /\ PaymentTransaction.id tx = uuid_source w (uuid_count w)
    /\ PaymentTransaction.created_at tx = clock_source w (clock_count w)
    /\ PaymentTransaction.updated_at tx = clock_source w (S (clock_count w)).
Proof.
  intros Hkey Hpackage Hcreate.
  unfold create_checkout_session, checkout_attempt.
  rewrite Hpackage, Hkey, Hcreate. cbn.
  eexists. split; [reflexivity|]. split; [reflexivity|]. cbn.
  split; [reflexivity|]. split; [reflexivity|]. split; [reflexivity|].
  split; [apply lookup_insert_eq|].
  split; [rewrite lookup_insert_ne by discriminate; apply lookup_insert_eq|].
  split; [|repeat split].
  split; [reflexivity|]. split; [reflexivity|].
  exists package_id, package.
  cbn [PaymentTransaction.metadata PaymentTransaction.amount].
  split; [exact Hpackage|]. split; [apply lookup_insert_eq|].
  split; [|reflexivity].
  rewrite lookup_insert_ne by discriminate. apply lookup_insert_eq.
Qed.

End PaymentFacts.

Lemma checkout_errors_are_500_witness :
  create_checkout_session sample_str_exception (Some "sk_test") sample_create
    "enterprise" "https://app.example" [] sample_world
  = (HTTPException 500 "Error creating checkout session: Invalid package ID",
     [], sample_world).
Proof.
  destruct (checkout_errors_are_500 sample_str_exception (Some "sk_test") sample_create
              "enterprise" "https://app.example" [] sample_world) as (_ & H & _).
  apply H. intros Hin.
  repeat (apply elem_of_cons in Hin as [Hin|Hin]; [discriminate Hin|]).
  inversion Hin.
Defined.

Lemma checkout_stores_priced_transaction_witness :
  exists tx,
    create_checkout_session sample_str_exception (Some "sk_test") sample_create
      "pro" "https://app.example" [] sample_world
    = (Returns (CheckoutSessionResponse.Build "https://checkout.example/cs_1" "cs_1"),
       [tx], (datetime_now (datetime_now (uuid4 sample_world).2).2).2)
    /\ PaymentTransaction.amount tx = 199%float.
Proof.
  destruct (checkout_stores_priced_transaction sample_str_exception (Some "sk_test")
              sample_create "sk_test" "pro" "https://app.example"
              (Package.Build 199 "Pro Tokenomics"
                 "Advanced tokenomics with multiple iterations and comparisons")
              (CheckoutSessionResponse.Build "https://checkout.example/cs_1" "cs_1")
              [] sample_world eq_refl)
    as (tx & Hrun & _ & _ & _ & Hamount & _);
    [vm_compute; reflexivity | reflexivity |].
  exists tx. split; [exact Hrun | exact Hamount].
Defined.

(** ** Status updates *)

Lemma update_one_frozen (sid st : string) (t : Z) (txs : list PaymentTransaction.t) :
  frozen_fields <$> update_one sid st t txs = frozen_fields <$> txs.
Proof.
  induction txs as [|tx txs IH]; [reflexivity|]. cbn [update_one].
  destruct (String.eqb (PaymentTransaction.session_id tx) sid).
  - reflexivity.
  - cbn [fmap list_fmap]. f_equal. exact IH.
Qed.

Lemma update_one_find (sid st : string) (t : Z) (txs : list PaymentTransaction.t) :
  find_transaction (update_one sid st t txs) sid
  = set_status st t <$> find_transaction txs sid.
Proof.
  unfold find_transaction.
  induction txs as [|tx txs IH]; [reflexivity|]. cbn [update_one].
  destruct (String.eqb (PaymentTransaction.session_id tx) sid) eqn:E; cbn; rewrite E.
  - reflexivity.
  - exact IH.
Qed.

Lemma update_one_find_other (sid sid' st : string) (t : Z)
    (txs : list PaymentTransaction.t) :
  sid' <> sid ->
  find_transaction (update_one sid st t txs) sid' = find_transaction txs sid'.
Proof.
  intros Hne. unfold find_transaction.
  induction txs as [|tx txs IH]; [reflexivity|]. cbn [update_one].
  destruct (String.eqb_spec (PaymentTransaction.session_id tx) sid) as [E|E].
  - cbn. rewrite E. destruct (String.eqb_spec sid sid'); [congruence | reflexivity].
  - cbn. rewrite IH. reflexivity.
Qed.

Lemma update_one_missing (sid st : string) (t : Z) (txs : list PaymentTransaction.t) :
  find_transaction txs sid = None -> update_one sid st t txs = txs.
Proof.
  unfold find_transaction.
  induction txs as [|tx txs IH]; [reflexivity|]. cbn.
  destruct (String.eqb (PaymentTransaction.session_id tx) sid); [discriminate|].
  intros H. rewrite (IH H). reflexivity.
Qed.

Lemma update_one_split (sid st : string) (t : Z)
    (before after : list PaymentTransaction.t) (tx : PaymentTransaction.t) :
  Forall (fun b => PaymentTransaction.session_id b <> sid) before ->
  PaymentTransaction.session_id tx = sid ->
  update_one sid st t (before ++ tx :: after)
  = before ++ set_status st t tx :: after.
Proof.
  intros Hbefore Hsid.
  induction Hbefore as [|b before Hb Hbefore IH]; cbn [app update_one].
  - rewrite Hsid, String.eqb_refl. reflexivity.
  - destruct (String.eqb_spec (PaymentTransaction.session_id b) sid) as [E|E];
      [contradiction|].
    rewrite IH. reflexivity.
Qed.

(** X14. A status update changes one transaction at most: the first one of
    the session, of which only the payment status and the update time
    change.  Every transaction before it and every transaction after it,
    also a later one of the same session, stays exactly as it is.  The
    number and order of the transactions, their identities, sessions,
    amounts, currencies, metadata and creation times stay as they are; the
    first transaction of any other session reads as before; with no
    transaction of the session nothing changes; and updating twice with the
    same status and time is the same as updating once. *)
Theorem update_one_changes_one_status (sid st : string) (t : Z)
    (txs : list PaymentTransaction.t) :
  length (update_one sid st t txs) = length txs
  /\ frozen_fields <$> update_one sid st t txs = frozen_fields <$> txs
  /\ find_transaction (update_one sid st t txs) sid
     = set_status st t <$> find_transaction txs sid
  /\ (forall sid', sid' <> sid ->
        find_transaction (update_one sid st t txs) sid' = find_transaction txs sid')
  /\ (find_transaction txs sid = None -> update_one sid st t txs = txs)
  /\ update_one sid st t (update_one sid st t txs) = update_one sid st t txs
  /\ (forall before tx after,
        txs = before ++ tx :: after ->
        Forall (fun b => PaymentTransaction.session_id b <> sid) before ->
        PaymentTransaction.session_id tx = sid ->
        update_one sid st t txs = before ++ set_status st t tx :: after).
Proof.
  split; [|split; [|split; [|split; [|split; [|split]]]]];
    [..|intros before tx after ->; apply update_one_split].
  - pose proof (update_one_frozen sid st t txs) as H.
    apply (f_equal length) in H. rewrite !length_fmap in H. exact H.
  - apply update_one_frozen.
  - apply update_one_find.
  - intros sid'. apply update_one_find_other.
  - apply update_one_missing.
  - induction txs as [|tx txs IH]; [reflexivity|]. cbn [update_one].
    destruct (String.eqb (PaymentTransaction.session_id tx) sid) eqn:E;
      cbn [update_one set_status PaymentTransaction.session_id]; rewrite E.
    + reflexivity.
    + rewrite IH. reflexivity.
Qed.

Lemma update_one_changes_one_status_witness :
  update_one "cs_2" "paid" 7
    [PaymentTransaction.Build "t1" "cs_1" 79 "usd" "pending" None ∅ 1 2]
  = [PaymentTransaction.Build "t1" "cs_1" 79 "usd" "pending" None ∅ 1 2]
  /\ find_transaction
       (update_one "cs_1" "paid" 7
          [PaymentTransaction.Build "t1" "cs_1" 79 "usd" "pending" None ∅ 1 2]) "cs_2"
     = None
  /\ update_one "cs_1" "paid" 7
       [PaymentTransaction.Build "t0" "cs_0" 79 "usd" "pending" None ∅ 1 2;
        PaymentTransaction.Build "t1" "cs_1" 79 "usd" "pending" None ∅ 3 4;
        PaymentTransaction.Build "t2" "cs_1" 199 "usd" "pending" None ∅ 5 6]
     = [PaymentTransaction.Build "t0" "cs_0" 79 "usd" "pending" None ∅ 1 2;
        PaymentTransaction.Build "t1" "cs_1" 79 "usd" "paid" None ∅ 3 7;
        PaymentTransaction.Build "t2" "cs_1" 199 "usd" "pending" None ∅ 5 6].
Proof.
  destruct (update_one_changes_one_status "cs_1" "paid" 7
              [PaymentTransaction.Build "t0" "cs_0" 79 "usd" "pending" None ∅ 1 2;
               PaymentTransaction.Build "t1" "cs_1" 79 "usd" "pending" None ∅ 3 4;
               PaymentTransaction.Build "t2" "cs_1" 199 "usd" "pending" None ∅ 5 6])
    as (_ & _ & _ & _ & _ & _ & Hsplit).
  destruct (update_one_changes_one_status "cs_2" "paid" 7
              [PaymentTransaction.Build "t1" "cs_1" 79 "usd" "pending" None ∅ 1 2])
    as (_ & _ & _ & _ & Hmissing & _).
  destruct (update_one_changes_one_status "cs_1" "paid" 7
              [PaymentTransaction.Build "t1" "cs_1" 79 "usd" "pending" None ∅ 1 2])
    as (_ & _ & _ & Hother & _).
  split; [|split].
  - apply Hmissing. reflexivity.
  - rewrite (Hother "cs_2") by discriminate. reflexivity.
  - apply (Hsplit
             [PaymentTransaction.Build "t0" "cs_0" 79 "usd" "pending" None ∅ 1 2]
             (PaymentTransaction.Build "t1" "cs_1" 79 "usd" "pending" None ∅ 3 4)
             [PaymentTransaction.Build "t2" "cs_1" 199 "usd" "pending" None ∅ 5 6]);
      [reflexivity | constructor; [discriminate | constructor] | reflexivity].
Defined.

Section StatusFacts.

Variable str_exception : RouteException -> string.
Variable STRIPE_API_KEY : option string.

(** X15. The status route and the webhook route answer 500, with the
    text of the exception in the detail, and change nothing when the key is
    missing or the payment library raises; they answer with no other error
    status.  Otherwise they answer with the library's status (the webhook
    with "success"), whether or not a transaction of the session is stored:
    there is no 404.  The clock is read once, and the first stored
    transaction of the session then carries the reported payment status and
    that clock reading; every other transaction, also a later one of the
    same session, stays exactly as it is, and with no transaction of the
    session the collection is unchanged. *)
Theorem status_routes_update_the_session
    (status_of : string -> string -> string + CheckoutStatusResponse.t)
    (handle_webhook : string -> string -> option string -> string + WebhookResponse.t)
    (session_id body : string) (stripe_signature : option string)
    (txs : list PaymentTransaction.t) (w : World) :
  let r := get_checkout_status str_exception STRIPE_API_KEY status_of session_id txs w in
  let h := stripe_webhook str_exception STRIPE_API_KEY handle_webhook body
             stripe_signature txs w in
  (forall status_code detail,
     r.1.1 = HTTPException status_code detail ->
     status_code = 500%Z /\ r.1.2 = txs /\ r.2 = w)
  /\ (forall status_code detail,
        h.1.1 = HTTPException status_code detail ->
        status_code = 500%Z /\ h.1.2 = txs /\ h.2 = w)
  /\ (forall key status,
        STRIPE_API_KEY = Some key -> status_of key session_id = inr status ->
        r.1.1 = Returns status
        /\ find_transaction r.1.2 session_id
           = set_status (CheckoutStatusResponse.payment_status status)
               (clock_source w (clock_count w))
             <$> find_transaction txs session_id
        /\ frozen_fields <$> r.1.2 = frozen_fields <$> txs
        /\ r.2 = (datetime_now w).2
        /\ (find_transaction txs session_id = None -> r.1.2 = txs)
        /\ (forall before tx after,
              txs = before ++ tx :: after ->
              Forall (fun b => PaymentTransaction.session_id b <> session_id) before ->
              PaymentTransaction.session_id tx = session_id ->
              r.1.2
              = before
                ++ set_status (CheckoutStatusResponse.payment_status status)
                     (clock_source w (clock_count w)) tx
                   :: after))
  /\ (forall key answer,
        STRIPE_API_KEY = Some key ->
        handle_webhook key body stripe_signature = inr answer ->
        h.1.1 = Returns "success"
        /\ find_transaction h.1.2 (WebhookResponse.session_id answer)
           = set_status (WebhookResponse.payment_status answer)
               (clock_source w (clock_count w))
             <$> find_transaction txs (WebhookResponse.session_id answer)
        /\ frozen_fields <$> h.1.2 = frozen_fields <$> txs
        /\ h.2 = (datetime_now w).2
        /\ (find_transaction txs (WebhookResponse.session_id answer) = None ->
            h.1.2 = txs)
        /\ (forall before tx after,
              txs = before ++ tx :: after ->
              Forall (fun b => PaymentTransaction.session_id b
                               <> WebhookResponse.session_id answer) before ->
              PaymentTransaction.session_id tx = WebhookResponse.session_id answer ->
              h.1.2
              = before
                ++ set_status (WebhookResponse.payment_status answer)
                     (clock_source w (clock_count w)) tx
                   :: after))
  /\ (STRIPE_API_KEY = None ->
      r = (HTTPException 500
             ("Error getting checkout status: "
              +:+ str_exception (RaisedKeyError "STRIPE_API_KEY")), txs, w)
      /\ h = (HTTPException 500
                ("Error handling webhook: "
                 +:+ str_exception (RaisedKeyError "STRIPE_API_KEY")), txs, w))
  /\ (forall key message,
        STRIPE_API_KEY = Some key -> status_of key session_id = inl message ->
        r = (HTTPException 500
               ("Error getting checkout status: "
                +:+ str_exception (RaisedByStripe message)), txs, w))
  /\ (forall key message,
        STRIPE_API_KEY = Some key ->
        handle_webhook key body stripe_signature = inl message ->
        h = (HTTPException 500
               ("Error handling webhook: "
                +:+ str_exception (RaisedByStripe message)), txs, w)).
Proof.
  cbn zeta. unfold get_checkout_status, stripe_webhook.
  split; [|split; [|split; [|split; [|split; [|split]]]]].
  - intros status_code detail.
    destruct STRIPE_API_KEY as [key|]; [|intros [= <- _]; repeat split].
    destruct (status_of key session_id) as [message|status];
      [intros [= <- _]; repeat split | discriminate].
  - intros status_code detail.
    destruct STRIPE_API_KEY as [key|]; [|intros [= <- _]; repeat split].
    destruct (handle_webhook key body stripe_signature) as [message|answer];
      [intros [= <- _]; repeat split | discriminate].
  - intros key status -> Hstatus. rewrite Hstatus. cbn [fst snd datetime_now].
    split; [reflexivity|]. split; [apply update_one_find|].
    split; [apply update_one_frozen|]. split; [reflexivity|].
    split; [apply update_one_missing|].
    intros before tx after ->. apply update_one_split.
  - intros key answer -> Hanswer. rewrite Hanswer. cbn [fst snd datetime_now].
    split; [reflexivity|]. split; [apply update_one_find|].
    split; [apply update_one_frozen|]. split; [reflexivity|].
    split; [apply update_one_missing|].
    intros before tx after ->. apply update_one_split.
  - intros ->. split; reflexivity.
  - intros key message -> Hraise. rewrite Hraise. reflexivity.
  - intros key message -> Hraise. rewrite Hraise. reflexivity.
Qed.

End StatusFacts.

Lemma status_routes_update_the_session_witness :
  (get_checkout_status sample_str_exception (Some "sk_test") sample_status_of "cs_1"
     [PaymentTransaction.Build "t1" "cs_1" 79 "usd" "pending" None ∅ 3 4;
      PaymentTransaction.Build "t2" "cs_1" 199 "usd" "pending" None ∅ 5 6]
     sample_world).1
  = (Returns (CheckoutStatusResponse.Build "complete" "paid"),
     [PaymentTransaction.Build "t1" "cs_1" 79 "usd" "paid" None ∅ 3 0;
      PaymentTransaction.Build "t2" "cs_1" 199 "usd" "pending" None ∅ 5 6])
  /\ get_checkout_status sample_str_exception None sample_status_of "cs_1" []
       sample_world
     = (HTTPException 500 "Error getting checkout status: 'STRIPE_API_KEY'", [],
        sample_world)
  /\ stripe_webhook sample_str_exception (Some "sk_test")
       (fun _ _ _ => inl "bad signature") "{}" None [] sample_world
     = (HTTPException 500 "Error handling webhook: bad signature", [], sample_world).
Proof.
  split; [|split].
  - destruct (status_routes_update_the_session sample_str_exception (Some "sk_test")
                sample_status_of (fun _ _ _ => inl "unused") "cs_1" "" None
                [PaymentTransaction.Build "t1" "cs_1" 79 "usd" "pending" None ∅ 3 4;
                 PaymentTransaction.Build "t2" "cs_1" 199 "usd" "pending" None ∅ 5 6]
                sample_world) as (_ & _ & H & _).
    destruct (H "sk_test" (CheckoutStatusResponse.Build "complete" "paid")
                eq_refl eq_refl) as (Hanswer & _ & _ & _ & _ & Hsplit).
    specialize (Hsplit []
                  (PaymentTransaction.Build "t1" "cs_1" 79 "usd" "pending" None ∅ 3 4)
                  [PaymentTransaction.Build "t2" "cs_1" 199 "usd" "pending" None ∅ 5 6]
                  eq_refl ltac:(constructor) eq_refl).
    destruct (get_checkout_status sample_str_exception (Some "sk_test")
                sample_status_of "cs_1" _ sample_world) as [[answer txs] w'].
    cbn [fst snd] in *. rewrite Hanswer, Hsplit. reflexivity.
  - destruct (status_routes_update_the_session sample_str_exception None
                sample_status_of (fun _ _ _ => inl "unused") "cs_1" "" None
                [] sample_world) as (_ & _ & _ & _ & Hkey & _).
    destruct (Hkey eq_refl) as [Hr _]. exact Hr.
  - destruct (status_routes_update_the_session sample_str_exception (Some "sk_test")
                sample_status_of (fun _ _ _ => inl "bad signature") "cs_1" "{}" None
                [] sample_world) as (_ & _ & _ & _ & _ & _ & Hraise).
    exact (Hraise "sk_test" "bad signature" eq_refl eq_refl).
Defined.

(** * The application as a whole *)

Lemma update_one_ids (sid st : string) (t : Z) (txs : list PaymentTransaction.t) :
  PaymentTransaction.id <$> update_one sid st t txs = PaymentTransaction.id <$> txs.
Proof.
  induction txs as [|tx txs IH]; [reflexivity|]. cbn [update_one].
  destruct (String.eqb (PaymentTransaction.session_id tx) sid).
  - reflexivity.
  - cbn [fmap list_fmap]. f_equal. exact IH.
Qed.

Lemma update_one_priced (sid st : string) (t : Z) (txs : list PaymentTransaction.t) :
  Forall priced txs -> Forall priced (update_one sid st t txs).
Proof.
  induction 1 as [|tx txs Htx Htxs IH]; [constructor|]. cbn [update_one].
  destruct (String.eqb (PaymentTransaction.session_id tx) sid);
    constructor; assumption.
Qed.

Section ApplicationFacts.

Variable json_loads : string -> option json.
Variable c : Coercion.
Variable str_float : float -> string.
Variable str_exception : RouteException -> string.
Variable STRIPE_API_KEY : option string.

(** What [create_checkout_session] can do to the state. *)
Lemma create_checkout_session_cases
    (create : string -> string -> CheckoutSessionRequest.t
              -> string + CheckoutSessionResponse.t)
    (package_id origin_url : string) (txs : list PaymentTransaction.t) (w : World) :
  (exists detail,
     create_checkout_session str_exception STRIPE_API_KEY create
       package_id origin_url txs w
     = (HTTPException 500 detail, txs, w))
  \/ (exists session tx,
        create_checkout_session str_exception STRIPE_API_KEY create
          package_id origin_url txs w
        = (Returns session, txs ++ [tx], (datetime_now (datetime_now (uuid4 w).2).2).2)
        /\ priced tx
        /\ PaymentTransaction.id tx = uuid_source w (uuid_count w)).
Proof.
  unfold create_checkout_session, checkout_attempt.
  destruct (PRICING_PACKAGES !! package_id) as [package|] eqn:Hpackage;
    [|left; eexists; reflexivity].
  destruct STRIPE_API_KEY as [key|]; [|left; eexists; reflexivity].
  destruct (create key _ _) as [message|session]; [left; eexists; reflexivity|].
  right. cbn. do 2 eexists. split; [reflexivity|]. split; [|reflexivity].
  split; [reflexivity|]. split; [reflexivity|].
  exists package_id, package.
  cbn [PaymentTransaction.metadata PaymentTransaction.amount].
  split; [exact Hpackage|]. split; [apply lookup_insert_eq|].
  split; [|reflexivity].
  rewrite lookup_insert_ne by discriminate. apply lookup_insert_eq.
Qed.

(** What the two status routes can do to the state. *)
Lemma get_checkout_status_cases
    (status_of : string -> string -> string + CheckoutStatusResponse.t)
    (session_id : string) (txs : list PaymentTransaction.t) (w : World) :
  let r := get_checkout_status str_exception STRIPE_API_KEY status_of session_id txs w in
  (r.1.2 = txs /\ r.2 = w)
  \/ (exists st, r.1.2 = update_one session_id st (clock_source w (clock_count w)) txs
                 /\ r.2 = (datetime_now w).2).
Proof.
  cbn zeta. unfold get_checkout_status.
  destruct STRIPE_API_KEY as [key|]; [|left; split; reflexivity].
  destruct (status_of key session_id) as [message|status]; [left; split; reflexivity|].
  right. eexists. split; reflexivity.
Qed.

Lemma stripe_webhook_cases
    (handle_webhook : string -> string -> option string -> string + WebhookResponse.t)
    (body : string) (stripe_signature : option string)
    (txs : list PaymentTransaction.t) (w : World) :
  let r := stripe_webhook str_exception STRIPE_API_KEY handle_webhook body
             stripe_signature txs w in
  (r.1.2 = txs /\ r.2 = w)
  \/ (exists sid st, r.1.2 = update_one sid st (clock_source w (clock_count w)) txs
                     /\ r.2 = (datetime_now w).2).
Proof.
  cbn zeta. unfold stripe_webhook.
  destruct STRIPE_API_KEY as [key|]; [|left; split; reflexivity].
  destruct (handle_webhook key body stripe_signature) as [message|answer];
    [left; split; reflexivity|].
  right. do 2 eexists. split; reflexivity.
Qed.

(** The state left by each route, field by field. *)
Lemma serve_generate (s : System) (request : TokenomicsRequest.t) (reply : Reply) :
  let built := generate_tokenomics_with_claude json_loads c request reply (world s) in
  serve json_loads c str_float str_exception STRIPE_API_KEY s (PostGenerate request reply)
  = {| tokenomics_projects := tokenomics_projects s ++ [built.1];
       payment_transactions := payment_transactions s;
       tmp_files := tmp_files s; world := built.2 |}.
Proof.
  cbn zeta. unfold serve, generate_tokenomics, insert_one.
  destruct (generate_tokenomics_with_claude json_loads c request reply (world s)).
  reflexivity.
Qed.

Lemma serve_payment (s : System) (call : Call) :
  match call with
  | PostCheckout _ _ _ | GetCheckoutStatus _ _ | PostWebhook _ _ _ => True
  | _ => False
  end ->
  tokenomics_projects (serve json_loads c str_float str_exception STRIPE_API_KEY s call) = tokenomics_projects s
  /\ tmp_files (serve json_loads c str_float str_exception STRIPE_API_KEY s call) = tmp_files s
  /\ uuid_source (world (serve json_loads c str_float str_exception STRIPE_API_KEY s call)) = uuid_source (world s)
  /\ uuid_count (world s) <= uuid_count (world (serve json_loads c str_float str_exception STRIPE_API_KEY s call))
  /\ ((payment_transactions (serve json_loads c str_float str_exception STRIPE_API_KEY s call) = payment_transactions s
       \/ exists sid st t,
            payment_transactions (serve json_loads c str_float str_exception STRIPE_API_KEY s call)
            = update_one sid st t (payment_transactions s))
      \/ exists tx,
           payment_transactions (serve json_loads c str_float str_exception STRIPE_API_KEY s call) = payment_transactions s ++ [tx]
           /\ priced tx
           /\ PaymentTransaction.id tx = uuid_source (world s) (uuid_count (world s))
           /\ uuid_count (world (serve json_loads c str_float str_exception STRIPE_API_KEY s call)) = S (uuid_count (world s))).
Proof.
  destruct call as [| | |package_id origin_url create|sid status_of|body sig handle];
    intros Hcall; destruct Hcall; unfold serve.
  - destruct (create_checkout_session_cases create package_id origin_url
                (payment_transactions s) (world s))
      as [[detail ->]|(session & tx & -> & Hpriced & Hid)]; cbn.
    + repeat split; try lia. left. left. reflexivity.
    + repeat split; try lia. right. exists tx.
      split; [reflexivity|]. split; [exact Hpriced|]. split; [exact Hid | reflexivity].
  - pose proof (get_checkout_status_cases status_of sid (payment_transactions s)
                  (world s)) as H. cbn zeta in H.
    destruct (get_checkout_status _ _ _ _ _ _) as [[answer txs] w'].
    cbn [fst snd] in *. cbn.
    destruct H as [[-> ->]|(st & -> & ->)]; cbn; repeat split; try lia.
    + left. left. reflexivity.
    + left. right. eauto.
  - pose proof (stripe_webhook_cases handle body sig (payment_transactions s)
                  (world s)) as H. cbn zeta in H.
    destruct (stripe_webhook _ _ _ _ _ _ _) as [[answer txs] w'].
    cbn [fst snd] in *. cbn.
    destruct H as [[-> ->]|(sid & st & -> & ->)]; cbn; repeat split; try lia.
    + left. left. reflexivity.
    + left. right. eauto.
Qed.

End ApplicationFacts.

Section SystemInvariants.

Variable json_loads : string -> option json.
Variable c : Coercion.
Variable str_float : float -> string.
Variable str_exception : RouteException -> string.
Variable STRIPE_API_KEY : option string.

Lemma serve_projects (s : System) (call : Call) :
  exists more,
    tokenomics_projects (serve json_loads c str_float str_exception STRIPE_API_KEY s call)
    = tokenomics_projects s ++ more
    /\ Forall untouched more.
Proof.
  destruct call as [request reply|pid|pid| | |].
  - rewrite serve_generate. cbn. eexists. split; [reflexivity|].
    pose proof (generate_initial json_loads c request reply (world s)) as H.
    destruct (generate_tokenomics_with_claude json_loads c request reply (world s))
      as [p w']. destruct H as (Hpdf & Hpay & _).
    constructor; [split; assumption | constructor].
  - exists []. rewrite app_nil_r. split; [reflexivity | constructor].
  - exists []. rewrite app_nil_r. split; [reflexivity | constructor].
  - destruct (serve_payment json_loads c str_float str_exception STRIPE_API_KEY s
                (PostCheckout package_id origin_url create) I) as [-> _].
    exists []. rewrite app_nil_r. split; [reflexivity | constructor].
  - destruct (serve_payment json_loads c str_float str_exception STRIPE_API_KEY s
                (GetCheckoutStatus session_id status_of) I) as [-> _].
    exists []. rewrite app_nil_r. split; [reflexivity | constructor].
  - destruct (serve_payment json_loads c str_float str_exception STRIPE_API_KEY s
                (PostWebhook body stripe_signature handle_webhook) I) as [-> _].
    exists []. rewrite app_nil_r. split; [reflexivity | constructor].
Qed.

Lemma run_projects (calls : list Call) (s : System) :
  exists more,
    tokenomics_projects (run json_loads c str_float str_exception STRIPE_API_KEY calls s)
    = tokenomics_projects s ++ more
    /\ Forall untouched more.
Proof.
  revert s. induction calls as [|call calls IH]; intros s.
  - exists []. rewrite app_nil_r. split; [reflexivity | constructor].
  - cbn [run fold_left].
    destruct (IH (serve json_loads c str_float str_exception STRIPE_API_KEY s call))
      as (more2 & Hrun & Hmore2).
    destruct (serve_projects s call) as (more1 & Hserve & Hmore1).
    exists (more1 ++ more2). unfold run in Hrun. rewrite Hrun, Hserve, app_assoc.
    split; [reflexivity|]. apply Forall_app. split; assumption.
Qed.

(** X16. No sequence of requests deletes, reorders or changes a stored
    design: the designs stored before are the first designs stored after,
    unchanged.  Every design stored by the application still has its
    rendering flag false and its payment status "pending", whatever documents
    were downloaded and whatever the payment routes recorded: no route writes
    either field. *)
Theorem stored_designs_are_never_touched (calls : list Call) (s : System) (w0 : World) :
  tokenomics_projects s
    `prefix_of`
    tokenomics_projects (run json_loads c str_float str_exception STRIPE_API_KEY calls s)
  /\ (Forall untouched (tokenomics_projects s) ->
      Forall untouched
        (tokenomics_projects
           (run json_loads c str_float str_exception STRIPE_API_KEY calls s)))
  /\ Forall untouched
       (tokenomics_projects
          (run json_loads c str_float str_exception STRIPE_API_KEY calls (initial w0))).
Proof.
  split; [|split].
  - destruct (run_projects calls s) as (more & -> & _). exists more. reflexivity.
  - intros Hs. destruct (run_projects calls s) as (more & -> & Hmore).
    apply Forall_app. split; assumption.
  - destruct (run_projects calls (initial w0)) as (more & -> & Hmore). exact Hmore.
Qed.

Lemma serve_priced (s : System) (call : Call) :
  Forall priced (payment_transactions s) ->
  Forall priced
    (payment_transactions
       (serve json_loads c str_float str_exception STRIPE_API_KEY s call)).
Proof.
  intros Hs. destruct call as [request reply|pid|pid| | |].
  - rewrite serve_generate. exact Hs.
  - exact Hs.
  - exact Hs.
  - destruct (serve_payment json_loads c str_float str_exception STRIPE_API_KEY s
                (PostCheckout package_id origin_url create) I)
      as (_ & _ & _ & _ & [[-> | (sid & st & t & ->)] | (tx & -> & Htx & _)]);
      [exact Hs | apply update_one_priced; exact Hs |].
    apply Forall_app. split; [exact Hs | constructor; [exact Htx | constructor]].
  - destruct (serve_payment json_loads c str_float str_exception STRIPE_API_KEY s
                (GetCheckoutStatus session_id status_of) I)
      as (_ & _ & _ & _ & [[-> | (sid & st & t & ->)] | (tx & -> & Htx & _)]);
      [exact Hs | apply update_one_priced; exact Hs |].
    apply Forall_app. split; [exact Hs | constructor; [exact Htx | constructor]].
  - destruct (serve_payment json_loads c str_float str_exception STRIPE_API_KEY s
                (PostWebhook body stripe_signature handle_webhook) I)
      as (_ & _ & _ & _ & [[-> | (sid & st & t & ->)] | (tx & -> & Htx & _)]);
      [exact Hs | apply update_one_priced; exact Hs |].
    apply Forall_app. split; [exact Hs | constructor; [exact Htx | constructor]].
Qed.

Lemma priced_amount (tx : PaymentTransaction.t) :
  priced tx ->
  PaymentTransaction.amount tx = 79%float
  \/ PaymentTransaction.amount tx = 199%float
  \/ PaymentTransaction.amount tx = 499%float.
Proof.
  intros (_ & _ & package_id & package & Hpackage & _ & _ & ->).
  apply pricing_lookup_inv in Hpackage.
  repeat (apply elem_of_cons in Hpackage as [[= -> ->]|Hpackage]; [tauto|]).
  inversion Hpackage.
Qed.

(** X17. Every transaction the application ever stores is in dollars, is
    linked to no project, names one of the three packages in its metadata
    and has exactly that package's price as amount: 79, 199 or 499.  The
    status routes, which rewrite the payment status, leave all of this as it
    is. *)
Theorem stored_transactions_are_priced (calls : list Call) (w0 : World) :
  let txs :=
    payment_transactions
      (run json_loads c str_float str_exception STRIPE_API_KEY calls (initial w0)) in
  Forall priced txs
  /\ Forall (fun tx => PaymentTransaction.amount tx = 79%float
                       \/ PaymentTransaction.amount tx = 199%float
                       \/ PaymentTransaction.amount tx = 499%float) txs.
Proof.
  cbn zeta.
  assert (H : Forall priced
                (payment_transactions
                   (run json_loads c str_float str_exception STRIPE_API_KEY calls
                      (initial w0)))).
  { assert (Hgen : forall s, Forall priced (payment_transactions s) ->
              Forall priced
                (payment_transactions
                   (run json_loads c str_float str_exception STRIPE_API_KEY calls s))).
    { induction calls as [|call calls IH]; intros s Hs; [exact Hs|].
      cbn [run fold_left]. apply IH. apply serve_priced. exact Hs. }
    apply Hgen. constructor. }
  split; [exact H|].
  eapply Forall_impl; [exact H|]. intros tx. apply priced_amount.
Qed.

End SystemInvariants.

Lemma NoDup_insert_fresh (l1 l2 : list nat) (k bound : nat) :
  NoDup (l1 ++ l2) -> Forall (fun i => i < bound) (l1 ++ l2) -> bound <= k ->
  NoDup ((l1 ++ [k]) ++ l2) /\ NoDup (l1 ++ (l2 ++ [k])).
Proof.
  intros Hnd Hall Hk.
  assert (Hfresh : k ∉ l1 ++ l2).
  { intros Hin. rewrite Forall_forall in Hall. specialize (Hall k Hin). lia. }
  assert (Hcons : NoDup (k :: (l1 ++ l2))) by (apply NoDup_cons; split; assumption).
  split.
  - eapply NoDup_Permutation_proper; [|exact Hcons].
    rewrite <- app_assoc. cbn. symmetry. apply Permutation_middle.
  - eapply NoDup_Permutation_proper; [|exact Hcons].
    rewrite app_assoc. symmetry. apply Permutation_cons_append.
Qed.

Section IdentityInvariants.

Variable json_loads : string -> option json.
Variable c : Coercion.
Variable str_float : float -> string.
Variable str_exception : RouteException -> string.
Variable STRIPE_API_KEY : option string.

Lemma serve_drawn (w0 : World) (s : System) (call : Call) :
  drawn_identities w0 s ->
  drawn_identities w0 (serve json_loads c str_float str_exception STRIPE_API_KEY s call).
Proof.
  intros (Hsrc & pd & td & Hp & Ht & Hnd & Hall).
  destruct call as [request reply|pid|pid| | |].
  - rewrite serve_generate. cbn zeta.
    pose proof (generate_initial json_loads c request reply (world s)) as H.
    destruct (generate_tokenomics_with_claude json_loads c request reply (world s))
      as [p w']. destruct H as (_ & _ & (k & Hk & Hid) & _ & Hsrc' & _). cbn [fst snd].
    split; [cbn; congruence|]. exists (pd ++ [k]), td. cbn.
    split; [rewrite !fmap_app, Hp; cbn [fmap list_fmap]; rewrite Hid, Hsrc; reflexivity|].
    split; [exact Ht|].
    split; [apply (NoDup_insert_fresh pd td k (uuid_count (world s))); [assumption..|lia]|].
    rewrite <- app_assoc. apply Forall_app. apply Forall_app in Hall as [Hpd Htd].
    split; [|apply Forall_app; split].
    + eapply Forall_impl; [exact Hpd|]. cbn. intros; lia.
    + constructor; [lia | constructor].
    + eapply Forall_impl; [exact Htd|]. cbn. intros; lia.
  - split; [exact Hsrc|]. exists pd, td. repeat split; assumption.
  - split; [exact Hsrc|]. exists pd, td. repeat split; assumption.
  - destruct (serve_payment json_loads c str_float str_exception STRIPE_API_KEY s
                (PostCheckout package_id origin_url create) I)
      as (Hproj & _ & Hsrc' & Hcount & Htx).
    split; [congruence|]. rewrite Hproj.
    destruct Htx as [[-> | (sid & st & t & ->)] | (tx & -> & _ & Hid & Hcount')].
    + exists pd, td. repeat split; try assumption.
      eapply Forall_impl; [exact Hall|]. cbn beta. intros; lia.
    + exists pd, td. rewrite update_one_ids. repeat split; try assumption.
      eapply Forall_impl; [exact Hall|]. cbn beta. intros; lia.
    + exists pd, (td ++ [uuid_count (world s)]).
      split; [exact Hp|].
      split; [rewrite !fmap_app, Ht; cbn [fmap list_fmap]; rewrite Hid, Hsrc;
              reflexivity|].
      split; [apply (NoDup_insert_fresh pd td _ (uuid_count (world s)));
              [assumption..|lia]|].
      rewrite Hcount', app_assoc. apply Forall_app. split.
      * eapply Forall_impl; [exact Hall|]. cbn beta. intros; lia.
      * constructor; [lia | constructor].
  - destruct (serve_payment json_loads c str_float str_exception STRIPE_API_KEY s
                (GetCheckoutStatus session_id status_of) I)
      as (Hproj & _ & Hsrc' & Hcount & Htx).
    split; [congruence|]. rewrite Hproj.
    destruct Htx as [[-> | (sid & st & t & ->)] | (tx & -> & _ & Hid & Hcount')].
    + exists pd, td. repeat split; try assumption.
      eapply Forall_impl; [exact Hall|]. cbn beta. intros; lia.
    + exists pd, td. rewrite update_one_ids. repeat split; try assumption.
      eapply Forall_impl; [exact Hall|]. cbn beta. intros; lia.
    + exists pd, (td ++ [uuid_count (world s)]).
      split; [exact Hp|].
      split; [rewrite !fmap_app, Ht; cbn [fmap list_fmap]; rewrite Hid, Hsrc;
              reflexivity|].
      split; [apply (NoDup_insert_fresh pd td _ (uuid_count (world s)));
              [assumption..|lia]|].
      rewrite Hcount', app_assoc. apply Forall_app. split.
      * eapply Forall_impl; [exact Hall|]. cbn beta. intros; lia.
      * constructor; [lia | constructor].
  - destruct (serve_payment json_loads c str_float str_exception STRIPE_API_KEY s
                (PostWebhook body stripe_signature handle_webhook) I)
      as (Hproj & _ & Hsrc' & Hcount & Htx).
    split; [congruence|]. rewrite Hproj.
    destruct Htx as [[-> | (sid & st & t & ->)] | (tx & -> & _ & Hid & Hcount')].
    + exists pd, td. repeat split; try assumption.
      eapply Forall_impl; [exact Hall|]. cbn beta. intros; lia.
    + exists pd, td. rewrite update_one_ids. repeat split; try assumption.
      eapply Forall_impl; [exact Hall|]. cbn beta. intros; lia.
    + exists pd, (td ++ [uuid_count (world s)]).
      split; [exact Hp|].
      split; [rewrite !fmap_app, Ht; cbn [fmap list_fmap]; rewrite Hid, Hsrc;
              reflexivity|].
      split; [apply (NoDup_insert_fresh pd td _ (uuid_count (world s)));
              [assumption..|lia]|].
      rewrite Hcount', app_assoc. apply Forall_app. split.
      * eapply Forall_impl; [exact Hall|]. cbn beta. intros; lia.
      * constructor; [lia | constructor].
Qed.

Lemma run_drawn (w0 : World) (calls : list Call) (s : System) :
  drawn_identities w0 s ->
  drawn_identities w0 (run json_loads c str_float str_exception STRIPE_API_KEY calls s).
Proof.
  revert s. induction calls as [|call calls IH]; intros s Hs; [exact Hs|].
  cbn [run fold_left]. apply IH. apply serve_drawn. exact Hs.
Qed.

Lemma initial_drawn (w0 : World) : drawn_identities w0 (initial w0).
Proof.
  split; [reflexivity|]. exists [], []. repeat split; constructor.
Qed.

End IdentityInvariants.

Section RetrievalFacts.

Variable json_loads : string -> option json.
Variable c : Coercion.
Variable str_float : float -> string.
Variable str_exception : RouteException -> string.
Variable STRIPE_API_KEY : option string.

Lemma run_identities_find (calls : list Call) (w0 : World) :
  (forall i j, uuid_source w0 i = uuid_source w0 j -> i = j) ->
  forall p,
    p ∈ tokenomics_projects
          (run json_loads c str_float str_exception STRIPE_API_KEY calls (initial w0)) ->
    find_one
      (tokenomics_projects
         (run json_loads c str_float str_exception STRIPE_API_KEY calls (initial w0)))
      (TokenomicsProject.id p)
    = Some p.
Proof.
  intros Hinj p Hin.
  destruct (run_drawn json_loads c str_float str_exception STRIPE_API_KEY w0 calls
              (initial w0) (initial_drawn w0)) as (_ & pd & td & Hp & _ & Hnd & _).
  apply find_one_unique; [exact Hin|]. rewrite Hp.
  apply NoDup_fmap_2; [exact Hinj|]. apply NoDup_app in Hnd as [Hpd _]. exact Hpd.
Qed.

(** X18. As long as the uuid source does not repeat itself, no two stored
    records share an identity, whatever requests were served: the identities
    of the stored designs and of the stored transactions are all different.
    Every stored design is therefore the document that a search of the
    collection by its identity finds, and the one whose report a download of
    its identity writes. *)
Theorem stored_identities_are_unique (calls : list Call) (w0 : World) :
  (forall i j, uuid_source w0 i = uuid_source w0 j -> i = j) ->
  let s := run json_loads c str_float str_exception STRIPE_API_KEY calls (initial w0) in
  NoDup ((TokenomicsProject.id <$> tokenomics_projects s)
         ++ (PaymentTransaction.id <$> payment_transactions s))
  /\ (forall p, p ∈ tokenomics_projects s ->
        find_one (tokenomics_projects s) (TokenomicsProject.id p) = Some p)
  /\ (forall p, p ∈ tokenomics_projects s ->
        (download_pdf str_float (tokenomics_projects s) (tmp_files s)
           (TokenomicsProject.id p)).2 !! pdf_path (TokenomicsProject.id p)
        = Some (generate_pdf_report str_float p)).
Proof.
  intros Hinj. cbn zeta.
  pose proof (run_identities_find calls w0 Hinj) as Hfind.
  destruct (run_drawn json_loads c str_float str_exception STRIPE_API_KEY w0 calls
              (initial w0) (initial_drawn w0)) as (_ & pd & td & Hp & Ht & Hnd & _).
  split; [|split].
  - rewrite Hp, Ht, <- fmap_app. apply NoDup_fmap_2; [exact Hinj | exact Hnd].
  - intros p Hin. exact (Hfind p Hin).
  - intros p Hin. unfold download_pdf. rewrite (Hfind p Hin). cbn [snd].
    apply lookup_insert_eq.
Qed.

Lemma serve_files (s : System) (call : Call) :
  files_are_reports str_float s ->
  files_are_reports str_float
    (serve json_loads c str_float str_exception STRIPE_API_KEY s call).
Proof.
  intros Hs. destruct call as [request reply|pid|pid| | |].
  - rewrite serve_generate. cbn zeta. intros path ops Hpath. cbn in Hpath.
    destruct (Hs path ops Hpath) as (p & Hin & Hp & Hops).
    exists p. cbn. split; [apply elem_of_app; left; exact Hin | split; assumption].
  - exact Hs.
  - intros path ops. cbn. unfold download_pdf.
    destruct (find_one (tokenomics_projects s) pid) as [project|] eqn:Hfind;
      cbn [snd]; [|apply Hs].
    destruct (decide (path = pdf_path pid)) as [->|Hne].
    + rewrite lookup_insert_eq. intros [= <-].
      destruct (find_one_some _ _ _ Hfind) as [Hin Hid].
      exists project. rewrite Hid. repeat split; assumption.
    + rewrite lookup_insert_ne by congruence. apply Hs.
  - destruct (serve_payment json_loads c str_float str_exception STRIPE_API_KEY s
                (PostCheckout package_id origin_url create) I) as (Hproj & Hfiles & _).
    intros path ops. rewrite Hproj, Hfiles. apply Hs.
  - destruct (serve_payment json_loads c str_float str_exception STRIPE_API_KEY s
                (GetCheckoutStatus session_id status_of) I) as (Hproj & Hfiles & _).
    intros path ops. rewrite Hproj, Hfiles. apply Hs.
  - destruct (serve_payment json_loads c str_float str_exception STRIPE_API_KEY s
                (PostWebhook body stripe_signature handle_webhook) I)
      as (Hproj & Hfiles & _).
    intros path ops. rewrite Hproj, Hfiles. apply Hs.
Qed.

Lemma run_files (calls : list Call) (s : System) :
  files_are_reports str_float s ->
  files_are_reports str_float
    (run json_loads c str_float str_exception STRIPE_API_KEY calls s).
Proof.
  revert s. induction calls as [|call calls IH]; intros s Hs; [exact Hs|].
  cbn [run fold_left]. apply IH. apply serve_files. exact Hs.
Qed.

(** X19. Whatever requests were served, every file under /tmp is the
    rendered report of a design that is stored, written at the path made
    from that design's identity; and when the uuid source does not repeat
    itself, the file at the path of a stored design is the report of that
    very design. *)
Theorem files_hold_reports (calls : list Call) (w0 : World) :
  let s := run json_loads c str_float str_exception STRIPE_API_KEY calls (initial w0) in
  files_are_reports str_float s
  /\ ((forall i j, uuid_source w0 i = uuid_source w0 j -> i = j) ->
      forall p ops,
        p ∈ tokenomics_projects s ->
        tmp_files s !! pdf_path (TokenomicsProject.id p) = Some ops ->
        ops = generate_pdf_report str_float p).
Proof.
  cbn zeta.
  assert (Hfiles : files_are_reports str_float
            (run json_loads c str_float str_exception STRIPE_API_KEY calls (initial w0))).
  { apply run_files. intros path ops Hpath. cbn in Hpath.
    rewrite lookup_empty in Hpath. discriminate Hpath. }
  split; [exact Hfiles|].
  intros Hinj p ops Hin Hpath.
  destruct (Hfiles _ _ Hpath) as (q & Hq & Hsame & ->).
  apply pdf_path_inj in Hsame.
  pose proof (run_identities_find calls w0 Hinj p Hin) as Hp.
  pose proof (run_identities_find calls w0 Hinj q Hq) as Hq'.
  rewrite Hsame, Hq' in Hp. injection Hp as ->. reflexivity.
Qed.

End RetrievalFacts.

Lemma stored_designs_are_never_touched_witness :
  Forall untouched
    (tokenomics_projects
       (run small_decoder exact_coercion sample_str_float sample_str_exception
          (Some "sk_test") sample_calls
          (serve small_decoder exact_coercion sample_str_float sample_str_exception
             (Some "sk_test") (initial sample_world)
             (PostGenerate sample_request NoApiKey)))).
Proof.
  destruct (stored_designs_are_never_touched small_decoder exact_coercion
              sample_str_float sample_str_exception (Some "sk_test") sample_calls
              (serve small_decoder exact_coercion sample_str_float sample_str_exception
                 (Some "sk_test") (initial sample_world)
                 (PostGenerate sample_request NoApiKey))
              sample_world) as (_ & H & _).
  apply H. vm_compute. repeat constructor.
Defined.

Lemma stored_identities_are_unique_witness :
  NoDup
    ((TokenomicsProject.id
        <$> tokenomics_projects
              (run small_decoder exact_coercion sample_str_float sample_str_exception
                 (Some "sk_test") sample_calls (initial sample_world)))
     ++ (PaymentTransaction.id
           <$> payment_transactions
                 (run small_decoder exact_coercion sample_str_float
                    sample_str_exception (Some "sk_test") sample_calls
                    (initial sample_world)))).
Proof.
  destruct (stored_identities_are_unique small_decoder exact_coercion sample_str_float
              sample_str_exception (Some "sk_test") sample_calls sample_world)
    as (H & _); [|exact H].
  intros i j. apply unary_inj.
Defined.

Lemma files_hold_reports_witness :
  tmp_files
    (run small_decoder exact_coercion sample_str_float sample_str_exception
       (Some "sk_test") sample_calls (initial sample_world))
  !! pdf_path
       (TokenomicsProject.id
          (generate_tokenomics_with_claude small_decoder exact_coercion sample_request
             (SendFailed ModelTimeout) sample_world).1)
  = Some
      (generate_pdf_report sample_str_float
         (generate_tokenomics_with_claude small_decoder exact_coercion sample_request
            (SendFailed ModelTimeout) sample_world).1).
Proof.
  destruct (files_hold_reports small_decoder exact_coercion sample_str_float
              sample_str_exception (Some "sk_test") sample_calls sample_world)
    as (_ & H).
  destruct (tmp_files
              (run small_decoder exact_coercion sample_str_float sample_str_exception
                 (Some "sk_test") sample_calls (initial sample_world))
            !! pdf_path
                 (TokenomicsProject.id
                    (generate_tokenomics_with_claude small_decoder exact_coercion
                       sample_request (SendFailed ModelTimeout) sample_world).1))
    as [ops|] eqn:Hops.
  - f_equal. apply H; [intros i j; apply unary_inj | vm_compute; left | exact Hops].
  - vm_compute in Hops. discriminate Hops.
Defined.

(** * A payment from checkout to status *)

Lemma find_transaction_app_new (txs : list PaymentTransaction.t)
    (tx : PaymentTransaction.t) (sid : string) :
  find_transaction txs sid = None ->
  PaymentTransaction.session_id tx = sid ->
  find_transaction (txs ++ [tx]) sid = Some tx.
Proof.
  unfold find_transaction. intros Hnone Hsid.
  induction txs as [|t txs IH]; cbn in *.
  - rewrite Hsid, String.eqb_refl. reflexivity.
  - destruct (String.eqb (PaymentTransaction.session_id t) sid); [discriminate|].
    apply IH. exact Hnone.
Qed.

Section PaymentLifecycle.

Variable str_exception : RouteException -> string.
Variable STRIPE_API_KEY : option string.

(** X20. A checkout followed by a status request for the session it
    created: when the payment library accepts both calls and no stored
    transaction has that session yet, the status route answers with the
    library's status and the transaction of the session is the one the
    checkout stored, at the package's price and with its creation time, now
    carrying the reported payment status and the third clock reading as
    update time; no other transaction was added. *)
Theorem checkout_then_status
    (create : string -> string -> CheckoutSessionRequest.t
              -> string + CheckoutSessionResponse.t)
    (status_of : string -> string -> string + CheckoutStatusResponse.t)
    (key package_id origin_url : string) (package : Package.t)
    (session : CheckoutSessionResponse.t) (status : CheckoutStatusResponse.t)
    (txs : list PaymentTransaction.t) (w : World) :
  STRIPE_API_KEY = Some key ->
  PRICING_PACKAGES !! package_id = Some package ->
  create key (origin_url +:+ "/api/webhook/stripe")
    (CheckoutSessionRequest.Build (Package.amount package) "usd"
       (origin_url +:+ "/success?session_id={CHECKOUT_SESSION_ID}")
       (origin_url +:+ "/pricing")
       (<["package_id" := package_id]>
          (<["package_name" := Package.name package]> ∅)))
  = inr session ->
  status_of key (CheckoutSessionResponse.session_id session) = inr status ->
  find_transaction txs (CheckoutSessionResponse.session_id session) = None ->
  let r1 := create_checkout_session str_exception STRIPE_API_KEY create
              package_id origin_url txs w in
  let r2 := get_checkout_status str_exception STRIPE_API_KEY status_of
              (CheckoutSessionResponse.session_id session) r1.1.2 r1.2 in
  r1.1.1 = Returns session
  /\ r2.1.1 = Returns status
  /\ length r2.1.2 = S (length txs)
  /\ exists tx,
       find_transaction r2.1.2 (CheckoutSessionResponse.session_id session) = Some tx
       /\ PaymentTransaction.payment_status tx
          = CheckoutStatusResponse.payment_status status
       /\ PaymentTransaction.amount tx = Package.amount package
       /\ PaymentTransaction.id tx = uuid_source w (uuid_count w)
       /\ PaymentTransaction.created_at tx = clock_source w (clock_count w)
       /\ PaymentTransaction.updated_at tx = clock_source w (S (S (clock_count w))).
Proof.
  intros Hkey Hpackage Hcreate Hstatus Hnone. cbn zeta.
  unfold create_checkout_session, checkout_attempt.
  rewrite Hpackage, Hkey, Hcreate.
  cbn [PaymentTransaction_new uuid4 datetime_now fst snd
       CheckoutSessionRequest.metadata uuid_source uuid_count clock_source
       clock_count].
  unfold get_checkout_status. rewrite Hstatus.
  cbn [datetime_now fst snd uuid_source uuid_count clock_source clock_count].
  split; [reflexivity|]. split; [reflexivity|]. split.
  - pose proof (update_one_frozen (CheckoutSessionResponse.session_id session)
                  (CheckoutStatusResponse.payment_status status)
                  (clock_source w (S (S (clock_count w))))
                  (txs ++ [PaymentTransaction.Build (uuid_source w (uuid_count w))
                             (CheckoutSessionResponse.session_id session)
                             (Package.amount package) "usd" "pending" None
                             (<["package_id" := package_id]>
                                (<["package_name" := Package.name package]> ∅))
                             (clock_source w (clock_count w))
                             (clock_source w (S (clock_count w)))])) as H.
    apply (f_equal length) in H. rewrite !length_fmap, length_app in H.
    cbn [length] in H. rewrite H. lia.
  - rewrite update_one_find.
    erewrite find_transaction_app_new; [|exact Hnone|reflexivity].
    eexists. split; [reflexivity|]. cbn. repeat split.
Qed.

End PaymentLifecycle.

Lemma checkout_then_status_witness :
  PaymentTransaction.payment_status
    <$> find_transaction
          (get_checkout_status sample_str_exception (Some "sk_test") sample_status_of
             "cs_1"
             (create_checkout_session sample_str_exception (Some "sk_test")
                sample_create "pro" "https://app.example" [] sample_world).1.2
             (create_checkout_session sample_str_exception (Some "sk_test")
                sample_create "pro" "https://app.example" [] sample_world).2).1.2
          "cs_1"
  = Some "paid".
Proof.
  destruct (checkout_then_status sample_str_exception (Some "sk_test") sample_create
              sample_status_of "sk_test" "pro" "https://app.example"
              (Package.Build 199 "Pro Tokenomics"
                 "Advanced tokenomics with multiple iterations and comparisons")
              (CheckoutSessionResponse.Build "https://checkout.example/cs_1" "cs_1")
              (CheckoutStatusResponse.Build "complete" "paid")
              [] sample_world eq_refl)
    as (_ & _ & _ & tx & Hfind & Hstatus & _);
    [vm_compute; reflexivity | reflexivity | reflexivity | reflexivity |].
  cbn [CheckoutSessionResponse.session_id] in Hfind. rewrite Hfind.
  cbn [fmap option_fmap option_map]. rewrite Hstatus. reflexivity.
Defined.

(** * The narrative in the report *)

Lemma join_snoc (l : list string) (w : string) :
  l <> [] -> Py.join " " (l ++ [w]) = Py.join " " l +:+ " " +:+ w.
Proof.
  unfold Py.join. induction l as [|a l IH]; intros Hl; [congruence|].
  destruct l as [|b l].
  - reflexivity.
  - change (String.concat " " ((a :: b :: l) ++ [w]))
      with (a +:+ " " +:+ String.concat " " ((b :: l) ++ [w])).
    rewrite IH by discriminate.
    change (String.concat " " (a :: b :: l))
      with (a +:+ " " +:+ String.concat " " (b :: l)).
    rewrite !append_assoc. reflexivity.
Qed.

Lemma single_spaced_word (w : string) : is_word w -> single_spaced w.
Proof. intros Hw. unfold single_spaced. rewrite (split_word w Hw). reflexivity. Qed.

Lemma single_spaced_extend (cur w : string) :
  single_spaced cur -> cur <> EmptyString -> is_word w ->
  single_spaced (cur +:+ " " +:+ w).
Proof.
  unfold single_spaced. intros Hcur Hne Hw.
  rewrite (split_append_word cur w Hw).
  rewrite join_snoc; [rewrite <- Hcur; reflexivity|].
  intros Hnil. rewrite Hnil in Hcur. apply Hne. exact Hcur.
Qed.

Lemma wrap_fold_single_spaced (ws lines : list string) (cur : string) :
  Forall is_word ws -> Forall single_spaced lines -> single_spaced cur ->
  Forall single_spaced (fold_left wrap_step ws (lines, cur)).1
  /\ single_spaced (fold_left wrap_step ws (lines, cur)).2.
Proof.
  revert lines cur. induction ws as [|w ws IH]; intros lines cur Hws Hl Hc.
  - split; assumption.
  - apply Forall_cons in Hws as [Hw Hws]. cbn [fold_left]. unfold wrap_step at 2 4.
    destruct (String.length (cur +:+ " " +:+ w) <? 90)%nat.
    + apply IH; [exact Hws | exact Hl |].
      destruct cur as [|ch cur]; cbn [Py.truthy].
      * apply single_spaced_word. exact Hw.
      * apply single_spaced_extend; [exact Hc | discriminate | exact Hw].
    + apply IH; [exact Hws | | apply single_spaced_word; exact Hw].
      apply Forall_app. split; [exact Hl | constructor; [exact Hc | constructor]].
Qed.

Lemma wrap_lines_single_spaced (ws : list string) :
  Forall is_word ws -> Forall single_spaced (wrap_lines ws).
Proof.
  intros Hws.
  destruct (wrap_fold_single_spaced ws [] EmptyString Hws) as [Hl Hc];
    [constructor | reflexivity |].
  unfold wrap_lines. destruct (fold_left wrap_step ws ([], EmptyString)) as [lines cur].
  cbn [fst snd] in *. destruct (Py.truthy cur); [|exact Hl].
  apply Forall_app. split; [exact Hl | constructor; [exact Hc | constructor]].
Qed.

Lemma wrap_lines_greedy (ws : list string) :
  Forall is_word ws -> adjacent no_room (wrap_lines ws).
Proof.
  intros Hws.
  destruct (wrap_fold_greedy ws [] EmptyString Hws I) as [Hadj Hlast]; [discriminate|].
  unfold wrap_lines.
  destruct (fold_left wrap_step ws ([], EmptyString)) as [lines cur].
  cbn [fst snd] in *. destruct (Py.truthy cur); [|exact Hadj].
  apply adjacent_snoc; assumption.
Qed.

Lemma generate_pdf_report_sections (str_float : float -> string)
    (project : TokenomicsProject.t) :
  generate_pdf_report str_float project
  = ((draw_header project).1
     ++ (draw_allocations str_float (TokenomicsProject.allocations project)
           (draw_header project).2).1
     ++ narrative_heading.1)
    ++ (draw_narrative project).1
    ++ draw_closing project (draw_narrative project).2.
Proof.
  unfold generate_pdf_report.
  destruct (draw_header project) as [header y1]. cbn [fst snd].
  destruct (draw_allocations str_float _ y1) as [rows y2].
  destruct (draw_narrative project) as [body y3].
  cbn [fst snd]. rewrite <- !app_assoc. reflexivity.
Qed.

Lemma generate_pdf_report_texts (str_float : float -> string)
    (project : TokenomicsProject.t) :
  all_text (generate_pdf_report str_float project)
  = texts_before_narrative str_float (TokenomicsProject.project_name project)
      (TokenomicsProject.request_data project)
      (TokenomicsProject.total_supply project)
      (TokenomicsProject.allocations project)
    ++ wrap_lines (Py.split (TokenomicsProject.narrative project))
    ++ texts_after_narrative (TokenomicsProject.risks project)
         (TokenomicsProject.comparable_projects project).
Proof.
  unfold generate_pdf_report, texts_before_narrative, texts_after_narrative,
    draw_narrative, draw_closing.
  destruct (draw_header project) as [header y1] eqn:Hheader.
  pose proof (draw_allocations_all_text str_float
                (TokenomicsProject.allocations project) y1) as Hrows.
  destruct (draw_allocations str_float _ y1) as [rows y2].
  pose proof (draw_lines_all_text
                (wrap_lines (Py.split (TokenomicsProject.narrative project)))
                narrative_heading.2) as Hbody.
  destruct (draw_lines _ narrative_heading.2) as [body y3].
  pose proof (draw_risks_all_text (TokenomicsProject.risks project) 1
                (y3 - 30 - 20)) as Hrisks.
  destruct (draw_risks 1 _ (y3 - 30 - 20)) as [risk_ops y4].
  cbn [fst snd] in *. injection Hheader as <- _.
  rewrite !all_text_app, Hrows, Hbody, Hrisks. cbn [all_text omap].
  rewrite <- !app_assoc. reflexivity.
Qed.

(** C7. The narrative is split into words and wrapped to a width of 90
    characters: every line is its words joined by single spaces and is
    shorter than 90 characters unless it is a single word, and a line ends
    only where the next word did not fit (with a space and that word it
    would have had 90 characters or more).  The lines are drawn in order,
    the first at the cursor left by the heading, each next one 15 points
    lower, and when that would be below the bottom margin a page break comes
    first and the line is drawn at the top margin; every text is drawn
    between the margins.  The words of the drawn lines are the words of the
    narrative, each once and in the original order.  The report is the
    header, the allocation rows and the narrative heading, then these lines,
    then the closing sections, and nothing else: its text is the text before
    the narrative, the wrapped lines once, and the text after the narrative,
    neither of which is made from the narrative.  A narrative of more than
    41 lines (what fits under the heading) gives a report with more than one
    page boundary. *)
Theorem narrative_is_wrapped_and_paginated (str_float : float -> string)
    (project : TokenomicsProject.t) :
  let words := Py.split (TokenomicsProject.narrative project) in
  let lines := wrap_lines words in
  let body := (draw_narrative project).1 in
  Forall (fits words) lines
  /\ Forall single_spaced lines
  /\ adjacent no_room lines
  /\ concat (Py.split <$> lines) = words
  /\ drawn_text body = lines
  /\ concat (Py.split <$> drawn_text body) = words
  /\ generate_pdf_report str_float project
     = ((draw_header project).1
        ++ (draw_allocations str_float (TokenomicsProject.allocations project)
              (draw_header project).2).1
        ++ narrative_heading.1)
       ++ body
       ++ draw_closing project (draw_narrative project).2
  /\ all_text (generate_pdf_report str_float project)
     = texts_before_narrative str_float (TokenomicsProject.project_name project)
         (TokenomicsProject.request_data project)
         (TokenomicsProject.total_supply project)
         (TokenomicsProject.allocations project)
       ++ lines
       ++ texts_after_narrative (TokenomicsProject.risks project)
            (TokenomicsProject.comparable_projects project)
  /\ (forall line rest, lines = line :: rest ->
        exists ops, body = DrawString 50 (height - 50 - 40) line :: ops)
  /\ chained cursor_rule body
  /\ Forall on_page body
  /\ (41 < length lines ->
      1 < page_breaks (generate_pdf_report str_float project)).
Proof.
  cbn zeta. unfold draw_narrative at 1 2 3 4 5 6.
  set (words := Py.split (TokenomicsProject.narrative project)).
  set (lines := wrap_lines words).
  assert (Hsplit : Forall is_word words) by apply split_words.
  assert (Hwords : concat (Py.split <$> lines) = words)
    by (apply wrap_lines_words; exact Hsplit).
  split; [apply wrap_lines_fit|].
  split; [apply wrap_lines_single_spaced; exact Hsplit|].
  split; [apply wrap_lines_greedy; exact Hsplit|].
  split; [exact Hwords|].
  split; [apply draw_lines_text|].
  split; [rewrite draw_lines_text; exact Hwords|].
  split; [apply generate_pdf_report_sections|].
  split; [apply generate_pdf_report_texts|].
  split; [|split; [|split]].
  - intros line rest Hlines. rewrite Hlines. apply draw_lines_head.
    unfold narrative_heading, height. cbn. lia.
  - apply (chained_tail _ (DrawString 50 (narrative_heading.2 + 15) EmptyString)).
    apply draw_lines_chained.
  - apply draw_lines_on_page. unfold narrative_heading, height. cbn. lia.
  - intros Hlong.
    destruct (generate_pdf_report_parts str_float project) as (front & back & ->).
    unfold draw_narrative. fold words. fold lines.
    rewrite !page_breaks_app.
    change (page_breaks narrative_heading.1) with 1.
    destruct (page_breaks (draw_lines lines narrative_heading.2).1) as [|k] eqn:Hnone;
      [|lia].
    exfalso.
    destruct (length lines) as [|n] eqn:Hlen; [lia|].
    pose proof (draw_lines_one_page lines narrative_heading.2 n Hnone Hlen) as Hfit.
    unfold narrative_heading, height in Hfit. cbn in Hfit. lia.
Qed.

Lemma narrative_is_wrapped_and_paginated_witness :
  1 < page_breaks (generate_pdf_report sample_str_float long_project)
  /\ exists ops,
       (draw_narrative long_project).1 = DrawString 50 702 long_word :: ops.
Proof.
  destruct (narrative_is_wrapped_and_paginated sample_str_float long_project)
    as (_ & _ & _ & _ & _ & _ & _ & _ & Hfirst & _ & _ & Hpages).
  split.
  - apply Hpages. apply Nat.ltb_lt. vm_compute. reflexivity.
  - apply (Hfirst long_word (repeat long_word 41)). vm_compute. reflexivity.
Defined.
